(** * Gotobi Fixing Notifier: a shallow embedding of [gotobi_notifier.py]

    The calendar engine (business-day roll-back, candidate base days,
    fixing-day determination), the notification window test and the
    once-per-fixing-day run logic of [run_once] / [main], embedded as Rocq
    functions and verified against the properties stated for them.

    Python integers are [Z]; holiday key sets are [gset Z]; the persisted
    state dictionary is a [gmap string json]; exceptions are an explicit
    [result] type; the effects of [run_once] and [main] (file reads, clock,
    notification transports, state file, sleeping, printing) thread an
    explicit [world]. *)

From Stdlib Require Import ZArith Bool List Lia Sorted.
From stdpp Require Import base decidable option list gmap strings pretty.

Local Open Scope Z_scope.

(** ** Exceptions *)

(** The exception classes that the program raises or distinguishes in its
    handlers.  [OtherException] stands for any class that only the final
    [except Exception] clause of [main] catches. *)
Inductive exn : Type :=
  | FileNotFoundError
  | ValueError
  | OverflowError
  | TypeError
  | HTTPError
  | URLError
  | OtherException.

Inductive result (A : Type) : Type :=
  | Ok (a : A)
  | Raise (e : exn).
Arguments Ok {A} a.
Arguments Raise {A} e.

Definition rbind {A B} (r : result A) (k : A -> result B) : result B :=
  match r with
  | Ok a => k a
  | Raise e => Raise e
  end.

Notation "'let?' x := r 'in' k" := (rbind r (fun x => k))
  (at level 10, x pattern, r at level 100, k at level 200).

(** ** Civil dates ([datetime.date]) *)

Record date : Type := Date { year : Z; month : Z; day : Z }.

Definition MINYEAR : Z := 1.
Definition MAXYEAR : Z := 9999.

Definition _date_key (d : date) : Z :=
  year d * 10000 + month d * 100 + day d.

Definition _is_leap_year (y : Z) : bool :=
  (y mod 400 =? 0) || ((y mod 4 =? 0) && negb (y mod 100 =? 0)).

Definition month_in (m : Z) (ms : list Z) : bool :=
  existsb (Z.eqb m) ms.

Definition _days_in_month (y m : Z) : Z :=
  if m =? 2 then (if _is_leap_year y then 29 else 28)
  else if month_in m [1; 3; 5; 7; 8; 10; 12] then 31
  else 30.

Definition _is_yearend_closure_day (d : date) : bool :=
  ((month d =? 12) && (day d =? 31))
  || ((month d =? 1) && ((1 <=? day d) && (day d <=? 3))).

(** A [datetime.date] object always satisfies the constructor's range
    checks; [valid_date] is that invariant. *)
Definition valid_date (d : date) : bool :=
  (MINYEAR <=? year d) && (year d <=? MAXYEAR)
  && (1 <=? month d) && (month d <=? 12)
  && (1 <=? day d) && (day d <=? _days_in_month (year d) (month d)).

(** [dt.date(y, m, d)]: raises [ValueError] outside the valid range. *)
Definition mk_date (y m d : Z) : result date :=
  if valid_date (Date y m d) then Ok (Date y m d) else Raise ValueError.

Definition date_eqb (a b : date) : bool :=
  (year a =? year b) && (month a =? month b) && (day a =? day b).

(** Proleptic Gregorian ordinal ([date.toordinal]), 0001-01-01 being day 1. *)
Definition days_before_year (y : Z) : Z :=
  let p := y - 1 in p * 365 + p / 4 - p / 100 + p / 400.

Definition days_before_month (y m : Z) : Z :=
  nth (Z.to_nat m) [0; 0; 31; 59; 90; 120; 151; 181; 212; 243; 273; 304; 334] 0
  + (if (2 <? m) && _is_leap_year y then 1 else 0).

Definition toordinal (d : date) : Z :=
  days_before_year (year d) + days_before_month (year d) (month d) + day d.

(** [date.weekday()]: Monday is 0, Sunday is 6. *)
Definition weekday (d : date) : Z := (toordinal d + 6) mod 7.

(** [d - timedelta(days=1)]: the previous calendar day; Python raises
    [OverflowError] when the result would precede 0001-01-01. *)
Definition date_sub1 (d : date) : result date :=
  if 1 <? day d then Ok (Date (year d) (month d) (day d - 1))
  else if 1 <? month d then
    Ok (Date (year d) (month d - 1) (_days_in_month (year d) (month d - 1)))
  else if MINYEAR <? year d then Ok (Date (year d - 1) 12 31)
  else Raise OverflowError.

(** [d + timedelta(days=1)]: the next calendar day; [OverflowError] past
    9999-12-31. *)
Definition date_add1 (d : date) : result date :=
  if day d <? _days_in_month (year d) (month d) then
    Ok (Date (year d) (month d) (day d + 1))
  else if month d <? 12 then Ok (Date (year d) (month d + 1) 1)
  else if year d <? MAXYEAR then Ok (Date (year d + 1) 1 1)
  else Raise OverflowError.

(** [d - timedelta(days=n)] by [n] single steps. *)
Fixpoint date_sub_days (n : nat) (d : date) : result date :=
  match n with
  | O => Ok d
  | S n' => let? p := date_sub1 d in date_sub_days n' p
  end.

(** ** Instants in the observer time zone ([datetime.datetime], tzinfo=JST)

    Every [datetime] the program handles carries the same [JST] tzinfo
    object, so only the wall-clock fields are kept. *)

Record datetime : Type := DateTime {
  dt_date : date;
  hour : Z;
  minute : Z;
  second : Z;
  microsecond : Z
}.

Definition valid_time (h mi s us : Z) : bool :=
  (0 <=? h) && (h <=? 23) && (0 <=? mi) && (mi <=? 59)
  && (0 <=? s) && (s <=? 59) && (0 <=? us) && (us <=? 999999).

Definition valid_datetime (t : datetime) : bool :=
  valid_date (dt_date t)
  && valid_time (hour t) (minute t) (second t) (microsecond t).

(** [dt.datetime(d.year, d.month, d.day, h, mi, tzinfo=JST)] for a date
    object [d]: the time fields are range-checked, seconds and microseconds
    default to 0. *)
Definition mk_datetime (d : date) (h mi : Z) : result datetime :=
  if valid_time h mi 0 0 then Ok (DateTime d h mi 0 0) else Raise ValueError.

(** Comparison of two datetimes with the same tzinfo: Python compares the
    field tuples (year, month, day, hour, minute, second, microsecond)
    lexicographically. *)
Definition dt_fields (t : datetime) : list Z :=
  [year (dt_date t); month (dt_date t); day (dt_date t);
   hour t; minute t; second t; microsecond t].

Fixpoint tuple_cmp (a b : list Z) : comparison :=
  match a, b with
  | [], [] => Eq
  | [], _ :: _ => Lt
  | _ :: _, [] => Gt
  | x :: a', y :: b' =>
      match x ?= y with
      | Eq => tuple_cmp a' b'
      | c => c
      end
  end.

Definition dt_le (a b : datetime) : bool :=
  match tuple_cmp (dt_fields a) (dt_fields b) with Gt => false | _ => true end.

Definition dt_lt (a b : datetime) : bool :=
  match tuple_cmp (dt_fields a) (dt_fields b) with Lt => true | _ => false end.

(** The position of a datetime on the time line, in microseconds since the
    (fictitious) midnight that starts ordinal day 0. *)
Definition instant (t : datetime) : Z :=
  (((toordinal (dt_date t) * 24 + hour t) * 60 + minute t) * 60 + second t)
  * 1000000 + microsecond t.

(** ** Configuration *)

Record Config : Type := mkConfig {
  include_day31 : bool;
  include_feb_last_day : bool;
  exclude_yearend_bank_closure : bool;
  enable_holiday_jp : bool;
  enable_holiday_us : bool;
  holiday_csv_jp : string;
  holiday_csv_us : string;
  enforce_window : bool;
  window_prev_day_start_hhmm : Z * Z;
  window_fixing_end_hhmm : Z * Z;
  ntfy_server : string;
  ntfy_topic_raw : string;
  ntfy_title : string;
  ntfy_priority : string;
  state_file : string;
  notify_mode : string;
  test_now_jst : option datetime;
  enable_ntfy : bool;
  enable_state_update : bool
}.

(** The dataclass defaults. *)
Definition default_config : Config := {|
  include_day31 := true;
  include_feb_last_day := true;
  exclude_yearend_bank_closure := true;
  enable_holiday_jp := true;
  enable_holiday_us := true;
  holiday_csv_jp := "jp_holidays.csv";
  holiday_csv_us := "fed_bank_holidays.csv";
  enforce_window := true;
  window_prev_day_start_hhmm := (10, 0);
  window_fixing_end_hhmm := (9, 55);
  ntfy_server := "https://ntfy.sh";
  ntfy_topic_raw := "your_topic_here";
  ntfy_title := "gotobi-fixing";
  ntfy_priority := "default";
  state_file := "gotobi-fixing.state.json";
  notify_mode := "ntfy";
  test_now_jst := None;
  enable_ntfy := true;
  enable_state_update := true
|}.

(** ** Calendar classifier and business-day normalizer *)

Definition _is_holiday (d : date) (holiday_keys : gset Z) : bool :=
  bool_decide (_date_key d ∈ holiday_keys).

(** The three flags computed in the body of the loop of
    [normalize_biz_day], and their disjunction. *)
Definition is_weekend (cur : date) : bool := 5 <=? weekday cur.

Definition is_holiday_any (cur : date)
    (holiday_keys_jp holiday_keys_us : option (gset Z)) (cfg : Config) : bool :=
  let h := false in
  let h :=
    match holiday_keys_jp with
    | Some keys =>
        if enable_holiday_jp cfg then h || _is_holiday cur keys else h
    | None => h
    end in
  let h :=
    match holiday_keys_us with
    | Some keys =>
        if enable_holiday_us cfg then h || _is_holiday cur keys else h
    | None => h
    end in
  h.

Definition is_yearend (cur : date) (cfg : Config) : bool :=
  exclude_yearend_bank_closure cfg && _is_yearend_closure_day cur.

Definition is_business_day (cur : date)
    (holiday_keys_jp holiday_keys_us : option (gset Z)) (cfg : Config) : bool :=
  negb (is_weekend cur)
  && negb (is_holiday_any cur holiday_keys_jp holiday_keys_us cfg)
  && negb (is_yearend cur cfg).

(** The [for _ in range(n)] loop of [normalize_biz_day], [n] iterations
    left; falling out of the loop returns the current date unchecked. *)
Fixpoint normalize_loop (n : nat) (cur : date)
    (holiday_keys_jp holiday_keys_us : option (gset Z)) (cfg : Config)
    : result date :=
  match n with
  | O => Ok cur
  | S n' =>
      if is_business_day cur holiday_keys_jp holiday_keys_us cfg then Ok cur
      else
        let? prev := date_sub1 cur in
        normalize_loop n' prev holiday_keys_jp holiday_keys_us cfg
  end.

Definition normalize_biz_day (d : date)
    (holiday_keys_jp holiday_keys_us : option (gset Z)) (cfg : Config)
    : result date :=
  normalize_loop 60 d holiday_keys_jp holiday_keys_us cfg.

(** The same loop, recording the dates whose business-day status it
    inspects, in order. *)
Fixpoint normalize_inspected (n : nat) (cur : date)
    (holiday_keys_jp holiday_keys_us : option (gset Z)) (cfg : Config)
    : list date :=
  match n with
  | O => []
  | S n' =>
      cur ::
      (if is_business_day cur holiday_keys_jp holiday_keys_us cfg then []
       else
         match date_sub1 cur with
         | Ok prev =>
             normalize_inspected n' prev holiday_keys_jp holiday_keys_us cfg
         | Raise _ => []
         end)
  end.

(** None of the [k] dates [d], [d - 1 day], ..., [d - (k-1) days] is a
    business day. *)
Definition none_business_before
    (holiday_keys_jp holiday_keys_us : option (gset Z)) (cfg : Config)
    (k : nat) (d : date) : Prop :=
  forall j dj, (j < k)%nat -> date_sub_days j d = Ok dj ->
    is_business_day dj holiday_keys_jp holiday_keys_us cfg = false.

(** The keys of the [n] consecutive days that end at [d], and a holiday
    file that closes the 61 days up to 2026-03-31. *)
Fixpoint keys_back (n : nat) (d : date) : list Z :=
  match n with
  | O => []
  | S n' =>
      _date_key d ::
      match date_sub1 d with Ok p => keys_back n' p | Raise _ => [] end
  end.

Definition long_closure_keys : gset Z :=
  list_to_set (keys_back 61 (Date 2026 3 31)).

(** ** Fixing-day engine *)

Definition build_gotobi_base_days (y m : Z) (cfg : Config) : list Z :=
  let dim := _days_in_month y m in
  let days := List.filter (fun d => d <=? dim) [5; 10; 15; 20; 25; 30] in
  let days :=
    if include_day31 cfg && (31 <=? dim) then
      if negb (exclude_yearend_bank_closure cfg && (m =? 12))
      then days ++ [31] else days
    else days in
  let days :=
    if include_feb_last_day cfg && (m =? 2) then days ++ [dim] else days in
  days.

(** The loop of [is_fixing_day] over the remaining candidate base days. *)
Fixpoint is_fixing_loop (bases : list Z) (target : date)
    (holiday_keys_jp holiday_keys_us : option (gset Z)) (cfg : Config)
    : result (bool * Z) :=
  match bases with
  | [] => Ok (false, 0)
  | base_day :: rest =>
      let? base_date := mk_date (year target) (month target) base_day in
      let? normalized :=
        normalize_biz_day base_date holiday_keys_jp holiday_keys_us cfg in
      if exclude_yearend_bank_closure cfg && _is_yearend_closure_day normalized
      then is_fixing_loop rest target holiday_keys_jp holiday_keys_us cfg
      else if date_eqb normalized target then Ok (true, base_day)
      else is_fixing_loop rest target holiday_keys_jp holiday_keys_us cfg
  end.

Definition is_fixing_day (target : date)
    (holiday_keys_jp holiday_keys_us : option (gset Z)) (cfg : Config)
    : result (bool * Z) :=
  is_fixing_loop (build_gotobi_base_days (year target) (month target) cfg)
    target holiday_keys_jp holiday_keys_us cfg.

Definition choose_fixing_date (now_jst : datetime)
    (holiday_keys_jp holiday_keys_us : option (gset Z)) (cfg : Config)
    : result (option date * Z) :=
  let today := dt_date now_jst in
  let? tomorrow := date_add1 today in
  let? (ok_today, base_today) :=
    is_fixing_day today holiday_keys_jp holiday_keys_us cfg in
  if ok_today then Ok (Some today, base_today)
  else
    let? (ok_tom, base_tom) :=
      is_fixing_day tomorrow holiday_keys_jp holiday_keys_us cfg in
    if ok_tom then Ok (Some tomorrow, base_tom)
    else Ok (None, 0).

(** ** Window evaluator *)

Definition in_notify_window (now_jst : datetime) (fixing_date : date)
    (cfg : Config) : result bool :=
  let? prev_date := date_sub1 fixing_date in
  let '(sh, sm) := window_prev_day_start_hhmm cfg in
  let '(eh, em) := window_fixing_end_hhmm cfg in
  let? window_start := mk_datetime prev_date sh sm in
  let? window_end := mk_datetime fixing_date eh em in
  Ok (dt_le window_start now_jst && dt_lt now_jst window_end).

(** ** The environment of a run

    [run_once] reads two holiday CSV files, the clock and the state file,
    calls a notification transport, writes the state file and prints.  The
    [world] makes these explicit.

    - A holiday CSV is represented by the set of date keys that the
      line-and-token reader of [load_holiday_keys] collects from it; a path
      with no entry is a missing file.
    - The state file is represented by the JSON document it holds.
    - The outcomes of the transports are oracles indexed by the number of
      calls made so far, and so are the readings of the wall clock.
    - [w_events] is the trace of externally visible actions, oldest first.

    Writing the state file is taken to succeed, and the state file and the
    holiday files are taken to be different files. *)

(** JSON values as far as [int(x or 0)] can tell them apart: a float is
    represented by what [int] makes of it (its truncation, or the error
    raised for an infinity or a NaN), an array or object by whether it is
    empty. *)
Inductive json : Type :=
  | JNull
  | JBool (b : bool)
  | JInt (n : Z)
  | JFloat (as_int : result Z)
  | JStr (s : string)
  | JCompound (empty : bool).

Inductive state_doc : Type :=
  | NotADict        (* unparseable, or valid JSON that is not an object *)
  | JsonDict (obj : gmap string json).

(** The rendered alert text, kept as the values its template interpolates. *)
Record message : Type := Message {
  msg_fixing_date : date;
  msg_base_day : Z;
  msg_rem_hours : Z;
  msg_rem_mins : Z
}.

Inductive log_line : Type :=
  | LogNoFixing (now : datetime)
  | LogOutsideWindow (now : datetime) (fixing : date)
  | LogAlreadyNotified (now : datetime) (fixing_key : Z)
  | LogNotify (now : datetime) (msg : message)
  | LogLocalWarn (now : datetime)
  | LogSkipNtfy (now : datetime)
  | LogStateUpdated (now : datetime) (path : string)
  | LogSkipState (now : datetime)
  | ErrInput (e : exn)
  | ErrHTTP
  | ErrURL
  | ErrUnexpected (e : exn).

Inductive event : Type :=
  | EvPrint (l : log_line)
  | EvNtfy (server topic title priority : string) (msg : message)
  | EvLocal (title : string) (msg : message)
  | EvSaveState (path : string) (obj : gmap string json)
  | EvSleep (seconds : Z).

Record world : Type := World {
  w_csv : gmap string (gset Z);
  w_state_files : gmap string state_doc;
  w_time : nat -> datetime;
  w_now_calls : nat;
  w_ntfy : nat -> option exn;
  w_local : nat -> bool;
  w_events : list event
}.

Definition is_ntfy_call (ev : event) : bool :=
  match ev with EvNtfy _ _ _ _ _ => true | _ => false end.

Definition is_local_call (ev : event) : bool :=
  match ev with EvLocal _ _ => true | _ => false end.

Definition is_dispatch (ev : event) : bool :=
  is_ntfy_call ev || is_local_call ev.

Definition is_sleep (ev : event) : bool :=
  match ev with EvSleep _ => true | _ => false end.

Definition count_events (p : event -> bool) (w : world) : nat :=
  length (List.filter p (w_events w)).

(** *** The state-and-exception monad of a run *)

Definition M (A : Type) : Type := world -> result A * world.

Definition ret {A} (a : A) : M A := fun w => (Ok a, w).

Definition bind {A B} (m : M A) (k : A -> M B) : M B :=
  fun w =>
    match m w with
    | (Ok a, w') => k a w'
    | (Raise e, w') => (Raise e, w')
    end.

Definition lift {A} (r : result A) : M A := fun w => (r, w).

Notation "x <- m ;; k" := (bind m (fun x => k))
  (at level 100, m at next level, right associativity).
Notation "m ;; k" := (bind m (fun _ => k))
  (at level 100, right associativity).

Definition emit (ev : event) : M unit :=
  fun w =>
    (Ok tt,
     {| w_csv := w_csv w; w_state_files := w_state_files w;
        w_time := w_time w; w_now_calls := w_now_calls w;
        w_ntfy := w_ntfy w; w_local := w_local w;
        w_events := w_events w ++ [ev] |}).

Definition print (l : log_line) : M unit := emit (EvPrint l).

(** [dt.datetime.now(tz=JST)] *)
Definition datetime_now : M datetime :=
  fun w =>
    (Ok (w_time w (w_now_calls w)),
     {| w_csv := w_csv w; w_state_files := w_state_files w;
        w_time := w_time w; w_now_calls := S (w_now_calls w);
        w_ntfy := w_ntfy w; w_local := w_local w;
        w_events := w_events w |}).

(** [time.sleep(seconds)] *)
Definition sleep (seconds : Z) : M unit := emit (EvSleep seconds).

Definition load_holiday_keys (csv_path : string) : M (gset Z) :=
  fun w =>
    match w_csv w !! csv_path with
    | None => (Raise FileNotFoundError, w)
    | Some keys =>
        if decide (keys = ∅) then (Raise ValueError, w) else (Ok keys, w)
    end.

(** What [load_state] makes of the file: a missing file, unparseable
    content and a non-object document all read as the empty dictionary. *)
Definition read_state (path : string) (w : world) : gmap string json :=
  match w_state_files w !! path with
  | Some (JsonDict obj) => obj
  | Some NotADict | None => ∅
  end.

Definition load_state (path : string) : M (gmap string json) :=
  fun w => (Ok (read_state path w), w).

Definition save_state (path : string) (obj : gmap string json) : M unit :=
  fun w =>
    (Ok tt,
     {| w_csv := w_csv w;
        w_state_files := <[path := JsonDict obj]> (w_state_files w);
        w_time := w_time w; w_now_calls := w_now_calls w;
        w_ntfy := w_ntfy w; w_local := w_local w;
        w_events := w_events w ++ [EvSaveState path obj] |}).

Definition ntfy_publish (server topic title priority : string)
    (msg : message) : M unit :=
  fun w =>
    let outcome := w_ntfy w (count_events is_ntfy_call w) in
    match emit (EvNtfy server topic title priority msg) w with
    | (_, w') =>
        match outcome with
        | None => (Ok tt, w')
        | Some e => (Raise e, w')
        end
    end.

Definition local_notify (title : string) (msg : message) : M bool :=
  fun w =>
    let outcome := w_local w (count_events is_local_call w) in
    match emit (EvLocal title msg) w with
    | (_, w') => (Ok outcome, w')
    end.

(** ** Message and state payload *)

Definition build_message (now_jst : datetime) (fixing_date : date)
    (base_day : Z) : message :=
  let fixing955 := DateTime fixing_date 9 55 0 0 in
  let remaining_minutes :=
    Z.max 0 ((instant fixing955 - instant now_jst) / 60000000) in
  Message fixing_date base_day
    (remaining_minutes / 60) (remaining_minutes mod 60).

(** Decimal rendering with zero padding to [width] digits ([{n:0wd}]). *)
Fixpoint zeros (n : nat) : string :=
  match n with O => "" | S n' => "0" +:+ zeros n' end.

Definition zfill (width : nat) (n : Z) : string :=
  let s := pretty n in
  zeros (Nat.sub width (String.length s)) +:+ s.

(** [datetime.isoformat()] of a JST datetime. *)
Definition isoformat (t : datetime) : string :=
  zfill 4 (year (dt_date t)) +:+ "-" +:+ zfill 2 (month (dt_date t)) +:+ "-"
  +:+ zfill 2 (day (dt_date t)) +:+ "T" +:+ zfill 2 (hour t) +:+ ":"
  +:+ zfill 2 (minute t) +:+ ":" +:+ zfill 2 (second t)
  +:+ (if microsecond t =? 0 then "" else "." +:+ zfill 6 (microsecond t))
  +:+ "+09:00".

Section Run.

(** Python's built-in [int] applied to a string read from the state file
    (the parsed integer, or the [ValueError] it raises). *)
Variable py_int_of_str : string -> result Z.

(** [int(state.get(key) or 0)].  A float that truncates to 0 yields 0
    whether or not it is falsy, so its truth value is read off its
    truncation. *)
Definition py_truthy (v : json) : bool :=
  match v with
  | JNull => false
  | JBool b => b
  | JInt n => negb (n =? 0)
  | JFloat r => match r with Ok 0 => false | _ => true end
  | JStr s => negb (String.eqb s "")
  | JCompound empty => negb empty
  end.

Definition py_int (v : json) : result Z :=
  match v with
  | JNull => Raise TypeError
  | JBool b => Ok (if b then 1 else 0)
  | JInt n => Ok n
  | JFloat r => r
  | JStr s => py_int_of_str s
  | JCompound _ => Raise TypeError
  end.

Definition int_or_0 (x : option json) : result Z :=
  match x with
  | Some v => if py_truthy v then py_int v else Ok 0
  | None => Ok 0
  end.

Definition state_payload (cfg : Config) (fixing_key : Z) (now_jst : datetime)
    : list (string * json) :=
  [("last_notified_fixing_yyyymmdd", JInt fixing_key);
   ("last_notified_at_jst", JStr (isoformat now_jst));
   ("notify_mode", JStr (notify_mode cfg))]
  ++ (if String.eqb (notify_mode cfg) "ntfy"
      then [("ntfy_server", JStr (ntfy_server cfg));
            ("ntfy_topic", JStr (ntfy_topic_raw cfg))]
      else []).

(** [dict.update]: later entries win. *)
Definition dict_update (state : gmap string json)
    (payload : list (string * json)) : gmap string json :=
  fold_left (fun m kv => <[kv.1 := kv.2]> m) payload state.

(** ** One evaluation: [run_once] *)

Definition run_once (cfg : Config) : M Z :=
  now_jst <- match test_now_jst cfg with
             | Some t => ret t
             | None => datetime_now
             end ;;
  holiday_keys_jp <-
    (if enable_holiday_jp cfg
     then keys <- load_holiday_keys (holiday_csv_jp cfg) ;; ret (Some keys)
     else ret None) ;;
  holiday_keys_us <-
    (if enable_holiday_us cfg
     then keys <- load_holiday_keys (holiday_csv_us cfg) ;; ret (Some keys)
     else ret None) ;;
  chosen <-
    lift (choose_fixing_date now_jst holiday_keys_jp holiday_keys_us cfg) ;;
  match chosen with
  | (None, _) => print (LogNoFixing now_jst) ;; ret 0
  | (Some fixing_date, base_day) =>
      outside <-
        (if enforce_window cfg
         then inside <- lift (in_notify_window now_jst fixing_date cfg) ;;
              ret (negb inside)
         else ret false) ;;
      if outside : bool then
        print (LogOutsideWindow now_jst fixing_date) ;; ret 0
      else
        let fixing_key := _date_key fixing_date in
        state <- load_state (state_file cfg) ;;
        last_key <-
          lift (int_or_0 (state !! "last_notified_fixing_yyyymmdd")) ;;
        if last_key =? fixing_key then
          print (LogAlreadyNotified now_jst fixing_key) ;; ret 0
        else
          let msg := build_message now_jst fixing_date base_day in
          print (LogNotify now_jst msg) ;;
          (if String.eqb (notify_mode cfg) "local" then
             ok <- local_notify (ntfy_title cfg) msg ;;
             if ok : bool then ret tt else print (LogLocalWarn now_jst)
           else if enable_ntfy cfg then
             ntfy_publish (ntfy_server cfg) (ntfy_topic_raw cfg)
               (ntfy_title cfg) (ntfy_priority cfg) msg
           else print (LogSkipNtfy now_jst)) ;;
          (if enable_state_update cfg then
             save_state (state_file cfg)
               (dict_update state (state_payload cfg fixing_key now_jst)) ;;
             print (LogStateUpdated now_jst (state_file cfg))
           else print (LogSkipState now_jst)) ;;
          ret 0
  end.

(** ** The retry policy: [main]

    [main] is taken after [parse_args] has produced the configuration.
    The [for attempt in (1, 2)] loop runs over the remaining attempts. *)

Definition is_input_error (e : exn) : bool :=
  match e with FileNotFoundError | ValueError => true | _ => false end.

Definition error_line (e : exn) : log_line :=
  match e with
  | FileNotFoundError | ValueError => ErrInput e
  | HTTPError => ErrHTTP
  | URLError => ErrURL
  | _ => ErrUnexpected e
  end.

Fixpoint main_loop (attempts : list Z) (cfg : Config) (w : world)
    : Z * world :=
  match attempts with
  | [] => (1, w)
  | attempt :: rest =>
      match run_once cfg w with
      | (Ok rc, w1) => (rc, w1)
      | (Raise e, w1) =>
          let w2 := snd (print (error_line e) w1) in
          if is_input_error e then (2, w2)
          else if attempt =? 1 then main_loop rest cfg (snd (sleep 10 w2))
          else (1, w2)
      end
  end.

Definition main (cfg : Config) (w : world) : Z * world :=
  main_loop [1; 2] cfg w.

(** *** Situations of a run, as conditions on its inputs *)

(** The instant a run evaluates, and the world once the clock is read. *)
Definition now_of (cfg : Config) (w : world) : datetime :=
  match test_now_jst cfg with
  | Some t => t
  | None => w_time w (w_now_calls w)
  end.

Definition after_clock (cfg : Config) (w : world) : world :=
  match test_now_jst cfg with
  | Some _ => w
  | None => snd (datetime_now w)
  end.

(** The holiday set a run obtains for one calendar. *)
Definition holiday_keys_of (enabled : bool) (csv_path : string) (w : world)
    : result (option (gset Z)) :=
  if enabled then
    match fst (load_holiday_keys csv_path w) with
    | Ok keys => Ok (Some keys)
    | Raise e => Raise e
    end
  else Ok None.

(** Both holiday files load and [choose_fixing_date] makes the given
    choice. *)
Definition chooses (cfg : Config) (w : world) (choice : option date * Z)
    : Prop :=
  exists hjp hus,
    holiday_keys_of (enable_holiday_jp cfg) (holiday_csv_jp cfg) w = Ok hjp
    /\ holiday_keys_of (enable_holiday_us cfg) (holiday_csv_us cfg) w = Ok hus
    /\ choose_fixing_date (now_of cfg w) hjp hus cfg = Ok choice.

(** The run resolves fixing day [F] (from base day [b]) inside the
    notification window, or with the window not enforced. *)
Definition resolved (cfg : Config) (w : world) (F : date) (b : Z) : Prop :=
  chooses cfg w (Some F, b)
  /\ (enforce_window cfg = true ->
      in_notify_window (now_of cfg w) F cfg = Ok true).


(** The last-notified key a run reads from the state file. *)
Definition stored_key (cfg : Config) (w : world) : result Z :=
  int_or_0 (read_state (state_file cfg) w !! "last_notified_fixing_yyyymmdd").


(** A fixing day is resolved and is not the stored one, so the run goes on
    to notify. *)
Definition fresh_fixing (cfg : Config) (w : world) : Prop :=
  exists F b last,
    resolved cfg w F b /\ stored_key cfg w = Ok last /\ last <> _date_key F.



(** A holiday file that the run reads is missing or yields no date. *)
Definition input_error (cfg : Config) (w : world) (e : exn) : Prop :=
  holiday_keys_of (enable_holiday_jp cfg) (holiday_csv_jp cfg) w = Raise e
  \/ ((exists hjp,
         holiday_keys_of (enable_holiday_jp cfg) (holiday_csv_jp cfg) w
         = Ok hjp)
      /\ holiday_keys_of (enable_holiday_us cfg) (holiday_csv_us cfg) w
         = Raise e).

(** The part of [run_once] that follows the window check. *)
Definition dedup_and_dispatch (cfg : Config) (now_jst : datetime)
    (fixing_date : date) (base_day : Z) : M Z :=
  let fixing_key := _date_key fixing_date in
  state <- load_state (state_file cfg) ;;
  last_key <- lift (int_or_0 (state !! "last_notified_fixing_yyyymmdd")) ;;
  if last_key =? fixing_key then
    print (LogAlreadyNotified now_jst fixing_key) ;; ret 0
  else
    let msg := build_message now_jst fixing_date base_day in
    print (LogNotify now_jst msg) ;;
    (if String.eqb (notify_mode cfg) "local" then
       ok <- local_notify (ntfy_title cfg) msg ;;
       if ok : bool then ret tt else print (LogLocalWarn now_jst)
     else if enable_ntfy cfg then
       ntfy_publish (ntfy_server cfg) (ntfy_topic_raw cfg)
         (ntfy_title cfg) (ntfy_priority cfg) msg
     else print (LogSkipNtfy now_jst)) ;;
    (if enable_state_update cfg then
       save_state (state_file cfg)
         (dict_update state (state_payload cfg fixing_key now_jst)) ;;
       print (LogStateUpdated now_jst (state_file cfg))
     else print (LogSkipState now_jst)) ;;
    ret 0.

(** The world in which the second attempt of [main] starts when the first
    one raised [e]. *)
Definition before_retry (e : exn) (w1 : world) : world :=
  snd (sleep 10 (snd (print (error_line e) w1))).

End Run.

(** ** Example inputs

    A world with both holiday files, no state file, a clock that reads
    Sunday 2026-01-04 12:00 JST and an ntfy service that accepts every
    call; the same world without the US holiday file; and the same world
    with an unreachable ntfy service. *)

Definition example_int_of_str (s : string) : result Z := Raise ValueError.

Definition example_world : world := {|
  w_csv := {[ "jp_holidays.csv" := {[ 20260101; 20260112 ]};
              "fed_bank_holidays.csv" := {[ 20260101; 20260119 ]} ]};
  w_state_files := ∅;
  w_time := fun _ => DateTime (Date 2026 1 4) 12 0 0 0;
  w_now_calls := 0;
  w_ntfy := fun _ => None;
  w_local := fun _ => true;
  w_events := []
|}.



(** ** Properties of the calendar search, stated on its inputs *)

(** No holiday list is in use: each one is absent or switched off. *)
Definition no_holiday_lists (hjp hus : option (gset Z)) (cfg : Config)
    : Prop :=
  (hjp = None \/ enable_holiday_jp cfg = false)
  /\ (hus = None \/ enable_holiday_us cfg = false).

(** Candidate [b] of the target's month normalizes to the target and
    passes the closure re-check. *)
Definition surviving_match (target : date)
    (hjp hus : option (gset Z)) (cfg : Config) (b : Z) : Prop :=
  normalize_biz_day (Date (year target) (month target) b) hjp hus cfg
  = Ok target
  /\ exclude_yearend_bank_closure cfg && _is_yearend_closure_day target
     = false.

(** ** The effect of a run *)

(** What one run may do to the world. *)
Definition run_effect (cfg : Config) (w : world) (r : result Z) (w1 : world)
    : Prop :=
  (forall rc, r = Ok rc -> rc = 0)
  /\ (count_events is_dispatch w <= count_events is_dispatch w1
      <= S (count_events is_dispatch w))%nat
  /\ count_events is_sleep w1 = count_events is_sleep w
  /\ (notify_mode cfg <> "local" -> enable_ntfy cfg = false ->
      count_events is_dispatch w1 = count_events is_dispatch w)
  /\ (w_state_files w1 = w_state_files w
      \/ (r = Ok 0 /\ enable_state_update cfg = true
          /\ exists fixing_key now,
               w_state_files w1
               = <[state_file cfg :=
                     JsonDict (dict_update (read_state (state_file cfg) w)
                                 (state_payload cfg fixing_key now))]>
                   (w_state_files w))).

(** The keys that a state update writes. *)
Definition payload_keys (cfg : Config) : list string :=
  ["last_notified_fixing_yyyymmdd"; "last_notified_at_jst"; "notify_mode"]
  ++ (if String.eqb (notify_mode cfg) "ntfy"
      then ["ntfy_server"; "ntfy_topic"]
      else []).

(** ** Further example inputs *)

(** The example world with a state file whose last-notified entry is the
    text [abc]; the example world with a local transport that fails; the
    default configuration in local mode, and with the ntfy call switched
    off. *)
Definition world_bad_state : world := {|
  w_csv := w_csv example_world;
  w_state_files :=
    {[ state_file default_config :=
         JsonDict {[ "last_notified_fixing_yyyymmdd" := JStr "abc" ]} ]};
  w_time := fun _ => DateTime (Date 2026 1 4) 12 0 0 0;
  w_now_calls := 0;
  w_ntfy := fun _ => None;
  w_local := fun _ => true;
  w_events := []
|}.


(** A configuration with the year-end closure exclusion switched off. *)
Definition without_yearend_exclusion (c : Config) : Config := {|
  include_day31 := include_day31 c;
  include_feb_last_day := include_feb_last_day c;
  exclude_yearend_bank_closure := false;
  enable_holiday_jp := enable_holiday_jp c;
  enable_holiday_us := enable_holiday_us c;
  holiday_csv_jp := holiday_csv_jp c;
  holiday_csv_us := holiday_csv_us c;
  enforce_window := enforce_window c;
  window_prev_day_start_hhmm := window_prev_day_start_hhmm c;
  window_fixing_end_hhmm := window_fixing_end_hhmm c;
  ntfy_server := ntfy_server c;
  ntfy_topic_raw := ntfy_topic_raw c;
  ntfy_title := ntfy_title c;
  ntfy_priority := ntfy_priority c;
  state_file := state_file c;
  notify_mode := notify_mode c;
  test_now_jst := test_now_jst c;
  enable_ntfy := enable_ntfy c;
  enable_state_update := enable_state_update c
|}.


(** ** Python strings and the holiday CSV reader

    A [str] is its sequence of code points.  The Unicode tables behind
    [str.isspace], [str.isdigit] and the decimal digits that [int] accepts
    are parameters of the reader.

    [Csv.load_holiday_keys] is the reader itself, on the decoded lines of
    the file; the [load_holiday_keys] of a run, above, is its outcome as
    the run sees it: the key set collected, with the same two errors. *)

Module Str.

(** An ASCII literal as a [str]. *)
Fixpoint of_ascii (s : string) : list Z :=
  match s with
  | EmptyString => []
  | String c s' => Z.of_N (Ascii.N_of_ascii c) :: of_ascii s'
  end.

(** [s.replace(old, new)] for a one-character [old]. *)
Definition replace (old : Z) (new : list Z) (s : list Z) : list Z :=
  flat_map (fun c => if c =? old then new else [c]) s.

Fixpoint lstrip_by (p : Z -> bool) (s : list Z) : list Z :=
  match s with
  | c :: s' => if p c then lstrip_by p s' else s
  | [] => []
  end.

Definition rstrip_by (p : Z -> bool) (s : list Z) : list Z :=
  rev (lstrip_by p (rev s)).

Definition strip_by (p : Z -> bool) (s : list Z) : list Z :=
  rstrip_by p (lstrip_by p s).

Fixpoint startswith (prefix s : list Z) : bool :=
  match prefix, s with
  | [], _ => true
  | p :: prefix', c :: s' => (c =? p) && startswith prefix' s'
  | _ :: _, [] => false
  end.

(** [s.find(sub)] for a non-empty [sub]: the lowest index, or [-1]. *)
Fixpoint find (sub s : list Z) : Z :=
  if startswith sub s then 0
  else
    match s with
    | [] => -1
    | _ :: s' => let i := find sub s' in if i <? 0 then -1 else i + 1
    end.

(** [s.split(sep)] for a one-character [sep]. *)
Fixpoint split (sep : Z) (s : list Z) : list (list Z) :=
  match s with
  | [] => [[]]
  | c :: s' =>
      if c =? sep then [] :: split sep s'
      else
        match split sep s' with
        | piece :: pieces => (c :: piece) :: pieces
        | [] => [[c]]
        end
  end.

Definition is_empty (s : list Z) : bool :=
  match s with [] => true | _ => false end.

End Str.

Module Csv.
Section Reader.

Variable isspace : Z -> bool.
Variable isdigit : Z -> bool.
(** The value of a character with the Unicode decimal property. *)
Variable decimal : Z -> option Z.

Definition strip (s : list Z) : list Z := Str.strip_by isspace s.

(** [int(s)] for a string of [isdigit] characters: the base-10 value when
    every character is a decimal digit, [ValueError] otherwise. *)
Fixpoint int_digits (acc : Z) (s : list Z) : result Z :=
  match s with
  | [] => Ok acc
  | c :: s' =>
      match decimal c with
      | Some v => int_digits (acc * 10 + v) s'
      | None => Raise ValueError
      end
  end.

Definition slice (i j : nat) (s : list Z) : list Z := take (j - i) (drop i s).

Definition _try_parse_holiday_token (token : list Z) : result (option date) :=
  let s := strip (Str.replace 13 [] (strip token)) in
  if Str.is_empty s then Ok None
  else
    let s := fold_left (fun s ch => Str.replace ch [] s) [45; 47; 46] s in
    let s := strip s in
    if negb (Nat.eqb (length s) 8) || negb (forallb isdigit s) then Ok None
    else
      let? year := int_digits 0 (slice 0 4 s) in
      let? month := int_digits 0 (slice 4 6 s) in
      let? day := int_digits 0 (slice 6 8 s) in
      if (year <=? 1900) || (month <? 1) || (12 <? month) then Ok None
      else
        let dim := _days_in_month year month in
        if (day <? 1) || (dim <? day) then Ok None
        else
          let? d := mk_date year month day in
          Ok (Some d).

(** The tokens of a line after comment removal: [None] when the line is
    skipped. *)
Definition line_tokens (raw_line : list Z) : list (list Z) :=
  let line := strip (Str.replace 13 [] raw_line) in
  if Str.is_empty line then []
  else if Str.startswith [35] line || Str.startswith [47; 47] line then []
  else
    let hash_pos := Str.find [35] line in
    let line :=
      if 0 <=? hash_pos then strip (take (Z.to_nat hash_pos) line)
      else line in
    let slash_pos := Str.find [47; 47] line in
    let line :=
      if 0 <=? slash_pos then strip (take (Z.to_nat slash_pos) line)
      else line in
    if Str.is_empty line then []
    else
      let line := Str.replace 59 [44] (Str.replace 9 [44] line) in
      List.filter (fun t => negb (Str.is_empty t))
        (map strip (Str.split 44 line)).

(** The inner loop over the tokens of a line. *)
Fixpoint add_tokens (keys : gset Z) (tokens : list (list Z))
    : result (gset Z) :=
  match tokens with
  | [] => Ok keys
  | t :: rest =>
      let? d := _try_parse_holiday_token t in
      match d with
      | Some d => add_tokens ({[_date_key d]} ∪ keys) rest
      | None => add_tokens keys rest
      end
  end.

(** The loop over the lines of the file. *)
Fixpoint add_lines (keys : gset Z) (lines : list (list Z))
    : result (gset Z) :=
  match lines with
  | [] => Ok keys
  | raw_line :: rest =>
      let? keys := add_tokens keys (line_tokens raw_line) in
      add_lines keys rest
  end.

(** [load_holiday_keys] on a file given by its decoded lines, [None] when
    the path does not exist. *)
Definition load_holiday_keys (file : option (list (list Z)))
    : result (gset Z) :=
  match file with
  | None => Raise FileNotFoundError
  | Some lines =>
      let? keys := add_lines ∅ lines in
      if decide (keys = ∅) then Raise ValueError else Ok keys
  end.

End Reader.

(** The ASCII part of the Unicode tables. *)
Definition ascii_isspace (c : Z) : bool :=
  ((9 <=? c) && (c <=? 13)) || ((28 <=? c) && (c <=? 32)).
Definition ascii_isdigit (c : Z) : bool := (48 <=? c) && (c <=? 57).
Definition ascii_decimal (c : Z) : option Z :=
  if ascii_isdigit c then Some (c - 48) else None.

End Csv.


(** The date written as eight ASCII digits, with [sep] between the year,
    the month and the day. *)
Definition digits2 (n : Z) : list Z := [48 + n / 10 mod 10; 48 + n mod 10].
Definition digits4 (n : Z) : list Z :=
  [48 + n / 1000 mod 10; 48 + n / 100 mod 10; 48 + n / 10 mod 10;
   48 + n mod 10].
Definition date_token (sep : list Z) (d : date) : list Z :=
  digits4 (year d) ++ sep ++ digits2 (month d) ++ sep ++ digits2 (day d).

(** ** Escaping for the macOS notification script *)

Definition _escape_applescript_string (s : list Z) : list Z :=
  Str.replace 34 [92; 34] (Str.replace 92 [92; 92] s).

(** Reading a string literal body back: a backslash quotes the next
    character. *)
Fixpoint unescape (s : list Z) : list Z :=
  match s with
  | [] => []
  | c :: s' =>
      if c =? 92 then
        match s' with
        | c' :: s'' => c' :: unescape s''
        | [] => []
        end
      else c :: unescape s'
  end.

(** The literal body holds a double quote that no backslash quotes, or ends
    in a backslash that would quote the closing double quote. *)
Fixpoint breaks_literal (s : list Z) : bool :=
  match s with
  | [] => false
  | c :: s' =>
      if c =? 92 then
        match s' with
        | _ :: s'' => breaks_literal s''
        | [] => true
        end
      else if c =? 34 then true
      else breaks_literal s'
  end.

(** ** The URL of the ntfy call *)

Definition ntfy_url (isspace : Z -> bool) (server topic : list Z) : list Z :=
  let server := Str.rstrip_by (Z.eqb 47) server in
  let topic := Str.lstrip_by (Z.eqb 47) (Str.strip_by isspace topic) in
  server ++ [47] ++ topic.

(** Keys of valid dates after 1900. *)
Definition holiday_key (k : Z) : Prop :=
  exists d, valid_date d = true /\ 1900 < year d /\ k = _date_key d.

(** * Verification *)

(** ** Calendar arithmetic *)

Lemma valid_date_unfold d :
  valid_date d = true <->
  1 <= year d <= 9999 /\ 1 <= month d <= 12
  /\ 1 <= day d <= _days_in_month (year d) (month d).
Proof.
  unfold valid_date, MINYEAR, MAXYEAR.
  rewrite !andb_true_iff, !Z.leb_le. lia.
Qed.

Ltac month_cases m :=
  let H := fresh in
  assert (H : m = 1 \/ m = 2 \/ m = 3 \/ m = 4 \/ m = 5 \/ m = 6 \/ m = 7
              \/ m = 8 \/ m = 9 \/ m = 10 \/ m = 11 \/ m = 12) by lia;
  repeat (destruct H as [H|H]); subst m.

Lemma leap_step y :
  days_before_year (y + 1) =
  days_before_year y + 365 + (if _is_leap_year y then 1 else 0).
Proof.
  unfold days_before_year, _is_leap_year.
  replace (y + 1 - 1) with y by lia.
  destruct (Z.eqb_spec (y mod 400) 0), (Z.eqb_spec (y mod 4) 0),
    (Z.eqb_spec (y mod 100) 0); cbn [orb andb negb];
    Z.div_mod_to_equations; lia.
Qed.

Lemma days_before_month_step y m :
  1 <= m < 12 ->
  days_before_month y (m + 1) = days_before_month y m + _days_in_month y m.
Proof.
  intros Hm. unfold days_before_month, _days_in_month.
  destruct (_is_leap_year y); month_cases m; try lia; reflexivity.
Qed.

Lemma days_in_month_bounds y m : 28 <= _days_in_month y m <= 31.
Proof.
  unfold _days_in_month.
  repeat case_match; lia.
Qed.

Lemma days_before_month_1 y : days_before_month y 1 = 0.
Proof. reflexivity. Qed.

Lemma days_before_month_12 y :
  days_before_month y 12 = 334 + (if _is_leap_year y then 1 else 0).
Proof. reflexivity. Qed.

(** The previous calendar day is the previous ordinal day, and has a
    smaller key. *)
Lemma date_sub1_ok d p :
  valid_date d = true -> date_sub1 d = Ok p ->
  valid_date p = true /\ toordinal p = toordinal d - 1
  /\ _date_key p < _date_key d.
Proof.
  destruct d as [y m dd]. intros Hv. apply valid_date_unfold in Hv.
  cbn [year month day] in Hv. destruct Hv as (Hy & Hm & Hd).
  unfold date_sub1, MINYEAR. cbn [year month day].
  destruct (Z.ltb_spec 1 dd).
  - intros [= <-]. rewrite valid_date_unfold. unfold toordinal, _date_key.
    cbn [year month day]. lia.
  - destruct (Z.ltb_spec 1 m).
    + intros [= <-]. rewrite valid_date_unfold. unfold toordinal, _date_key.
      cbn [year month day]. assert (dd = 1) by lia. subst dd.
      pose proof (days_before_month_step y (m - 1) ltac:(lia)) as Hs.
      replace (m - 1 + 1) with m in Hs by lia.
      pose proof (days_in_month_bounds y (m - 1)). lia.
    + destruct (Z.ltb_spec 1 y); [|discriminate].
      intros [= <-]. rewrite valid_date_unfold. unfold toordinal, _date_key.
      cbn [year month day]. assert (dd = 1) by lia. assert (m = 1) by lia.
      subst. pose proof (leap_step (y - 1)) as Hs.
      replace (y - 1 + 1) with y in Hs by lia.
      rewrite days_before_month_1, days_before_month_12.
      destruct (_is_leap_year (y - 1)); cbn; lia.
Qed.

(** The next calendar day is the next ordinal day. *)
Lemma date_add1_ok d n :
  valid_date d = true -> date_add1 d = Ok n ->
  valid_date n = true /\ toordinal n = toordinal d + 1.
Proof.
  destruct d as [y m dd]. intros Hv. apply valid_date_unfold in Hv.
  cbn [year month day] in Hv. destruct Hv as (Hy & Hm & Hd).
  unfold date_add1, MAXYEAR. cbn [year month day].
  pose proof (days_in_month_bounds y (m + 1)).
  destruct (Z.ltb_spec dd (_days_in_month y m)).
  - intros [= <-]. rewrite valid_date_unfold. unfold toordinal.
    cbn [year month day]. lia.
  - destruct (Z.ltb_spec m 12).
    + intros [= <-]. rewrite valid_date_unfold. unfold toordinal.
      cbn [year month day].
      pose proof (days_before_month_step y m ltac:(lia)). lia.
    + destruct (Z.ltb_spec y 9999); [|discriminate].
      intros [= <-]. rewrite valid_date_unfold. unfold toordinal.
      cbn [year month day]. assert (m = 12) by lia. subst m.
      change (_days_in_month y 12) with 31 in *.
      change (_days_in_month (y + 1) 1) with 31.
      rewrite days_before_month_1, days_before_month_12, leap_step.
      destruct (_is_leap_year y); lia.
Qed.

Lemma date_add1_total d :
  valid_date d = true -> d <> Date 9999 12 31 ->
  exists n, date_add1 d = Ok n.
Proof.
  intros Hv Hne. unfold date_add1, MAXYEAR.
  destruct (Z.ltb_spec (day d) (_days_in_month (year d) (month d))); [eauto|].
  destruct (Z.ltb_spec (month d) 12); [eauto|].
  destruct (Z.ltb_spec (year d) 9999); [eauto|].
  exfalso. apply Hne. apply valid_date_unfold in Hv.
  destruct d as [y m dd]; cbn [year month day] in *.
  assert (m = 12) by lia. subst m.
  change (_days_in_month y 12) with 31 in *.
  assert (y = 9999) by lia. assert (dd = 31) by lia. congruence.
Qed.

Lemma days_before_year_nonneg y : 1 <= y -> 0 <= days_before_year y.
Proof. unfold days_before_year. intros. Z.div_mod_to_equations. lia. Qed.

Lemma days_before_year_mono a b :
  a <= b -> days_before_year a <= days_before_year b.
Proof. unfold days_before_year. intros. Z.div_mod_to_equations. lia. Qed.

Lemma days_before_month_mono y a b :
  1 <= a -> a <= b -> b <= 12 -> days_before_month y a <= days_before_month y b.
Proof.
  intros. unfold days_before_month. destruct (_is_leap_year y);
  month_cases a; month_cases b; try lia; vm_compute; discriminate.
Qed.

Lemma day_of_year_bounds d :
  valid_date d = true ->
  1 <= days_before_month (year d) (month d) + day d
    <= 365 + (if _is_leap_year (year d) then 1 else 0).
Proof.
  intros Hv. apply valid_date_unfold in Hv. destruct Hv as (Hy & Hm & Hd).
  pose proof (days_before_month_mono (year d) 1 (month d)) as H1.
  rewrite days_before_month_1 in H1.
  pose proof (days_before_month_12 (year d)) as H12.
  destruct (Z.eq_dec (month d) 12) as [E|E].
  - rewrite E in *. change (_days_in_month (year d) 12) with 31 in Hd. lia.
  - pose proof (days_before_month_step (year d) (month d)).
    pose proof (days_before_month_mono (year d) (month d + 1) 12). lia.
Qed.

Lemma toordinal_pos d : valid_date d = true -> 1 <= toordinal d.
Proof.
  intros Hv. pose proof (day_of_year_bounds d Hv).
  apply valid_date_unfold in Hv.
  pose proof (days_before_year_nonneg (year d)). unfold toordinal. lia.
Qed.

Lemma toordinal_year_lt a b :
  valid_date a = true -> valid_date b = true ->
  year a < year b -> toordinal a < toordinal b.
Proof.
  intros Ha Hb Hlt.
  pose proof (day_of_year_bounds a Ha). pose proof (day_of_year_bounds b Hb).
  pose proof (leap_step (year a)).
  pose proof (days_before_year_mono (year a + 1) (year b)).
  unfold toordinal. lia.
Qed.

Lemma toordinal_month_lt a b :
  valid_date a = true -> valid_date b = true ->
  year a = year b -> month a < month b -> toordinal a < toordinal b.
Proof.
  intros Ha Hb Hy Hlt.
  apply valid_date_unfold in Ha, Hb.
  pose proof (days_before_month_step (year a) (month a)).
  pose proof (days_before_month_mono (year a) (month a + 1) (month b)).
  unfold toordinal. rewrite <- Hy. lia.
Qed.

Lemma toordinal_compare a b :
  valid_date a = true -> valid_date b = true ->
  tuple_cmp [year a; month a; day a] [year b; month b; day b]
  = (toordinal a ?= toordinal b).
Proof.
  intros Ha Hb. cbn [tuple_cmp].
  pose proof (toordinal_year_lt a b Ha Hb).
  pose proof (toordinal_year_lt b a Hb Ha).
  pose proof (toordinal_month_lt a b Ha Hb).
  pose proof (toordinal_month_lt b a Hb Ha).
  symmetry.
  destruct (Z.compare_spec (year a) (year b)) as [Ey| |];
    [| apply Z.compare_lt_iff; lia | apply Z.compare_gt_iff; lia].
  destruct (Z.compare_spec (month a) (month b)) as [Em| |];
    [| apply Z.compare_lt_iff; lia | apply Z.compare_gt_iff; lia].
  unfold toordinal. rewrite Ey, Em.
  destruct (Z.compare_spec (day a) (day b));
    [apply Z.compare_eq_iff | apply Z.compare_lt_iff | apply Z.compare_gt_iff];
    lia.
Qed.

Lemma valid_time_unfold h mi s us :
  valid_time h mi s us = true <->
  0 <= h <= 23 /\ 0 <= mi <= 59 /\ 0 <= s <= 59 /\ 0 <= us <= 999999.
Proof. unfold valid_time. rewrite !andb_true_iff, !Z.leb_le. lia. Qed.

Lemma tuple_cmp_date_prefix y m d ra y' m' d' rb :
  tuple_cmp (y :: m :: d :: ra) (y' :: m' :: d' :: rb)
  = match tuple_cmp [y; m; d] [y'; m'; d'] with
    | Eq => tuple_cmp ra rb
    | c => c
    end.
Proof.
  cbn [tuple_cmp].
  destruct (y ?= y'), (m ?= m'), (d ?= d'); reflexivity.
Qed.

Ltac compare_goal :=
  symmetry;
  first [ apply Z.compare_eq_iff; lia
        | apply Z.compare_lt_iff; lia
        | apply Z.compare_gt_iff; lia ].

Lemma instant_compare a b :
  valid_datetime a = true -> valid_datetime b = true ->
  tuple_cmp (dt_fields a) (dt_fields b) = (instant a ?= instant b).
Proof.
  unfold valid_datetime. rewrite !andb_true_iff.
  intros [Hda Hta] [Hdb Htb].
  apply valid_time_unfold in Hta, Htb.
  unfold dt_fields, instant.
  rewrite tuple_cmp_date_prefix, (toordinal_compare _ _ Hda Hdb).
  cbn [tuple_cmp].
  destruct (Z.compare_spec (toordinal (dt_date a)) (toordinal (dt_date b)));
    [| compare_goal | compare_goal].
  repeat match goal with
  | |- context [match ?x ?= ?y with _ => _ end] =>
      destruct (Z.compare_spec x y); [| compare_goal | compare_goal]
  end.
  compare_goal.
Qed.

(** ** The normalizer *)

Lemma date_sub1_total d :
  valid_date d = true -> 1 < toordinal d -> exists p, date_sub1 d = Ok p.
Proof.
  intros Hv Hord. unfold date_sub1, MINYEAR.
  destruct (Z.ltb_spec 1 (day d)); [eauto|].
  destruct (Z.ltb_spec 1 (month d)); [eauto|].
  destruct (Z.ltb_spec 1 (year d)); [eauto|].
  exfalso. apply valid_date_unfold in Hv.
  assert (year d = 1) as Ey by lia. assert (month d = 1) as Em by lia.
  assert (day d = 1) as Ed by lia.
  unfold toordinal in Hord. rewrite Ey, Em, Ed in Hord.
  vm_compute in Hord. discriminate.
Qed.

Lemma date_sub1_raise d e :
  date_sub1 d = Raise e -> e = OverflowError.
Proof.
  unfold date_sub1. repeat case_match; congruence.
Qed.

Lemma date_sub_days_S n d :
  date_sub_days (S n) d = let? p := date_sub1 d in date_sub_days n p.
Proof. reflexivity. Qed.

Lemma date_sub_days_ok n : forall d p,
  valid_date d = true -> date_sub_days n d = Ok p ->
  valid_date p = true /\ toordinal p = toordinal d - Z.of_nat n
  /\ _date_key p <= _date_key d.
Proof.
  induction n as [|n IH]; intros d p Hv.
  - cbn. intros [= <-]. repeat split; auto; lia.
  - rewrite date_sub_days_S. destruct (date_sub1 d) as [q|e] eqn:Hq;
      [|discriminate]. cbn [rbind]. intros Hp.
    destruct (date_sub1_ok _ _ Hv Hq) as (Hvq & Hoq & Hkq).
    destruct (IH _ _ Hvq Hp) as (Hvp & Hop & Hkp).
    repeat split; auto; lia.
Qed.

Lemma date_sub_days_total n : forall d,
  valid_date d = true -> Z.of_nat n < toordinal d ->
  exists p, date_sub_days n d = Ok p.
Proof.
  induction n as [|n IH]; intros d Hv Hord.
  - cbn. eauto.
  - destruct (date_sub1_total d Hv ltac:(lia)) as [q Hq].
    destruct (date_sub1_ok _ _ Hv Hq) as (Hvq & Hoq & _).
    rewrite date_sub_days_S, Hq. cbn [rbind]. apply IH; [auto|lia].
Qed.

Section Normalize.
Variables (holiday_keys_jp holiday_keys_us : option (gset Z)) (cfg : Config).

Abbreviation business d :=
  (is_business_day d holiday_keys_jp holiday_keys_us cfg).
Abbreviation loop n d :=
  (normalize_loop n d holiday_keys_jp holiday_keys_us cfg).
Abbreviation inspected n d :=
  (normalize_inspected n d holiday_keys_jp holiday_keys_us cfg).

Abbreviation none_before k d :=
  (none_business_before holiday_keys_jp holiday_keys_us cfg k d).

Lemma none_business_before_S k d p :
  date_sub1 d = Ok p -> none_before (S k) d ->
  business d = false /\ none_before k p.
Proof.
  intros Hp H. split.
  - apply (H 0%nat); [lia|reflexivity].
  - intros j dj Hj Hdj. apply (H (S j)); [lia|].
    rewrite date_sub_days_S, Hp. exact Hdj.
Qed.

Lemma normalize_loop_business n d :
  business d = true -> loop (S n) d = Ok d.
Proof. intros H. cbn. now rewrite H. Qed.

Lemma normalize_loop_found n : forall d k dk,
  (k < n)%nat -> date_sub_days k d = Ok dk -> business dk = true ->
  none_before k d ->
  loop n d = Ok dk /\ length (inspected n d) = S k.
Proof.
  induction n as [|n IH]; intros d k dk Hk Hdk Hb Hnone; [lia|].
  destruct k as [|k].
  - cbn in Hdk. injection Hdk as <-. cbn. now rewrite Hb.
  - rewrite date_sub_days_S in Hdk.
    destruct (date_sub1 d) as [p|e] eqn:Hp; [|discriminate].
    cbn [rbind] in Hdk.
    destruct (none_business_before_S _ _ _ Hp Hnone) as [Hd Hrest].
    destruct (IH p k dk ltac:(lia) Hdk Hb Hrest) as [Hl Hi].
    cbn. rewrite Hd, Hp. cbn [rbind]. now rewrite Hl, Hi.
Qed.

Lemma normalize_loop_exhausted n : forall d dn,
  date_sub_days n d = Ok dn -> none_before n d ->
  loop n d = Ok dn /\ length (inspected n d) = n.
Proof.
  induction n as [|n IH]; intros d dn Hdn Hnone.
  - cbn in *. auto.
  - rewrite date_sub_days_S in Hdn.
    destruct (date_sub1 d) as [p|e] eqn:Hp; [|discriminate].
    cbn [rbind] in Hdn.
    destruct (none_business_before_S _ _ _ Hp Hnone) as [Hd Hrest].
    destruct (IH p dn Hdn Hrest) as [Hl Hi].
    cbn. rewrite Hd, Hp. cbn [rbind]. now rewrite Hl, Hi.
Qed.

Lemma normalize_inspected_length n : forall d,
  (length (inspected n d) <= n)%nat.
Proof.
  induction n as [|n IH]; intros d; cbn; [lia|].
  destruct (business d); cbn; [lia|].
  destruct (date_sub1 d) as [p|e]; cbn; [|lia].
  specialize (IH p). lia.
Qed.

Lemma normalize_inspected_steps n : forall d i x,
  inspected n d !! i = Some x -> date_sub_days i d = Ok x.
Proof.
  induction n as [|n IH]; intros d i x; cbn; [discriminate|].
  destruct i as [|i]; cbn.
  - now intros [= <-].
  - destruct (business d); [discriminate|].
    destruct (date_sub1 d) as [p|e]; cbn; [|discriminate].
    apply IH.
Qed.

(** What the loop returns, backward reading. *)
Lemma normalize_loop_result n : forall d r,
  valid_date d = true -> loop n d = Ok r ->
  valid_date r = true
  /\ exists k, (k <= n)%nat /\ date_sub_days k d = Ok r
       /\ none_before k d
       /\ ((k < n)%nat -> business r = true).
Proof.
  induction n as [|n IH]; intros d r Hv.
  - cbn. intros [= <-]. split; [auto|]. exists 0%nat.
    repeat split; auto; try lia. intros j dj Hj. lia.
  - cbn. destruct (business d) eqn:Hb.
    + intros [= <-]. split; [auto|]. exists 0%nat.
      repeat split; auto; try lia. intros j dj Hj. lia.
    + destruct (date_sub1 d) as [p|e] eqn:Hp; [|discriminate].
      cbn [rbind]. intros Hr.
      destruct (date_sub1_ok _ _ Hv Hp) as (Hvp & _).
      destruct (IH p r Hvp Hr) as (Hvr & k & Hk & Hdk & Hnone & Hfound).
      split; [auto|]. exists (S k). repeat split.
      * lia.
      * now rewrite date_sub_days_S, Hp.
      * intros j dj Hj. destruct j as [|j].
        -- cbn. now intros [= <-].
        -- rewrite date_sub_days_S, Hp. cbn [rbind]. apply Hnone. lia.
      * intros. apply Hfound. lia.
Qed.

Lemma normalize_loop_raise n : forall d e,
  loop n d = Raise e -> e = OverflowError.
Proof.
  induction n as [|n IH]; intros d e; cbn; [discriminate|].
  destruct (business d); [discriminate|].
  destruct (date_sub1 d) as [p|e'] eqn:Hp; cbn [rbind].
  - apply IH.
  - intros [= <-]. now apply date_sub1_raise in Hp.
Qed.

Lemma normalize_loop_total n : forall d,
  valid_date d = true -> Z.of_nat n < toordinal d ->
  exists r, loop n d = Ok r.
Proof.
  induction n as [|n IH]; intros d Hv Hord; cbn; [eauto|].
  destruct (business d); [eauto|].
  destruct (date_sub1_total d Hv ltac:(lia)) as [p Hp].
  destruct (date_sub1_ok _ _ Hv Hp) as (Hvp & Hop & _).
  rewrite Hp. cbn [rbind]. apply IH; [auto|lia].
Qed.

End Normalize.

Lemma normalize_loop_S n d hjp hus cfg :
  normalize_loop (S n) d hjp hus cfg =
  if is_business_day d hjp hus cfg then Ok d
  else let? prev := date_sub1 d in normalize_loop n prev hjp hus cfg.
Proof. reflexivity. Qed.

(** C6: [normalize_biz_day] inspects at most 60 dates, the i-th inspected
    date being [d] minus i days.  It returns the first business day among
    [d], [d - 1], ..., [d - 59] when there is one; when there is none it
    returns the date 60 days before [d], without inspecting it.  It returns
    a date for every [d] later than the 60th day of the calendar; the only
    exception it can raise is the [OverflowError] of stepping back past
    0001-01-01, from one of the first 60 days of the calendar. *)
Theorem normalize_biz_day_bounded_search
    (d : date) (hjp hus : option (gset Z)) (cfg : Config) :
  valid_date d = true ->
  let inspected := normalize_inspected 60 d hjp hus cfg in
  (length inspected <= 60)%nat
  /\ (forall i x, inspected !! i = Some x -> date_sub_days i d = Ok x)
  /\ (forall k dk,
        (k < 60)%nat -> date_sub_days k d = Ok dk ->
        is_business_day dk hjp hus cfg = true ->
        none_business_before hjp hus cfg k d ->
        normalize_biz_day d hjp hus cfg = Ok dk /\ length inspected = S k)
  /\ (forall d60,
        date_sub_days 60 d = Ok d60 ->
        none_business_before hjp hus cfg 60 d ->
        normalize_biz_day d hjp hus cfg = Ok d60
        /\ toordinal d60 = toordinal d - 60
        /\ length inspected = 60%nat)
  /\ (60 < toordinal d -> exists r, normalize_biz_day d hjp hus cfg = Ok r)
  /\ (forall e, normalize_biz_day d hjp hus cfg = Raise e ->
        e = OverflowError /\ toordinal d <= 60).
Proof.
  intros Hv inspected. subst inspected. unfold normalize_biz_day.
  split; [apply normalize_inspected_length|].
  split; [apply normalize_inspected_steps|].
  split; [intros; now apply normalize_loop_found|].
  split.
  - intros d60 Hd60 Hnone.
    destruct (normalize_loop_exhausted _ _ _ _ _ _ Hd60 Hnone) as [Hl Hi].
    destruct (date_sub_days_ok _ _ _ Hv Hd60) as (_ & Ho & _).
    repeat split; auto.
  - split; [intros; now apply normalize_loop_total|].
    intros e He. split; [now apply normalize_loop_raise in He|].
    destruct (Z_lt_le_dec 60 (toordinal d)) as [Hlt|Hle]; [|exact Hle].
    destruct (normalize_loop_total hjp hus cfg 60 d Hv Hlt) as [r Hr].
    congruence.
Qed.

Lemma normalize_biz_day_bounded_search_witness :
  valid_date (Date 2026 1 5) = true
  /\ normalize_biz_day (Date 2026 1 5) (Some {[20260105]}) None default_config
     = Ok (Date 2025 12 30).
Proof.
  split; [reflexivity|].
  destruct (normalize_biz_day_bounded_search (Date 2026 1 5)
              (Some {[20260105]}) None default_config eq_refl)
    as (_ & _ & Hfound & _).
  apply (Hfound 6%nat (Date 2025 12 30)).
  - lia.
  - reflexivity.
  - reflexivity.
  - intros j dj Hj.
    do 6 (destruct j as [|j]; [intros [= <-]; reflexivity|]). lia.
Defined.

(** C2 (amended): for a date [r] returned by [normalize_biz_day],
    normalizing [r] again returns [r] exactly when [r] is a business day;
    this is the case whenever one of the 60 inspected dates [d], ...,
    [d - 59] is a business day. *)
Theorem normalize_biz_day_idempotent_iff
    (d r : date) (hjp hus : option (gset Z)) (cfg : Config) :
  valid_date d = true ->
  normalize_biz_day d hjp hus cfg = Ok r ->
  (normalize_biz_day r hjp hus cfg = Ok r
   <-> is_business_day r hjp hus cfg = true)
  /\ ((exists k dk, (k < 60)%nat /\ date_sub_days k d = Ok dk
          /\ is_business_day dk hjp hus cfg = true) ->
      normalize_biz_day r hjp hus cfg = Ok r).
Proof.
  intros Hv Hr. unfold normalize_biz_day in *.
  destruct (normalize_loop_result _ _ _ _ _ _ Hv Hr)
    as (Hvr & k & Hk & Hdk & Hnone & Hfound).
  assert (Hiff : normalize_loop 60 r hjp hus cfg = Ok r
                 <-> is_business_day r hjp hus cfg = true).
  { split.
    - intros Hrr. destruct (is_business_day r hjp hus cfg) eqn:Hb; [auto|].
      exfalso. rewrite normalize_loop_S, Hb in Hrr.
      destruct (date_sub1 r) as [p|e] eqn:Hp; [|discriminate].
      cbn [rbind] in Hrr.
      destruct (date_sub1_ok _ _ Hvr Hp) as (Hvp & Hop & _).
      destruct (normalize_loop_result _ _ _ _ _ _ Hvp Hrr)
        as (_ & j & _ & Hj & _).
      destruct (date_sub_days_ok _ _ _ Hvp Hj) as (_ & Ho & _). lia.
    - apply normalize_loop_business. }
  split; [exact Hiff|].
  intros (k' & dk' & Hk' & Hdk' & Hb'). apply Hiff.
  destruct (Nat.lt_ge_cases k 60) as [Hlt|Hge]; [auto|].
  assert (k = 60%nat) by lia. subst k.
  rewrite (Hnone k' dk' Hk' Hdk') in Hb'. discriminate.
Qed.

Lemma normalize_biz_day_idempotent_iff_witness :
  normalize_biz_day (Date 2026 1 5) (Some {[20260105]}) None default_config
  = Ok (Date 2025 12 30)
  /\ normalize_biz_day (Date 2025 12 30) (Some {[20260105]}) None
       default_config
     = Ok (Date 2025 12 30).
Proof.
  assert (Hn : normalize_biz_day (Date 2026 1 5) (Some {[20260105]}) None
                 default_config = Ok (Date 2025 12 30))
    by (vm_compute; reflexivity).
  split; [exact Hn|].
  destruct (normalize_biz_day_idempotent_iff (Date 2026 1 5)
              (Date 2025 12 30) (Some {[20260105]}) None default_config
              eq_refl Hn) as [_ Hidem].
  apply Hidem. exists 6%nat, (Date 2025 12 30).
  split; [lia|]. split; reflexivity.
Defined.

(** C2 (counterexample): with the 61 days up to 2026-03-31 all listed as
    holidays, normalizing 2026-03-31 hits the 60-step cap and returns
    2026-01-30, itself a listed day, which normalizes to 2026-01-29. *)
Lemma normalize_biz_day_not_idempotent :
  let normalize d :=
    normalize_biz_day d (Some long_closure_keys) None default_config in
  valid_date (Date 2026 3 31) = true
  /\ normalize (Date 2026 3 31) = Ok (Date 2026 1 30)
  /\ normalize (Date 2026 1 30) = Ok (Date 2026 1 29)
  /\ (let? r := normalize (Date 2026 3 31) in normalize r)
     <> normalize (Date 2026 3 31).
Proof.
  cbv zeta.
  assert (H1 : normalize_biz_day (Date 2026 3 31) (Some long_closure_keys)
                 None default_config = Ok (Date 2026 1 30))
    by (vm_compute; reflexivity).
  assert (H2 : normalize_biz_day (Date 2026 1 30) (Some long_closure_keys)
                 None default_config = Ok (Date 2026 1 29))
    by (vm_compute; reflexivity).
  split; [reflexivity|]. split; [exact H1|]. split; [exact H2|].
  rewrite H1. cbn [rbind]. rewrite H2. discriminate.
Qed.

(** ** Candidate base days and the fixing-day engine *)

Lemma days_in_month_cases y m :
  (m = 2 /\ (_days_in_month y m = 28 \/ _days_in_month y m = 29))
  \/ (m <> 2 /\ (_days_in_month y m = 30 \/ _days_in_month y m = 31)).
Proof.
  unfold _days_in_month.
  destruct (Z.eqb_spec m 2) as [->|Hm].
  - left. destruct (_is_leap_year y); auto.
  - right. destruct (month_in m _); auto.
Qed.

Lemma days_in_month_dec m y : m = 12 -> _days_in_month y m = 31.
Proof. intros ->. reflexivity. Qed.

Ltac base_days_cases y m cfg :=
  unfold build_gotobi_base_days;
  destruct (days_in_month_cases y m) as [[Hm [Hd|Hd]]|[Hm [Hd|Hd]]];
  rewrite Hd; clear Hd;
  destruct (include_day31 cfg), (exclude_yearend_bank_closure cfg),
    (include_feb_last_day cfg);
  destruct (Z.eqb_spec m 12) as [H12|H12];
  destruct (Z.eqb_spec m 2) as [H2|H2]; try lia; cbn.

(** C1: the candidate list of [build_gotobi_base_days] has no repetition
    and consists exactly of the members of 5, 10, ..., 30 that do not
    exceed the length of the month; of 31 if and only if day 31 is
    included, the month has 31 days and it is not the case that the
    year-end closure is excluded and the month is December; and of the
    last day of February (28 or 29) if and only if the month is February
    and the February option is on. *)
Theorem base_days_exact (y m : Z) (cfg : Config) :
  let dim := _days_in_month y m in
  let l := build_gotobi_base_days y m cfg in
  NoDup l
  /\ (forall x, x ∈ l <->
        (x ∈ [5; 10; 15; 20; 25; 30] /\ x <= dim)
        \/ (x = 31 /\ include_day31 cfg = true /\ 31 <= dim
            /\ ~ (exclude_yearend_bank_closure cfg = true /\ m = 12))
        \/ (x = dim /\ m = 2 /\ include_feb_last_day cfg = true))
  /\ (31 ∈ l <->
        include_day31 cfg = true /\ 31 <= dim
        /\ ~ (exclude_yearend_bank_closure cfg = true /\ m = 12))
  /\ (forall x, x = 28 \/ x = 29 ->
        (x ∈ l <-> x = dim /\ m = 2 /\ include_feb_last_day cfg = true)).
Proof.
  intros dim l. subst dim l.
  assert (Hdec := days_in_month_dec m y).
  base_days_cases y m cfg.
  all: try (rewrite Hdec in * by assumption).
  all: split; [ apply (bool_decide_unpack _); vm_compute; reflexivity | ].
  all: repeat split; intros; rewrite ?elem_of_cons, ?elem_of_nil in *;
    try discriminate; try lia.
Qed.

Lemma date_eqb_eq a b : date_eqb a b = true <-> a = b.
Proof.
  unfold date_eqb. rewrite !andb_true_iff, !Z.eqb_eq.
  destruct a, b; cbn.
  split; [intros [[-> ->] ->]; auto|intros [= -> -> ->]; auto].
Qed.

Lemma base_days_bounds y m cfg :
  Forall (fun x => 5 <= x <= _days_in_month y m)
    (build_gotobi_base_days y m cfg).
Proof.
  assert (Hdec := days_in_month_dec m y).
  base_days_cases y m cfg;
    try (rewrite Hdec in * by assumption);
    repeat constructor; lia.
Qed.

Lemma is_fixing_loop_result bases : forall target hjp hus cfg found b,
  is_fixing_loop bases target hjp hus cfg = Ok (found, b) ->
  (found = true ->
     b ∈ bases
     /\ normalize_biz_day (Date (year target) (month target) b) hjp hus cfg
        = Ok target)
  /\ (found = false -> b = 0).
Proof.
  induction bases as [|x rest IH]; intros target hjp hus cfg found b;
    cbn [is_fixing_loop].
  - intros [= <- <-]. split; [discriminate|auto].
  - unfold mk_date.
    destruct (valid_date (Date (year target) (month target) x));
      [|discriminate]. cbn [rbind].
    destruct (normalize_biz_day (Date (year target) (month target) x)
                hjp hus cfg) as [r|e] eqn:Hn; [|discriminate].
    cbn [rbind].
    assert (Hrest : is_fixing_loop rest target hjp hus cfg = Ok (found, b) ->
      (found = true ->
         b ∈ x :: rest
         /\ normalize_biz_day (Date (year target) (month target) b) hjp hus cfg
            = Ok target)
      /\ (found = false -> b = 0)).
    { intros H. destruct (IH _ _ _ _ _ _ H) as [H1 H2]. split; [|auto].
      intros Hf. destruct (H1 Hf). split; [right|]; auto. }
    destruct (_ && _); [exact Hrest|].
    destruct (date_eqb r target) eqn:He; [|exact Hrest].
    apply date_eqb_eq in He. subst r.
    intros [= <- <-]. split; [|discriminate].
    intros _. split; [left|]; auto.
Qed.

(** C8 (amended): when [is_fixing_day] reports a fixing day, its base day
    is one of the month's candidates, hence between 1 and 31, and the
    normalized candidate is the target; when it reports none, the base day
    is the placeholder 0. *)
Theorem is_fixing_day_base_day
    (target : date) (hjp hus : option (gset Z)) (cfg : Config)
    (found : bool) (b : Z) :
  is_fixing_day target hjp hus cfg = Ok (found, b) ->
  (found = true ->
     1 <= b <= 31
     /\ b ∈ build_gotobi_base_days (year target) (month target) cfg
     /\ normalize_biz_day (Date (year target) (month target) b) hjp hus cfg
        = Ok target)
  /\ (found = false -> b = 0).
Proof.
  unfold is_fixing_day. intros H.
  destruct (is_fixing_loop_result _ _ _ _ _ _ _ H) as [H1 H2].
  split; [|exact H2]. intros Hf. destruct (H1 Hf) as [Hin Hn].
  split; [|auto].
  pose proof (base_days_bounds (year target) (month target) cfg) as Hall.
  rewrite Forall_forall in Hall. specialize (Hall _ Hin).
  pose proof (days_in_month_bounds (year target) (month target)). lia.
Qed.

Lemma is_fixing_day_base_day_witness :
  is_fixing_day (Date 2026 12 30) None None default_config = Ok (true, 30)
  /\ 1 <= 30 <= 31.
Proof.
  assert (H : is_fixing_day (Date 2026 12 30) None None default_config
              = Ok (true, 30)) by (vm_compute; reflexivity).
  split; [exact H|].
  apply (is_fixing_day_base_day _ _ _ _ _ _ H). reflexivity.
Defined.

(** C8 (counterexample): Tuesday 2026-01-06 is not a fixing day, and the
    base day returned with that answer is 0, outside 1..31. *)
Lemma is_fixing_day_not_found_example :
  valid_date (Date 2026 1 6) = true
  /\ is_fixing_day (Date 2026 1 6) None None default_config = Ok (false, 0)
  /\ ~ (1 <= snd (false, 0) <= 31).
Proof. split; [reflexivity|]. split; [vm_compute; reflexivity|cbn; lia]. Qed.

Lemma normalize_key_le d r hjp hus cfg :
  valid_date d = true -> normalize_biz_day d hjp hus cfg = Ok r ->
  _date_key r <= _date_key d.
Proof.
  intros Hv Hr. unfold normalize_biz_day in Hr.
  destruct (normalize_loop_result _ _ _ _ _ _ Hv Hr)
    as (_ & k & _ & Hk & _).
  now destruct (date_sub_days_ok _ _ _ Hv Hk) as (_ & _ & ?).
Qed.

Lemma is_fixing_loop_skip x rest target hjp hus cfg :
  valid_date (Date (year target) (month target) x) = true ->
  60 < toordinal (Date (year target) (month target) x) ->
  x < day target ->
  is_fixing_loop (x :: rest) target hjp hus cfg
  = is_fixing_loop rest target hjp hus cfg.
Proof.
  intros Hv Hord Hlt. cbn [is_fixing_loop]. unfold mk_date. rewrite Hv.
  cbn [rbind].
  destruct (normalize_loop_total hjp hus cfg 60 _ Hv Hord) as [r Hr].
  fold (normalize_biz_day (Date (year target) (month target) x) hjp hus cfg)
    in Hr.
  rewrite Hr. cbn [rbind].
  pose proof (normalize_key_le _ _ _ _ _ Hv Hr) as Hk.
  destruct (_ && _); [reflexivity|].
  destruct (date_eqb r target) eqn:He; [|reflexivity].
  apply date_eqb_eq in He. subst r.
  unfold _date_key in Hk. cbn [year month day] in Hk. lia.
Qed.

Lemma not_holiday d (s : gset Z) : _date_key d ∉ s -> _is_holiday d s = false.
Proof. intros. unfold _is_holiday. now apply bool_decide_eq_false. Qed.

(** C9: with the year-end closure excluded and no holiday set containing
    2026-12-30, base day 31 is not a candidate of December 2026, and
    2026-12-30 (a Wednesday; the 31st is a Thursday) normalizes to itself
    and is reported as a fixing day with base day 30. *)
Theorem december_2026_scenario
    (hjp hus : option (gset Z)) (cfg : Config) :
  exclude_yearend_bank_closure cfg = true ->
  (forall s, hjp = Some s -> 20261230 ∉ s) ->
  (forall s, hus = Some s -> 20261230 ∉ s) ->
  weekday (Date 2026 12 31) = 3
  /\ weekday (Date 2026 12 30) = 2
  /\ (31 ∉ build_gotobi_base_days 2026 12 cfg)
  /\ normalize_biz_day (Date 2026 12 30) hjp hus cfg = Ok (Date 2026 12 30)
  /\ is_fixing_day (Date 2026 12 30) hjp hus cfg = Ok (true, 30).
Proof.
  intros Hex Hjp Hus.
  assert (Hb : is_business_day (Date 2026 12 30) hjp hus cfg = true).
  { unfold is_business_day, is_yearend, is_holiday_any.
    change (is_weekend (Date 2026 12 30)) with false.
    change (_is_yearend_closure_day (Date 2026 12 30)) with false.
    rewrite andb_false_r. cbn [negb andb orb].
    destruct hjp as [sj|], hus as [su|];
      destruct (enable_holiday_jp cfg), (enable_holiday_us cfg);
      rewrite ?not_holiday by (cbn; eauto); reflexivity. }
  assert (Hn : normalize_biz_day (Date 2026 12 30) hjp hus cfg
               = Ok (Date 2026 12 30)).
  { unfold normalize_biz_day. now apply normalize_loop_business. }
  assert (Hl : build_gotobi_base_days 2026 12 cfg = [5; 10; 15; 20; 25; 30]).
  { unfold build_gotobi_base_days. rewrite Hex.
    destruct (include_day31 cfg), (include_feb_last_day cfg); reflexivity. }
  split; [reflexivity|]. split; [reflexivity|].
  split; [rewrite Hl; rewrite !elem_of_cons, elem_of_nil; lia|].
  split; [exact Hn|].
  unfold is_fixing_day. cbn [year month day]. rewrite Hl.
  rewrite !is_fixing_loop_skip by (cbn [year month day]; reflexivity || lia).
  cbn [is_fixing_loop year month day]. unfold mk_date.
  change (valid_date (Date 2026 12 30)) with true. cbn [rbind].
  rewrite Hn. cbn [rbind]. rewrite Hex. reflexivity.
Qed.

Lemma december_2026_scenario_witness :
  is_fixing_day (Date 2026 12 30) (Some {[20260101; 20261123]}) None
    default_config = Ok (true, 30).
Proof.
  apply (december_2026_scenario (Some {[20260101; 20261123]}) None
           default_config).
  - reflexivity.
  - intros s [= <-]. rewrite elem_of_union, !elem_of_singleton. lia.
  - intros s [=].
Defined.

(** C10: the candidate list is strictly increasing and each of its
    elements is a day of the month, between 1 and the month's length. *)
Theorem base_days_increasing (y m : Z) (cfg : Config) :
  StronglySorted Z.lt (build_gotobi_base_days y m cfg)
  /\ Forall (fun x => 1 <= x <= _days_in_month y m)
       (build_gotobi_base_days y m cfg).
Proof.
  split.
  - assert (Hdec := days_in_month_dec m y).
    base_days_cases y m cfg;
      try (rewrite Hdec in * by assumption);
      repeat constructor; lia.
  - eapply Forall_impl; [apply base_days_bounds|]. cbn. intros. lia.
Qed.

(** ** The notification window and the choice of the date *)

Lemma dt_le_instant a b :
  valid_datetime a = true -> valid_datetime b = true ->
  dt_le a b = (instant a <=? instant b).
Proof.
  intros Ha Hb. unfold dt_le, Z.leb. now rewrite instant_compare.
Qed.

Lemma dt_lt_instant a b :
  valid_datetime a = true -> valid_datetime b = true ->
  dt_lt a b = (instant a <? instant b).
Proof.
  intros Ha Hb. unfold dt_lt, Z.ltb. now rewrite instant_compare.
Qed.

(** C4: for a fixing date [F] with a previous day and window times that
    are times of day, [in_notify_window now F] is true exactly when [now]
    lies at or after (F - 1 day) at the start time and strictly before [F]
    at the end time, on the time line of the observer zone; the start bound
    itself is inside and the end bound itself is outside. *)
Theorem in_notify_window_half_open
    (now_jst : datetime) (fixing_date prev : date) (cfg : Config)
    (sh sm eh em : Z) :
  valid_datetime now_jst = true ->
  valid_date fixing_date = true ->
  date_sub1 fixing_date = Ok prev ->
  window_prev_day_start_hhmm cfg = (sh, sm) ->
  window_fixing_end_hhmm cfg = (eh, em) ->
  valid_time sh sm 0 0 = true ->
  valid_time eh em 0 0 = true ->
  let window_start := DateTime prev sh sm 0 0 in
  let window_end := DateTime fixing_date eh em 0 0 in
  toordinal prev = toordinal fixing_date - 1
  /\ in_notify_window now_jst fixing_date cfg
     = Ok (bool_decide (instant window_start <= instant now_jst
                        /\ instant now_jst < instant window_end))
  /\ in_notify_window window_start fixing_date cfg = Ok true
  /\ in_notify_window window_end fixing_date cfg = Ok false.
Proof.
  intros Hnow HF Hprev Hs He Hvs Hve window_start window_end.
  destruct (date_sub1_ok _ _ HF Hprev) as (Hvp & Hord & _).
  assert (Hws : valid_datetime window_start = true).
  { unfold valid_datetime. cbn. now rewrite Hvp, Hvs. }
  assert (Hwe : valid_datetime window_end = true).
  { unfold valid_datetime. cbn. now rewrite HF, Hve. }
  assert (Hgen : forall t, valid_datetime t = true ->
    in_notify_window t fixing_date cfg
    = Ok (bool_decide (instant window_start <= instant t
                       /\ instant t < instant window_end))).
  { intros t Ht. unfold in_notify_window. rewrite Hprev, Hs, He.
    cbn [rbind]. unfold mk_datetime. rewrite Hvs, Hve. cbn [rbind].
    fold window_start. fold window_end.
    rewrite dt_le_instant, dt_lt_instant by assumption.
    f_equal. apply eq_true_iff_eq.
    rewrite andb_true_iff, Z.leb_le, Z.ltb_lt, bool_decide_eq_true. tauto. }
  apply valid_time_unfold in Hvs, Hve.
  split; [exact Hord|]. split; [now apply Hgen|].
  split; rewrite Hgen by assumption; f_equal.
  - apply bool_decide_eq_true. unfold instant, window_start, window_end.
    cbn [dt_date hour minute second microsecond]. lia.
  - apply bool_decide_eq_false. lia.
Qed.

Lemma in_notify_window_half_open_witness :
  in_notify_window (DateTime (Date 2026 1 4) 10 0 0 0) (Date 2026 1 5)
    default_config = Ok true
  /\ in_notify_window (DateTime (Date 2026 1 4) 9 59 0 0) (Date 2026 1 5)
       default_config = Ok false
  /\ in_notify_window (DateTime (Date 2026 1 5) 9 55 0 0) (Date 2026 1 5)
       default_config = Ok false.
Proof.
  destruct (in_notify_window_half_open (DateTime (Date 2026 1 4) 9 59 0 0)
              (Date 2026 1 5) (Date 2026 1 4) default_config 10 0 9 55
              eq_refl eq_refl eq_refl eq_refl eq_refl eq_refl eq_refl)
    as (_ & Hnow & Hstart & Hend).
  split; [exact Hstart|]. split; [|exact Hend].
  rewrite Hnow. vm_compute. reflexivity.
Defined.

(** C5: for every instant whose date is a valid date.  On 9999-12-31
    [choose_fixing_date] raises [OverflowError], whether or not today is a
    fixing day, since tomorrow is computed before today is evaluated.  On
    every other date tomorrow is the next calendar day, and the function
    returns today with its base day as soon as today is a fixing day,
    whatever tomorrow is, and so also when both are fixing days; otherwise
    tomorrow with its base day if tomorrow is one; otherwise no date.  A
    returned date is today or tomorrow, and it is tomorrow only when today
    is not a fixing day. *)
Theorem choose_fixing_date_today_first
    (now_jst : datetime) (hjp hus : option (gset Z)) (cfg : Config) :
  let today := dt_date now_jst in
  valid_date today = true ->
  (today = Date 9999 12 31 ->
   choose_fixing_date now_jst hjp hus cfg = Raise OverflowError)
  /\ (today <> Date 9999 12 31 ->
      exists tomorrow,
        date_add1 today = Ok tomorrow
        /\ valid_date tomorrow = true
        /\ toordinal tomorrow = toordinal today + 1
        /\ (forall b, is_fixing_day today hjp hus cfg = Ok (true, b) ->
              choose_fixing_date now_jst hjp hus cfg = Ok (Some today, b))
        /\ (forall b b',
              is_fixing_day today hjp hus cfg = Ok (true, b) ->
              is_fixing_day tomorrow hjp hus cfg = Ok (true, b') ->
              choose_fixing_date now_jst hjp hus cfg = Ok (Some today, b))
        /\ (forall b0 b,
              is_fixing_day today hjp hus cfg = Ok (false, b0) ->
              is_fixing_day tomorrow hjp hus cfg = Ok (true, b) ->
              choose_fixing_date now_jst hjp hus cfg
              = Ok (Some tomorrow, b))
        /\ (forall b0 b1,
              is_fixing_day today hjp hus cfg = Ok (false, b0) ->
              is_fixing_day tomorrow hjp hus cfg = Ok (false, b1) ->
              choose_fixing_date now_jst hjp hus cfg = Ok (None, 0))
        /\ (forall x b,
              choose_fixing_date now_jst hjp hus cfg = Ok (Some x, b) ->
              (x = today
               /\ is_fixing_day today hjp hus cfg = Ok (true, b))
              \/ (x = tomorrow
                  /\ (exists b0,
                        is_fixing_day today hjp hus cfg = Ok (false, b0))
                  /\ is_fixing_day tomorrow hjp hus cfg = Ok (true, b)))).
Proof.
  intros today Hv. split.
  { intros E. unfold choose_fixing_date. fold today. now rewrite E. }
  intros Hne. destruct (date_add1_total today Hv Hne) as [tomorrow Htom].
  destruct (date_add1_ok _ _ Hv Htom) as [Hvt Hord].
  exists tomorrow. split; [exact Htom|]. split; [exact Hvt|].
  split; [exact Hord|].
  unfold choose_fixing_date. fold today. rewrite Htom.
  cbn [rbind]. repeat split.
  - intros b ->. reflexivity.
  - intros b b' -> _. reflexivity.
  - intros b0 b -> ->. reflexivity.
  - intros b0 b1 -> ->. reflexivity.
  - intros x b.
    destruct (is_fixing_day today hjp hus cfg) as [[[|] b0]|e];
      cbn [rbind]; [intros [= <- <-]; left; auto| |discriminate].
    destruct (is_fixing_day tomorrow hjp hus cfg) as [[[|] b1]|e];
      cbn [rbind]; [|discriminate|discriminate].
    intros [= <- <-]. right. eauto.
Qed.

Lemma choose_fixing_date_today_first_witness :
  is_fixing_day (Date 2026 3 30) None None default_config = Ok (true, 30)
  /\ is_fixing_day (Date 2026 3 31) None None default_config = Ok (true, 31)
  /\ choose_fixing_date (DateTime (Date 2026 3 30) 12 0 0 0) None None
       default_config = Ok (Some (Date 2026 3 30), 30).
Proof.
  assert (Htoday : is_fixing_day (Date 2026 3 30) None None default_config
                   = Ok (true, 30)) by (vm_compute; reflexivity).
  assert (Htom : is_fixing_day (Date 2026 3 31) None None default_config
                 = Ok (true, 31)) by (vm_compute; reflexivity).
  split; [exact Htoday|]. split; [exact Htom|].
  destruct (choose_fixing_date_today_first
              (DateTime (Date 2026 3 30) 12 0 0 0) None None
              default_config eq_refl) as [_ Hnext].
  destruct Hnext as (tomorrow & Hadd & _ & _ & _ & Hboth & _);
    [discriminate|].
  injection Hadd as <-.
  exact (Hboth 30 31 Htoday Htom).
Defined.

(** On 9999-12-31 08:00 with the year-end exclusion off, today is a fixing
    day (a Friday, base day 31) and [choose_fixing_date] raises instead of
    returning it; with the default configuration today is not a fixing day
    and the function raises instead of going on to tomorrow or returning
    no date. *)
Lemma choose_fixing_date_raises_on_last_day :
  is_fixing_day (Date 9999 12 31) None None
    (without_yearend_exclusion default_config) = Ok (true, 31)
  /\ choose_fixing_date (DateTime (Date 9999 12 31) 8 0 0 0) None None
       (without_yearend_exclusion default_config) = Raise OverflowError
  /\ is_fixing_day (Date 9999 12 31) None None default_config
     = Ok (false, 0)
  /\ choose_fixing_date (DateTime (Date 9999 12 31) 8 0 0 0) None None
       default_config = Raise OverflowError.
Proof. repeat split; vm_compute; reflexivity. Qed.

(** ** Runs and the retry policy *)

Lemma bind_ok {A B} (m : M A) (k : A -> M B) w a w' :
  m w = (Ok a, w') -> bind m k w = k a w'.
Proof. unfold bind. now intros ->. Qed.

Lemma bind_raise {A B} (m : M A) (k : A -> M B) w e w' :
  m w = (Raise e, w') -> bind m k w = (Raise e, w').
Proof. unfold bind. now intros ->. Qed.

Section RunFacts.
Variable py_int_of_str : string -> result Z.

Abbreviation run_once' := (run_once py_int_of_str).
Abbreviation main' := (main py_int_of_str).

Lemma clock_step cfg w :
  match test_now_jst cfg with
  | Some t => ret t
  | None => datetime_now
  end w = (Ok (now_of cfg w), after_clock cfg w).
Proof.
  unfold now_of, after_clock. destruct (test_now_jst cfg); reflexivity.
Qed.

Lemma after_clock_csv cfg w : w_csv (after_clock cfg w) = w_csv w.
Proof. unfold after_clock. destruct (test_now_jst cfg); reflexivity. Qed.

Lemma after_clock_state cfg w :
  w_state_files (after_clock cfg w) = w_state_files w.
Proof. unfold after_clock. destruct (test_now_jst cfg); reflexivity. Qed.

Lemma after_clock_events cfg w : w_events (after_clock cfg w) = w_events w.
Proof. unfold after_clock. destruct (test_now_jst cfg); reflexivity. Qed.


Lemma load_keys_step enabled path w w' :
  w_csv w' = w_csv w ->
  (if enabled : bool
   then keys <- load_holiday_keys path ;; ret (Some keys)
   else ret None) w'
  = (holiday_keys_of enabled path w, w').
Proof.
  intros Hcsv. destruct enabled; [|reflexivity].
  unfold holiday_keys_of, bind, load_holiday_keys, ret. cbn beta.
  rewrite Hcsv. cbn [fst].
  destruct (w_csv w !! path) as [keys|]; [|reflexivity].
  destruct (decide (keys = ∅)); reflexivity.
Qed.

(** The run up to the choice of the fixing date. *)
Lemma run_once_chosen cfg w choice :
  chooses cfg w choice ->
  run_once' cfg w =
  match choice with
  | (None, _) => (print (LogNoFixing (now_of cfg w)) ;; ret 0)
  | (Some F, b) =>
      (outside <-
        (if enforce_window cfg
         then inside <- lift (in_notify_window (now_of cfg w) F cfg) ;;
              ret (negb inside)
         else ret false) ;;
       if outside : bool then
         print (LogOutsideWindow (now_of cfg w) F) ;; ret 0
       else dedup_and_dispatch py_int_of_str cfg (now_of cfg w) F b)
  end (after_clock cfg w).
Proof.
  intros (hjp & hus & Hj & Hu & Hc). unfold run_once.
  rewrite (bind_ok _ _ _ _ _ (clock_step cfg w)).
  erewrite bind_ok
    by (rewrite (load_keys_step _ _ w) by apply after_clock_csv;
        rewrite Hj; reflexivity).
  erewrite bind_ok
    by (rewrite (load_keys_step _ _ w) by apply after_clock_csv;
        rewrite Hu; reflexivity).
  erewrite bind_ok by (unfold lift; rewrite Hc; reflexivity).
  destruct choice as [[F|] b]; reflexivity.
Qed.

Lemma run_once_resolved cfg w F b :
  resolved cfg w F b ->
  run_once' cfg w
  = dedup_and_dispatch py_int_of_str cfg (now_of cfg w) F b (after_clock cfg w).
Proof.
  intros [Hch Hwin]. rewrite (run_once_chosen _ _ _ Hch).
  assert (Hstep :
    (if enforce_window cfg
     then inside <- lift (in_notify_window (now_of cfg w) F cfg) ;;
          ret (negb inside)
     else ret false) (after_clock cfg w) = (Ok false, after_clock cfg w)).
  { destruct (enforce_window cfg); [|reflexivity].
    unfold bind, lift. now rewrite Hwin. }
  now rewrite (bind_ok _ _ _ _ _ Hstep).
Qed.

Lemma int_or_0_int k : int_or_0 py_int_of_str (Some (JInt k)) = Ok k.
Proof.
  cbn. destruct (Z.eqb_spec k 0) as [->|]; reflexivity.
Qed.

Lemma payload_key cfg state k now :
  dict_update state (state_payload cfg k now)
    !! "last_notified_fixing_yyyymmdd" = Some (JInt k).
Proof.
  unfold dict_update, state_payload.
  destruct (String.eqb (notify_mode cfg) "ntfy"); cbn;
    repeat (rewrite lookup_insert_ne by discriminate);
    apply lookup_insert_eq.
Qed.

Lemma read_state_saved path obj files w :
  w_state_files w = <[path := JsonDict obj]> files ->
  read_state path w = obj.
Proof. unfold read_state. intros ->. now rewrite lookup_insert_eq. Qed.

Ltac count_steps :=
  unfold count_events in *;
  cbn [w_csv w_state_files w_time w_now_calls w_ntfy w_local w_events]
    in *;
  rewrite ?List.filter_app, ?length_app in *;
  cbn [List.filter is_dispatch is_ntfy_call is_local_call is_sleep orb
       length] in *;
  rewrite ?Nat.add_0_r in *.

Ltac run_steps :=
  unfold dedup_and_dispatch, bind, load_state, lift, ntfy_publish,
    local_notify, save_state, print, emit, ret, stored_key in *;
  cbn beta iota zeta in *;
  count_steps.






Lemma main_first_input_error cfg w e w1 :
  run_once' cfg w = (Raise e, w1) -> is_input_error e = true ->
  main' cfg w = (2, snd (print (ErrInput e) w1)).
Proof.
  unfold main. cbn [main_loop]. intros -> He. rewrite He.
  destruct e; try discriminate; reflexivity.
Qed.


Lemma holiday_keys_of_raise enabled path w e :
  holiday_keys_of enabled path w = Raise e -> is_input_error e = true.
Proof.
  unfold holiday_keys_of, load_holiday_keys. destruct enabled; [|discriminate].
  destruct (w_csv w !! path) as [keys|]; cbn [fst].
  - destruct (decide (keys = ∅)); cbn [fst]; [|discriminate].
    now intros [= <-].
  - now intros [= <-].
Qed.

Lemma run_once_input_error cfg w e :
  input_error cfg w e ->
  run_once' cfg w = (Raise e, after_clock cfg w) /\ is_input_error e = true.
Proof.
  intros [Hj|[[hjp Hj] Hu]]; (split; [|eapply holiday_keys_of_raise; eauto]);
    unfold run_once; rewrite (bind_ok _ _ _ _ _ (clock_step cfg w)).
  - erewrite bind_raise; [reflexivity|].
    rewrite (load_keys_step _ _ w) by apply after_clock_csv. now rewrite Hj.
  - erewrite bind_ok
      by (rewrite (load_keys_step _ _ w) by apply after_clock_csv;
          rewrite Hj; reflexivity).
    erewrite bind_raise; [reflexivity|].
    rewrite (load_keys_step _ _ w) by apply after_clock_csv. now rewrite Hu.
Qed.





Lemma print_keeps l w :
  w_state_files (snd (print l w)) = w_state_files w
  /\ count_events is_dispatch (snd (print l w)) = count_events is_dispatch w
  /\ count_events is_ntfy_call (snd (print l w))
     = count_events is_ntfy_call w
  /\ count_events is_sleep (snd (print l w)) = count_events is_sleep w.
Proof. unfold print, emit. cbn [snd]. count_steps. auto. Qed.

Lemma after_clock_keeps cfg w :
  w_state_files (after_clock cfg w) = w_state_files w
  /\ count_events is_dispatch (after_clock cfg w) = count_events is_dispatch w
  /\ count_events is_sleep (after_clock cfg w) = count_events is_sleep w.
Proof.
  unfold count_events. now rewrite after_clock_state, after_clock_events.
Qed.




End RunFacts.



(** * Further properties of the code *)



(** ** Date keys *)

Lemma date_key_compare a b :
  valid_date a = true -> valid_date b = true ->
  (_date_key a ?= _date_key b) = (toordinal a ?= toordinal b).
Proof.
  intros Ha Hb. rewrite <- (toordinal_compare _ _ Ha Hb).
  apply valid_date_unfold in Ha, Hb.
  pose proof (days_in_month_bounds (year a) (month a)).
  pose proof (days_in_month_bounds (year b) (month b)).
  unfold _date_key. cbn [tuple_cmp].
  destruct (Z.compare_spec (year a) (year b));
    [| apply Z.compare_lt_iff; lia | apply Z.compare_gt_iff; lia].
  destruct (Z.compare_spec (month a) (month b));
    [| apply Z.compare_lt_iff; lia | apply Z.compare_gt_iff; lia].
  destruct (Z.compare_spec (day a) (day b));
    [apply Z.compare_eq_iff | apply Z.compare_lt_iff | apply Z.compare_gt_iff];
    lia.
Qed.

(** X1: for valid dates the key [year*10000 + month*100 + day] gives the
    three fields back by division, two dates with the same key are the same
    date, and keys are ordered as the dates are on the calendar. *)
Theorem date_key_round_trip (a b : date) :
  valid_date a = true -> valid_date b = true ->
  (year a = _date_key a / 10000
   /\ month a = (_date_key a / 100) mod 100
   /\ day a = _date_key a mod 100)
  /\ (_date_key a = _date_key b -> a = b)
  /\ (_date_key a < _date_key b <-> toordinal a < toordinal b).
Proof.
  intros Ha Hb. pose proof (date_key_compare a b Ha Hb) as Hc.
  apply valid_date_unfold in Ha, Hb.
  pose proof (days_in_month_bounds (year a) (month a)).
  pose proof (days_in_month_bounds (year b) (month b)).
  split; [|split].
  - unfold _date_key. repeat split; Z.div_mod_to_equations; lia.
  - unfold _date_key. intros Hk.
    destruct a as [ya ma da], b as [yb mb db]; cbn [year month day] in *.
    assert (ya = yb /\ ma = mb /\ da = db) as (-> & -> & ->) by lia.
    reflexivity.
  - rewrite <- !Z.compare_lt_iff. now rewrite Hc.
Qed.

Lemma date_key_round_trip_witness :
  _date_key (Date 2026 12 30) = 20261230
  /\ 2026 = 20261230 / 10000 /\ 12 = (20261230 / 100) mod 100
  /\ 30 = 20261230 mod 100.
Proof.
  split; [reflexivity|].
  exact (proj1 (date_key_round_trip (Date 2026 12 30) (Date 2026 12 31)
                  eq_refl eq_refl)).
Defined.

(** ** The normalizer *)

Lemma normalize_steps_back d r hjp hus cfg :
  valid_date d = true -> normalize_biz_day d hjp hus cfg = Ok r ->
  valid_date r = true
  /\ exists k, (k <= 60)%nat /\ toordinal r = toordinal d - Z.of_nat k
       /\ none_business_before hjp hus cfg k d
       /\ date_sub_days k d = Ok r
       /\ ((k < 60)%nat -> is_business_day r hjp hus cfg = true).
Proof.
  intros Hv Hr. unfold normalize_biz_day in Hr.
  destruct (normalize_loop_result _ _ _ _ _ _ Hv Hr)
    as (Hvr & k & Hk & Hdk & Hnone & Hfound).
  destruct (date_sub_days_ok _ _ _ Hv Hdk) as (_ & Ho & _).
  split; [exact Hvr|]. exists k. auto.
Qed.

(** X2: the date [normalize_biz_day] returns for a valid date [d] is a
    valid date, never later than [d] and at most 60 days before it, and it
    is [d] itself exactly when [d] is a business day. *)
Theorem normalize_biz_day_range
    (d r : date) (hjp hus : option (gset Z)) (cfg : Config) :
  valid_date d = true ->
  normalize_biz_day d hjp hus cfg = Ok r ->
  valid_date r = true
  /\ toordinal d - 60 <= toordinal r <= toordinal d
  /\ (r = d <-> is_business_day d hjp hus cfg = true).
Proof.
  intros Hv Hr.
  destruct (normalize_steps_back _ _ _ _ _ Hv Hr)
    as (Hvr & k & Hk & Ho & Hnone & Hdk & _).
  split; [exact Hvr|]. split; [lia|]. split.
  - intros ->. destruct k as [|k].
    + unfold normalize_biz_day in Hr.
      destruct (is_business_day d hjp hus cfg) eqn:Hb; [reflexivity|].
      rewrite normalize_loop_S, Hb in Hr.
      destruct (date_sub1 d) as [p|e] eqn:Hp; [|discriminate].
      cbn [rbind] in Hr.
      destruct (date_sub1_ok _ _ Hv Hp) as (Hvp & Hop & _).
      destruct (normalize_loop_result _ _ _ _ _ _ Hvp Hr)
        as (_ & j & _ & Hj & _).
      destruct (date_sub_days_ok _ _ _ Hvp Hj) as (_ & Hoj & _). lia.
    + lia.
  - intros Hb. unfold normalize_biz_day in Hr.
    rewrite normalize_loop_business in Hr by exact Hb. congruence.
Qed.

Lemma normalize_biz_day_range_witness :
  toordinal (Date 2026 1 5) - 60 <= toordinal (Date 2025 12 30)
  <= toordinal (Date 2026 1 5).
Proof.
  assert (Hn : normalize_biz_day (Date 2026 1 5) (Some {[20260105]}) None
                 default_config = Ok (Date 2025 12 30))
    by (vm_compute; reflexivity).
  exact (proj1 (proj2 (normalize_biz_day_range (Date 2026 1 5) _ _ _ _
                         eq_refl Hn))).
Defined.

Lemma is_business_day_unfold r hjp hus cfg :
  is_business_day r hjp hus cfg = true <->
  weekday r < 5
  /\ (enable_holiday_jp cfg = true ->
      forall keys, hjp = Some keys -> _date_key r ∉ keys)
  /\ (enable_holiday_us cfg = true ->
      forall keys, hus = Some keys -> _date_key r ∉ keys)
  /\ (exclude_yearend_bank_closure cfg = true ->
      _is_yearend_closure_day r = false).
Proof.
  unfold is_business_day, is_weekend, is_holiday_any, is_yearend, _is_holiday.
  rewrite !andb_true_iff, !negb_true_iff, Z.leb_gt.
  destruct hjp as [sj|], hus as [su|];
    destruct (enable_holiday_jp cfg), (enable_holiday_us cfg),
      (exclude_yearend_bank_closure cfg);
    cbn [orb andb];
    rewrite ?orb_false_iff, ?bool_decide_eq_false;
    (split; [intros H; repeat split; try tauto; try discriminate;
               intros; simplify_eq; tauto
            |intros (Hw & Hj & Hu & Hc); repeat split; eauto]).
Qed.

(** X3: a date returned less than 60 days before [d] is a business day
    in every respect: Monday to Friday, in no holiday list that is switched
    on and present, and not a year-end closure day when the exclusion is
    on. *)
Theorem normalize_biz_day_result_is_business
    (d r : date) (hjp hus : option (gset Z)) (cfg : Config) :
  valid_date d = true ->
  normalize_biz_day d hjp hus cfg = Ok r ->
  toordinal d - toordinal r < 60 ->
  weekday r < 5
  /\ (enable_holiday_jp cfg = true ->
      forall keys, hjp = Some keys -> _date_key r ∉ keys)
  /\ (enable_holiday_us cfg = true ->
      forall keys, hus = Some keys -> _date_key r ∉ keys)
  /\ (exclude_yearend_bank_closure cfg = true ->
      _is_yearend_closure_day r = false).
Proof.
  intros Hv Hr Hlt.
  destruct (normalize_steps_back _ _ _ _ _ Hv Hr)
    as (Hvr & k & Hk & Ho & _ & _ & Hfound).
  apply is_business_day_unfold. apply Hfound. lia.
Qed.

Lemma normalize_biz_day_result_is_business_witness :
  weekday (Date 2025 12 30) < 5
  /\ _is_yearend_closure_day (Date 2025 12 30) = false.
Proof.
  assert (Hn : normalize_biz_day (Date 2026 1 5) (Some {[20260105]}) None
                 default_config = Ok (Date 2025 12 30))
    by (vm_compute; reflexivity).
  destruct (normalize_biz_day_result_is_business (Date 2026 1 5) _ _ _ _
              eq_refl Hn) as (Hw & _ & _ & Hc).
  - vm_compute. reflexivity.
  - split; [exact Hw|exact (Hc eq_refl)].
Defined.

Lemma toordinal_after_year_1 d :
  valid_date d = true -> 1 < year d -> 365 < toordinal d.
Proof.
  intros Hv Hy. pose proof (day_of_year_bounds d Hv).
  pose proof (days_before_year_mono 2 (year d) ltac:(lia)) as Hm.
  change (days_before_year 2) with 365 in Hm. unfold toordinal. lia.
Qed.

(** Year-end closure days, on the ordinal line: the last day of a year
    and the three days after it. *)
Lemma closure_ordinal x :
  valid_date x = true -> _is_yearend_closure_day x = true ->
  exists Y, days_before_year Y <= toordinal x <= days_before_year Y + 3.
Proof.
  intros Hv Hc. unfold _is_yearend_closure_day in Hc.
  apply orb_true_iff in Hc.
  rewrite !andb_true_iff, !Z.eqb_eq, !Z.leb_le in Hc.
  unfold toordinal. destruct Hc as [[Hm Hd]|[Hm Hd]]; rewrite Hm.
  - exists (year x + 1).
    rewrite leap_step, days_before_month_12, Hd.
    destruct (_is_leap_year (year x)); lia.
  - exists (year x). rewrite days_before_month_1. lia.
Qed.

Lemma closure_ordinals_close a b Ya Yb :
  days_before_year Ya <= a <= days_before_year Ya + 3 ->
  days_before_year Yb <= b <= days_before_year Yb + 3 ->
  a - 6 <= b <= a -> a - 3 <= b.
Proof.
  intros Ha Hb Hab.
  destruct (Z.lt_trichotomy Ya Yb) as [Hlt|[->|Hlt]]; [|lia|].
  - pose proof (days_before_year_mono (Ya + 1) Yb ltac:(lia)).
    pose proof (leap_step Ya). destruct (_is_leap_year Ya); lia.
  - pose proof (days_before_year_mono (Yb + 1) Ya ltac:(lia)).
    pose proof (leap_step Yb). destruct (_is_leap_year Yb); lia.
Qed.

Lemma no_holiday_lists_business x hjp hus cfg :
  no_holiday_lists hjp hus cfg ->
  is_business_day x hjp hus cfg = false ->
  5 <= weekday x \/ _is_yearend_closure_day x = true.
Proof.
  intros [Hj Hu].
  unfold is_business_day, is_holiday_any, is_weekend, is_yearend.
  replace (match hjp with
           | Some keys =>
               if enable_holiday_jp cfg then false || _is_holiday x keys
               else false
           | None => false
           end) with false
    by (destruct Hj as [->|Hj]; [reflexivity|];
        rewrite Hj; now destruct hjp).
  replace (match hus with
           | Some keys =>
               if enable_holiday_us cfg then false || _is_holiday x keys
               else false
           | None => false
           end) with false
    by (destruct Hu as [->|Hu]; [reflexivity|];
        rewrite Hu; now destruct hus).
  cbn [negb andb]. rewrite andb_true_r.
  destruct (Z.leb_spec 5 (weekday x)); [auto|].
  destruct (_is_yearend_closure_day x); [auto|].
  now rewrite andb_false_r.
Qed.

(** The seven dates ending at [d] cannot all be weekend or closure days. *)
Lemma week_has_business_day d hjp hus cfg :
  valid_date d = true -> 6 < toordinal d ->
  no_holiday_lists hjp hus cfg ->
  ~ none_business_before hjp hus cfg 7 d.
Proof.
  intros Hv Hord Hno Hnone.
  assert (Hday : forall i : nat, (i < 7)%nat ->
    5 <= (toordinal d - Z.of_nat i + 6) mod 7
    \/ exists Y, days_before_year Y <= toordinal d - Z.of_nat i
                 <= days_before_year Y + 3).
  { intros i Hi.
    destruct (date_sub_days_total i d Hv ltac:(lia)) as [x Hx].
    destruct (date_sub_days_ok _ _ _ Hv Hx) as (Hvx & Hox & _).
    destruct (no_holiday_lists_business x hjp hus cfg Hno (Hnone i x Hi Hx))
      as [Hw|Hc].
    - left. unfold weekday in Hw. now rewrite Hox in Hw.
    - right. rewrite <- Hox. now apply closure_ordinal. }
  set (o := toordinal d) in *.
  pose proof (Hday 0%nat ltac:(lia)) as H0.
  pose proof (Hday 1%nat ltac:(lia)) as H1.
  pose proof (Hday 2%nat ltac:(lia)) as H2.
  pose proof (Hday 4%nat ltac:(lia)) as H4.
  pose proof (Hday 5%nat ltac:(lia)) as H5.
  pose proof (Hday 6%nat ltac:(lia)) as H6.
  cbn [Z.of_nat Pos.of_succ_nat Pos.succ] in *. clearbody o. clear Hday.
  assert (Hpairs :
    ((o - 0 + 6) mod 7 < 5 /\ (o - 4 + 6) mod 7 < 5)
    \/ ((o - 1 + 6) mod 7 < 5 /\ (o - 5 + 6) mod 7 < 5)
    \/ ((o - 2 + 6) mod 7 < 5 /\ (o - 6 + 6) mod 7 < 5)
    \/ ((o - 0 + 6) mod 7 < 5 /\ (o - 5 + 6) mod 7 < 5)
    \/ ((o - 0 + 6) mod 7 < 5 /\ (o - 6 + 6) mod 7 < 5)).
  { clear. Z.div_mod_to_equations. lia. }
  destruct Hpairs as [[Ha Hb]|[[Ha Hb]|[[Ha Hb]|[[Ha Hb]|[Ha Hb]]]]].
  - destruct H0 as [?|[Ya HYa]]; [lia|]. destruct H4 as [?|[Yb HYb]]; [lia|].
    pose proof (closure_ordinals_close _ _ _ _ HYa HYb). lia.
  - destruct H1 as [?|[Ya HYa]]; [lia|]. destruct H5 as [?|[Yb HYb]]; [lia|].
    pose proof (closure_ordinals_close _ _ _ _ HYa HYb). lia.
  - destruct H2 as [?|[Ya HYa]]; [lia|]. destruct H6 as [?|[Yb HYb]]; [lia|].
    pose proof (closure_ordinals_close _ _ _ _ HYa HYb). lia.
  - destruct H0 as [?|[Ya HYa]]; [lia|]. destruct H5 as [?|[Yb HYb]]; [lia|].
    pose proof (closure_ordinals_close _ _ _ _ HYa HYb). lia.
  - destruct H0 as [?|[Ya HYa]]; [lia|]. destruct H6 as [?|[Yb HYb]]; [lia|].
    pose proof (closure_ordinals_close _ _ _ _ HYa HYb). lia.
Qed.

(** X4: when no holiday list is in use, weekends and the year-end
    closure alone never push a date back more than 6 days: from year 2 on,
    [normalize_biz_day] returns a business day between [d - 6] and [d]. *)
Theorem normalize_biz_day_without_holidays
    (d : date) (hjp hus : option (gset Z)) (cfg : Config) :
  valid_date d = true -> 1 < year d ->
  no_holiday_lists hjp hus cfg ->
  exists r,
    normalize_biz_day d hjp hus cfg = Ok r
    /\ is_business_day r hjp hus cfg = true
    /\ toordinal d - 6 <= toordinal r <= toordinal d.
Proof.
  intros Hv Hy Hno.
  pose proof (toordinal_after_year_1 d Hv Hy) as Hord.
  destruct (normalize_loop_total hjp hus cfg 60 d Hv ltac:(lia)) as [r Hr].
  fold (normalize_biz_day d hjp hus cfg) in Hr.
  destruct (normalize_steps_back _ _ _ _ _ Hv Hr)
    as (Hvr & k & Hk & Ho & Hnone & _ & Hfound).
  assert (Hk6 : (k < 7)%nat).
  { destruct (Nat.lt_ge_cases k 7) as [?|Hge]; [assumption|]. exfalso.
    apply (week_has_business_day d hjp hus cfg Hv ltac:(lia) Hno).
    intros j dj Hj. apply Hnone. lia. }
  exists r. split; [exact Hr|]. split; [apply Hfound; lia|lia].
Qed.

Lemma normalize_biz_day_without_holidays_witness :
  normalize_biz_day (Date 2025 1 5) None None default_config
  = Ok (Date 2024 12 30)
  /\ toordinal (Date 2024 12 30) = toordinal (Date 2025 1 5) - 6.
Proof.
  destruct (normalize_biz_day_without_holidays (Date 2025 1 5) None None
              default_config eq_refl) as (r & Hr & _ & _).
  - reflexivity.
  - split; left; reflexivity.
  - split; [|reflexivity]. vm_compute. reflexivity.
Defined.

Lemma base_days_sorted y m cfg :
  StronglySorted Z.lt (build_gotobi_base_days y m cfg).
Proof.
  assert (Hdec := days_in_month_dec m y).
  base_days_cases y m cfg;
    try (rewrite Hdec in * by assumption);
    repeat constructor; lia.
Qed.

Lemma base_date_valid target b :
  valid_date target = true ->
  5 <= b <= _days_in_month (year target) (month target) ->
  valid_date (Date (year target) (month target) b) = true.
Proof.
  intros Hv Hb. apply valid_date_unfold in Hv. apply valid_date_unfold.
  cbn [year month day]. lia.
Qed.

Section FixingLoop.
Variables (target : date) (hjp hus : option (gset Z)) (cfg : Config).

Abbreviation floop bases := (is_fixing_loop bases target hjp hus cfg).
Abbreviation surviving := (surviving_match target hjp hus cfg).
Abbreviation base_date b := (Date (year target) (month target) b).

Lemma is_fixing_loop_cons x rest :
  floop (x :: rest) =
  let? base := mk_date (year target) (month target) x in
  let? normalized := normalize_biz_day base hjp hus cfg in
  if exclude_yearend_bank_closure cfg && _is_yearend_closure_day normalized
  then floop rest
  else if date_eqb normalized target then Ok (true, x)
  else floop rest.
Proof. reflexivity. Qed.

(** One step of the loop, when the candidate's date normalizes. *)
Lemma is_fixing_loop_step x rest r :
  valid_date (base_date x) = true ->
  normalize_biz_day (base_date x) hjp hus cfg = Ok r ->
  (surviving x /\ floop (x :: rest) = Ok (true, x))
  \/ (~ surviving x /\ floop (x :: rest) = floop rest).
Proof.
  intros Hv Hr. rewrite is_fixing_loop_cons. unfold mk_date. rewrite Hv.
  cbn [rbind]. rewrite Hr. cbn [rbind].
  destruct (exclude_yearend_bank_closure cfg && _is_yearend_closure_day r)
    eqn:Hc.
  - right. split; [|reflexivity]. intros [Hn Hc'].
    rewrite Hn in Hr. injection Hr as <-. congruence.
  - destruct (date_eqb r target) eqn:He.
    + left. apply date_eqb_eq in He. subst r. split; [split|]; auto.
    + right. split; [|reflexivity]. intros [Hn _].
      rewrite Hn in Hr. injection Hr as <-.
      assert (date_eqb target target = true) by now apply date_eqb_eq.
      congruence.
Qed.

Lemma is_fixing_loop_first bases : forall found b,
  StronglySorted Z.lt bases ->
  floop bases = Ok (found, b) ->
  (found = true ->
     b ∈ bases /\ surviving b /\ valid_date (base_date b) = true
     /\ forall x, x ∈ bases -> x < b -> ~ surviving x)
  /\ (found = false -> b = 0 /\ forall x, x ∈ bases -> ~ surviving x).
Proof.
  induction bases as [|x rest IH]; intros found b Hs.
  - cbn. intros [= <- <-]. split; [discriminate|].
    intros _. split; [reflexivity|]. intros x Hx. inversion Hx.
  - apply StronglySorted_inv in Hs. destruct Hs as [Hs Hlt].
    rewrite Forall_forall in Hlt.
    intros Hrun. pose proof Hrun as Hrun'.
    rewrite is_fixing_loop_cons in Hrun'. unfold mk_date in Hrun'.
    destruct (valid_date (base_date x)) eqn:Hv; [|discriminate].
    cbn [rbind] in Hrun'.
    destruct (normalize_biz_day (base_date x) hjp hus cfg) as [r|e] eqn:Hr;
      [|discriminate]. clear Hrun'.
    destruct (is_fixing_loop_step x rest r Hv Hr) as [[Hsx Hx]|[Hnx Hx]];
      rewrite Hx in Hrun.
    + injection Hrun as <- <-. split; [|discriminate]. intros _.
      split; [left|]. split; [exact Hsx|]. split; [exact Hv|].
      intros y Hy Hlty. apply elem_of_cons in Hy as [->|Hy]; [lia|].
      specialize (Hlt _ Hy). lia.
    + destruct (IH _ _ Hs Hrun) as [Ht Hf]. split.
      * intros E. destruct (Ht E) as (Hin & Hsb & Hvb & Hmin).
        split; [now right|]. split; [exact Hsb|]. split; [exact Hvb|].
        intros y Hy Hlty. apply elem_of_cons in Hy as [->|Hy]; auto.
      * intros E. destruct (Hf E) as [Hb0 Hall]. split; [exact Hb0|].
        intros y Hy. apply elem_of_cons in Hy as [->|Hy]; auto.
Qed.

Lemma is_fixing_loop_total bases :
  valid_date target = true -> 1 < year target ->
  Forall (fun x => 5 <= x <= _days_in_month (year target) (month target))
    bases ->
  exists found b, floop bases = Ok (found, b).
Proof.
  intros Hv Hy. induction 1 as [|x rest Hx Hrest IH].
  - cbn. eauto.
  - pose proof (base_date_valid target x Hv Hx) as Hvx.
    assert (Hord : 60 < toordinal (base_date x)).
    { pose proof (toordinal_after_year_1 _ Hvx Hy). lia. }
    destruct (normalize_loop_total hjp hus cfg 60 _ Hvx Hord) as [r Hr].
    fold (normalize_biz_day (base_date x) hjp hus cfg) in Hr.
    destruct (is_fixing_loop_step x rest r Hvx Hr) as [[_ Hs]|[_ Hs]];
      rewrite Hs; eauto.
Qed.

End FixingLoop.

(** X5: for a valid target date from year 2 on, [is_fixing_day] returns
    without raising; it returns [(True, b)] exactly when [b] is the
    smallest candidate base day of the target's month whose date normalizes
    to the target and passes the closure re-check, and [(False, 0)] exactly
    when no candidate does. *)
Theorem is_fixing_day_first_match
    (target : date) (hjp hus : option (gset Z)) (cfg : Config) :
  valid_date target = true -> 1 < year target ->
  let candidates :=
    build_gotobi_base_days (year target) (month target) cfg in
  (exists found b, is_fixing_day target hjp hus cfg = Ok (found, b))
  /\ (forall b,
        is_fixing_day target hjp hus cfg = Ok (true, b) <->
        b ∈ candidates /\ surviving_match target hjp hus cfg b
        /\ forall x, x ∈ candidates -> x < b ->
             ~ surviving_match target hjp hus cfg x)
  /\ (is_fixing_day target hjp hus cfg = Ok (false, 0) <->
      forall x, x ∈ candidates -> ~ surviving_match target hjp hus cfg x).
Proof.
  intros Hv Hy candidates. subst candidates. unfold is_fixing_day.
  pose proof (base_days_sorted (year target) (month target) cfg) as Hs.
  pose proof (is_fixing_loop_total target hjp hus cfg _ Hv Hy
                (base_days_bounds (year target) (month target) cfg))
    as (found & b0 & Hrun).
  destruct (is_fixing_loop_first target hjp hus cfg _ _ _ Hs Hrun)
    as [Ht Hf].
  split; [eauto|]. split.
  - intros b. split.
    + intros Hb. rewrite Hb in Hrun. injection Hrun as <- <-.
      destruct (Ht eq_refl) as (Hin & Hsb & _ & Hmin). auto.
    + intros (Hin & Hsb & Hmin). destruct found.
      * destruct (Ht eq_refl) as (Hin0 & Hsb0 & _ & Hmin0).
        destruct (Z.lt_trichotomy b b0) as [Hlt|[->|Hlt]].
        -- now destruct (Hmin0 b Hin Hlt).
        -- exact Hrun.
        -- now destruct (Hmin b0 Hin0 Hlt).
      * destruct (Hf eq_refl) as [_ Hall]. now destruct (Hall b Hin).
  - split.
    + intros Hb. rewrite Hb in Hrun. injection Hrun as <- <-.
      now destruct (Hf eq_refl).
    + intros Hall. destruct found.
      * destruct (Ht eq_refl) as (Hin0 & Hsb0 & _). now destruct (Hall b0 Hin0).
      * destruct (Hf eq_refl) as [-> _]. exact Hrun.
Qed.

Lemma is_fixing_day_first_match_witness :
  surviving_match (Date 2026 1 30) None None default_config 30
  /\ surviving_match (Date 2026 1 30) None None default_config 31
  /\ is_fixing_day (Date 2026 1 30) None None default_config = Ok (true, 30).
Proof.
  assert (H30 : surviving_match (Date 2026 1 30) None None default_config 30)
    by (split; vm_compute; reflexivity).
  assert (H31 : surviving_match (Date 2026 1 30) None None default_config 31)
    by (split; vm_compute; reflexivity).
  split; [exact H30|]. split; [exact H31|].
  destruct (is_fixing_day_first_match (Date 2026 1 30) None None
              default_config eq_refl eq_refl) as (_ & Hfirst & _).
  apply Hfirst. split; [|split; [exact H30|]].
  - vm_compute build_gotobi_base_days.
    rewrite !elem_of_cons. tauto.
  - intros x Hx Hlt [Hn _]. revert Hx Hlt Hn.
    vm_compute build_gotobi_base_days. rewrite !elem_of_cons, elem_of_nil.
    intros [->|[->|[->|[->|[->|[->|[->|[]]]]]]]] Hlt; try lia;
      vm_compute; discriminate.
Defined.

(** X6: when [is_fixing_day] answers [(True, b)], the target is a valid
    date of the same month no later than day [b], exactly [b - day] days
    before the base date, and is not a year-end closure day when the
    exclusion is on. *)
Theorem is_fixing_day_target_shape
    (target : date) (hjp hus : option (gset Z)) (cfg : Config) (b : Z) :
  is_fixing_day target hjp hus cfg = Ok (true, b) ->
  valid_date target = true
  /\ day target <= b <= _days_in_month (year target) (month target)
  /\ toordinal target
     = toordinal (Date (year target) (month target) b) - (b - day target)
  /\ (exclude_yearend_bank_closure cfg = true ->
      _is_yearend_closure_day target = false).
Proof.
  unfold is_fixing_day. intros Hrun.
  pose proof (base_days_sorted (year target) (month target) cfg) as Hs.
  destruct (is_fixing_loop_first target hjp hus cfg _ _ _ Hs Hrun)
    as [Ht _].
  destruct (Ht eq_refl) as (Hin & [Hn Hc] & Hvb & _).
  pose proof (base_days_bounds (year target) (month target) cfg) as Hall.
  rewrite Forall_forall in Hall. specialize (Hall _ Hin).
  pose proof (normalize_key_le _ _ _ _ _ Hvb Hn) as Hk.
  unfold _date_key in Hk. cbn [year month day] in Hk.
  destruct (normalize_steps_back _ _ _ _ _ Hvb Hn) as (Hvt & _).
  split; [exact Hvt|]. split; [lia|]. split.
  - unfold toordinal. cbn [year month day]. lia.
  - intros Hex. rewrite Hex in Hc. exact Hc.
Qed.

Lemma is_fixing_day_target_shape_witness :
  is_fixing_day (Date 2026 1 30) None None default_config = Ok (true, 30)
  /\ day (Date 2026 1 30) <= 30.
Proof.
  assert (H : is_fixing_day (Date 2026 1 30) None None default_config
              = Ok (true, 30)) by (vm_compute; reflexivity).
  split; [exact H|].
  exact (proj1 (proj1 (proj2 (is_fixing_day_target_shape _ _ _ _ _ H)))).
Defined.

Lemma date_eta d : Date (year d) (month d) (day d) = d.
Proof. now destruct d. Qed.

Lemma business_not_closure_excluded d hjp hus cfg :
  is_business_day d hjp hus cfg = true ->
  exclude_yearend_bank_closure cfg && _is_yearend_closure_day d = false.
Proof.
  unfold is_business_day, is_yearend. rewrite !andb_true_iff, !negb_true_iff.
  tauto.
Qed.

(** X7: a business day whose day of month is one of the candidate base
    days is a fixing day, with its own day as the base day. *)
Theorem business_base_day_is_fixing_day
    (target : date) (hjp hus : option (gset Z)) (cfg : Config) :
  valid_date target = true -> 1 < year target ->
  day target ∈ build_gotobi_base_days (year target) (month target) cfg ->
  is_business_day target hjp hus cfg = true ->
  is_fixing_day target hjp hus cfg = Ok (true, day target).
Proof.
  intros Hv Hy Hin Hb. unfold is_fixing_day.
  pose proof (base_days_sorted (year target) (month target) cfg) as Hs.
  pose proof (is_fixing_loop_total target hjp hus cfg _ Hv Hy
                (base_days_bounds (year target) (month target) cfg))
    as (found & b0 & Hrun).
  destruct (is_fixing_loop_first target hjp hus cfg _ _ _ Hs Hrun)
    as [Ht Hf].
  assert (Hself : surviving_match target hjp hus cfg (day target)).
  { split; [|now apply (business_not_closure_excluded _ hjp hus)].
    rewrite date_eta. unfold normalize_biz_day.
    now apply normalize_loop_business. }
  destruct found.
  - destruct (Ht eq_refl) as (Hin0 & [Hn0 _] & Hv0 & Hmin).
    pose proof (normalize_key_le _ _ _ _ _ Hv0 Hn0) as Hk.
    unfold _date_key in Hk. cbn [year month day] in Hk.
    destruct (Z.lt_trichotomy (day target) b0) as [Hlt|[<-|Hlt]];
      [now destruct (Hmin _ Hin Hlt)|exact Hrun|lia].
  - destruct (Hf eq_refl) as [_ Hall]. now destruct (Hall _ Hin).
Qed.

Lemma business_base_day_is_fixing_day_witness :
  is_fixing_day (Date 2026 2 20) None None default_config = Ok (true, 20).
Proof.
  apply (business_base_day_is_fixing_day (Date 2026 2 20) None None
           default_config); try reflexivity.
  vm_compute build_gotobi_base_days. cbn [day].
  rewrite !elem_of_cons. tauto.
Defined.

Lemma toordinal_inj a b :
  valid_date a = true -> valid_date b = true ->
  toordinal a = toordinal b -> a = b.
Proof.
  intros Ha Hb Ho. pose proof (toordinal_compare a b Ha Hb) as Hc.
  rewrite Ho, Z.compare_refl in Hc. cbn [tuple_cmp] in Hc.
  destruct (Z.compare_spec (year a) (year b)); try discriminate.
  destruct (Z.compare_spec (month a) (month b)); try discriminate.
  destruct (Z.compare_spec (day a) (day b)); try discriminate.
  destruct a, b; cbn in *; congruence.
Qed.

(** X8: on 9999-12-31 [choose_fixing_date] raises [OverflowError], since
    tomorrow is computed first; on every other valid date from year 2 on it
    returns, and when it returns no date the base day is 0. *)
Theorem choose_fixing_date_returns
    (now_jst : datetime) (hjp hus : option (gset Z)) (cfg : Config) :
  let today := dt_date now_jst in
  (today = Date 9999 12 31 ->
   choose_fixing_date now_jst hjp hus cfg = Raise OverflowError)
  /\ (valid_date today = true -> 1 < year today ->
      today <> Date 9999 12 31 ->
      exists choice b,
        choose_fixing_date now_jst hjp hus cfg = Ok (choice, b)
        /\ (choice = None -> b = 0)).
Proof.
  intros today. split.
  - intros E. unfold choose_fixing_date. fold today. now rewrite E.
  - intros Hv Hy Hne.
    destruct (date_add1_total today Hv Hne) as [tomorrow Htom].
    destruct (date_add1_ok _ _ Hv Htom) as (Hvt & Hot).
    assert (Hyt : 1 < year tomorrow).
    { revert Htom. unfold date_add1. repeat case_match; intros [= <-];
        cbn [year]; lia. }
    unfold choose_fixing_date. fold today. rewrite Htom. cbn [rbind].
    unfold is_fixing_day.
    destruct (is_fixing_loop_total today hjp hus cfg _ Hv Hy
                (base_days_bounds (year today) (month today) cfg))
      as (f1 & b1 & ->).
    cbn [rbind]. destruct f1; [eexists; eexists; split; [reflexivity|]|].
    { discriminate. }
    destruct (is_fixing_loop_total tomorrow hjp hus cfg _ Hvt Hyt
                (base_days_bounds (year tomorrow) (month tomorrow) cfg))
      as (f2 & b2 & ->).
    cbn [rbind]. destruct f2; eexists; eexists; (split; [reflexivity|]);
      [discriminate|reflexivity].
Qed.

Lemma choose_fixing_date_returns_witness :
  exists choice b,
    choose_fixing_date (DateTime (Date 2026 1 6) 8 0 0 0) None None
      default_config = Ok (choice, b)
    /\ (choice = None -> b = 0).
Proof.
  apply (choose_fixing_date_returns (DateTime (Date 2026 1 6) 8 0 0 0)
           None None default_config).
  - reflexivity.
  - reflexivity.
  - discriminate.
Defined.

(** X9: whatever the configured window times, an instant inside the
    notification window of fixing date [F] is an instant of [F] or of the
    day before [F]. *)
Theorem in_notify_window_days
    (now_jst : datetime) (fixing_date : date) (cfg : Config) :
  valid_datetime now_jst = true ->
  valid_date fixing_date = true ->
  in_notify_window now_jst fixing_date cfg = Ok true ->
  dt_date now_jst = fixing_date
  \/ date_sub1 fixing_date = Ok (dt_date now_jst).
Proof.
  intros Hnow HF. unfold in_notify_window.
  destruct (date_sub1 fixing_date) as [prev|e] eqn:Hprev; [|discriminate].
  cbn [rbind].
  destruct (window_prev_day_start_hhmm cfg) as [sh sm].
  destruct (window_fixing_end_hhmm cfg) as [eh em].
  unfold mk_datetime.
  destruct (valid_time sh sm 0 0) eqn:Hvs; [|discriminate].
  destruct (valid_time eh em 0 0) eqn:Hve; [|discriminate].
  cbn [rbind]. intros [= Hin].
  destruct (date_sub1_ok _ _ HF Hprev) as (Hvp & Hord & _).
  apply andb_true_iff in Hin as [Hle Hlt].
  rewrite dt_le_instant in Hle
    by (auto; unfold valid_datetime; cbn; now rewrite Hvp, Hvs).
  rewrite dt_lt_instant in Hlt
    by (auto; unfold valid_datetime; cbn; now rewrite HF, Hve).
  apply Z.leb_le in Hle. apply Z.ltb_lt in Hlt.
  pose proof Hnow as Hnow'. unfold valid_datetime in Hnow'.
  apply andb_true_iff in Hnow' as [Hvd Hvt].
  apply valid_time_unfold in Hvs, Hve, Hvt.
  unfold instant in Hle, Hlt.
  cbn [dt_date hour minute second microsecond] in Hle, Hlt.
  assert (toordinal (dt_date now_jst) = toordinal fixing_date
          \/ toordinal (dt_date now_jst) = toordinal prev) as [Ho|Ho] by lia.
  - left. now apply toordinal_inj.
  - right. f_equal. symmetry. now apply toordinal_inj.
Qed.

Lemma in_notify_window_days_witness :
  date_sub1 (Date 2026 1 5) = Ok (Date 2026 1 4).
Proof.
  destruct (in_notify_window_days (DateTime (Date 2026 1 4) 12 0 0 0)
              (Date 2026 1 5) default_config eq_refl eq_refl)
    as [H|H].
  - vm_compute. reflexivity.
  - discriminate H.
  - exact H.
Defined.

(** X10: for an instant on the fixing date or the day before,
    [build_message] carries the fixing date and base day unchanged, minutes
    between 0 and 59 and hours between 0 and 33; at or after 09:55 of the
    fixing date both are 0, and before it they are the whole minutes left,
    rounded down. *)
Theorem build_message_remaining
    (now_jst : datetime) (fixing_date : date) (base_day : Z) :
  valid_datetime now_jst = true ->
  valid_date fixing_date = true ->
  dt_date now_jst = fixing_date
  \/ date_sub1 fixing_date = Ok (dt_date now_jst) ->
  let msg := build_message now_jst fixing_date base_day in
  let left := instant (DateTime fixing_date 9 55 0 0) - instant now_jst in
  msg_fixing_date msg = fixing_date
  /\ msg_base_day msg = base_day
  /\ 0 <= msg_rem_mins msg <= 59
  /\ 0 <= msg_rem_hours msg <= 33
  /\ (left <= 0 -> msg_rem_hours msg = 0 /\ msg_rem_mins msg = 0)
  /\ (0 < left ->
      (msg_rem_hours msg * 60 + msg_rem_mins msg) * 60000000 <= left
      < (msg_rem_hours msg * 60 + msg_rem_mins msg + 1) * 60000000).
Proof.
  intros Hnow HF Hday msg left.
  assert (Hord : toordinal fixing_date - 1 <= toordinal (dt_date now_jst)
                 <= toordinal fixing_date).
  { destruct Hday as [->|Hp]; [lia|].
    destruct (date_sub1_ok _ _ HF Hp) as (_ & -> & _). lia. }
  unfold valid_datetime in Hnow. apply andb_true_iff in Hnow as [_ Ht].
  apply valid_time_unfold in Ht.
  assert (Hleft : -86400000000 < left <= 122100000000).
  { subst left. unfold instant.
    cbn [dt_date hour minute second microsecond]. lia. }
  subst msg. unfold build_message. fold left.
  cbn [msg_fixing_date msg_base_day msg_rem_hours msg_rem_mins].
  clearbody left. clear Hord Ht Hday.
  split; [reflexivity|]. split; [reflexivity|].
  repeat split; intros; Z.div_mod_to_equations; lia.
Qed.

Lemma build_message_remaining_witness :
  build_message (DateTime (Date 2026 1 4) 12 0 30 0) (Date 2026 1 5) 5
  = Message (Date 2026 1 5) 5 21 54
  /\ 0 <= 54 <= 59.
Proof.
  split; [vm_compute; reflexivity|].
  exact (proj1 (proj2 (proj2
    (build_message_remaining (DateTime (Date 2026 1 4) 12 0 30 0)
       (Date 2026 1 5) 5 eq_refl eq_refl (or_intror eq_refl))))).
Defined.

(** ** Effects of [run_once] and [main] *)

Ltac count_steps :=
  unfold count_events in *;
  cbn [w_csv w_state_files w_time w_now_calls w_ntfy w_local w_events]
    in *;
  rewrite ?List.filter_app, ?length_app in *;
  cbn [List.filter is_dispatch is_ntfy_call is_local_call is_sleep orb
       length] in *;
  rewrite ?Nat.add_0_r in *.

Ltac run_steps :=
  unfold dedup_and_dispatch, bind, load_state, lift, ntfy_publish,
    local_notify, save_state, print, emit, ret, stored_key in *;
  cbn beta iota zeta in *;
  count_steps.

Section RunEffects.
Variable py_int_of_str : string -> result Z.

Lemma run_once_cases cfg w :
  (exists e, run_once py_int_of_str cfg w = (Raise e, after_clock cfg w))
  \/ (exists l, run_once py_int_of_str cfg w
                = (Ok 0, snd (print l (after_clock cfg w))))
  \/ (exists F b,
        resolved cfg w F b
        /\ run_once py_int_of_str cfg w
           = dedup_and_dispatch py_int_of_str cfg (now_of cfg w) F b
               (after_clock cfg w)).
Proof.
  destruct (holiday_keys_of (enable_holiday_jp cfg) (holiday_csv_jp cfg) w)
    as [hjp|e] eqn:Hj.
  2: { left. exists e.
       now apply (run_once_input_error py_int_of_str); left. }
  destruct (holiday_keys_of (enable_holiday_us cfg) (holiday_csv_us cfg) w)
    as [hus|e] eqn:Hu.
  2: { left. exists e.
       apply (run_once_input_error py_int_of_str). right. eauto. }
  destruct (choose_fixing_date (now_of cfg w) hjp hus cfg)
    as [choice|e] eqn:Hc.
  2: { left. exists e. unfold run_once.
       rewrite (bind_ok _ _ _ _ _ (clock_step cfg w)).
       erewrite bind_ok
         by (rewrite (load_keys_step _ _ w) by apply after_clock_csv;
             rewrite Hj; reflexivity).
       erewrite bind_ok
         by (rewrite (load_keys_step _ _ w) by apply after_clock_csv;
             rewrite Hu; reflexivity).
       erewrite bind_raise; [reflexivity|].
       unfold lift. now rewrite Hc. }
  assert (Hch : chooses cfg w choice) by (exists hjp, hus; auto).
  rewrite (run_once_chosen py_int_of_str cfg w choice Hch).
  destruct choice as [[F|] b]; [|right; left; eauto].
  destruct (enforce_window cfg) eqn:Hen.
  2: { right; right. exists F, b. split; [|reflexivity].
       split; [exact Hch|]. rewrite Hen. discriminate. }
  unfold bind at 1. unfold bind at 1. unfold lift at 1.
  destruct (in_notify_window (now_of cfg w) F cfg) as [[|]|e] eqn:Hwin;
    [|right; left; eauto|left; eauto].
  right; right. exists F, b. split; [|reflexivity].
  split; [exact Hch|]. intros _. exact Hwin.
Qed.

(** The state file after the part of a run that follows the window check:
    as before, or holding the payload of this run's fixing date. *)
Lemma dedup_and_dispatch_state cfg now F b w :
  let w1 := snd (dedup_and_dispatch py_int_of_str cfg now F b w) in
  w_state_files w1 = w_state_files w
  \/ w_state_files w1
     = <[state_file cfg :=
           JsonDict (dict_update (read_state (state_file cfg) w)
                       (state_payload cfg (_date_key F) now))]>
         (w_state_files w).
Proof.
  run_steps.
  destruct (int_or_0 _ _) as [last|e]; cbn [snd]; [|now left].
  destruct (last =? _date_key F); cbn [snd]; [now left|].
  destruct (String.eqb (notify_mode cfg) "local").
  - destruct (w_local _ _), (enable_state_update cfg); cbn [snd];
      cbn [w_state_files]; auto.
  - destruct (enable_ntfy cfg).
    + destruct (w_ntfy _ _) as [e|]; [|destruct (enable_state_update cfg)];
        cbn [snd]; cbn [w_state_files]; auto.
    + destruct (enable_state_update cfg); cbn [snd]; cbn [w_state_files];
        auto.
Qed.

(** The state file after a run: as before, or holding the payload of the
    fixing date the run resolved. *)
Lemma run_once_state cfg w :
  let w1 := snd (run_once py_int_of_str cfg w) in
  w_state_files w1 = w_state_files w
  \/ exists F b,
       resolved cfg w F b
       /\ w_state_files w1
          = <[state_file cfg :=
                JsonDict (dict_update (read_state (state_file cfg) w)
                            (state_payload cfg (_date_key F) (now_of cfg w)))]>
              (w_state_files w).
Proof.
  destruct (run_once_cases cfg w) as [[e ->]|[[l ->]|(F & b & Hres & ->)]];
    cbn zeta.
  - left. apply after_clock_state.
  - left. unfold print, emit. cbn [snd w_state_files].
    apply after_clock_state.
  - destruct (dedup_and_dispatch_state cfg (now_of cfg w) F b
                (after_clock cfg w)) as [Hs|Hs]; cbn zeta in Hs.
    + left. rewrite Hs. apply after_clock_state.
    + right. exists F, b. split; [exact Hres|]. rewrite Hs.
      unfold read_state. now rewrite after_clock_state.
Qed.

Lemma dedup_and_dispatch_effect cfg now F b w :
  run_effect cfg w
    (fst (dedup_and_dispatch py_int_of_str cfg now F b w))
    (snd (dedup_and_dispatch py_int_of_str cfg now F b w)).
Proof.
  unfold run_effect. run_steps.
  destruct (int_or_0 _ _) as [last|e]; cbn [fst snd].
  2: { count_steps. repeat split; try tauto; try lia; discriminate. }
  destruct (last =? _date_key F); cbn [fst snd].
  { count_steps. repeat split; try tauto; try lia. now intros rc [= <-]. }
  destruct (String.eqb_spec (notify_mode cfg) "local") as [Hm|Hm].
  - destruct (w_local _ _), (enable_state_update cfg); cbn [fst snd];
      count_steps;
      (split; [now intros rc [= <-]|]); (split; [lia|]); (split; [lia|]);
      (split; [contradiction|]);
      first [left; reflexivity | right; eauto].
  - destruct (enable_ntfy cfg).
    + destruct (w_ntfy _ _) as [e|]; [|destruct (enable_state_update cfg)];
        cbn [fst snd]; count_steps;
        (split; [try discriminate; now intros rc [= <-]|]);
        (split; [lia|]); (split; [lia|]); (split; [discriminate|]);
        first [left; reflexivity | right; eauto].
    + destruct (enable_state_update cfg); cbn [fst snd]; count_steps;
        (split; [now intros rc [= <-]|]); (split; [lia|]); (split; [lia|]);
        (split; [lia|]);
        first [left; reflexivity | right; eauto].
Qed.

Lemma run_effect_after_clock cfg w r w1 :
  run_effect cfg (after_clock cfg w) r w1 -> run_effect cfg w r w1.
Proof.
  unfold run_effect, count_events, read_state.
  now rewrite after_clock_events, after_clock_state.
Qed.

Lemma run_once_effect cfg w :
  run_effect cfg w (fst (run_once py_int_of_str cfg w))
    (snd (run_once py_int_of_str cfg w)).
Proof.
  apply run_effect_after_clock.
  destruct (run_once_cases cfg w) as [[e ->]|[[l ->]|(F & b & _ & ->)]];
    [| |apply dedup_and_dispatch_effect];
    unfold run_effect, print, emit; cbn [fst snd]; count_steps;
    repeat split; try tauto; try lia; try discriminate.
  now intros rc [= <-].
Qed.

End RunEffects.

Lemma dict_update_other state payload k :
  k ∉ map fst payload -> dict_update state payload !! k = state !! k.
Proof.
  unfold dict_update. revert state.
  induction payload as [|[k0 v0] payload IH]; intros state Hk;
    [reflexivity|].
  cbn [fold_left fst snd]. cbn [map fst] in Hk.
  apply not_elem_of_cons in Hk as [Hne Hk].
  rewrite IH by exact Hk. now apply lookup_insert_ne.
Qed.

Lemma payload_keys_any cfg key now :
  map fst (state_payload cfg key now) = payload_keys cfg.
Proof.
  unfold payload_keys, state_payload.
  now destruct (String.eqb (notify_mode cfg) "ntfy").
Qed.

Section RunTheorems.
Variable py_int_of_str : string -> result Z.

Abbreviation run_once' := (run_once py_int_of_str).
Abbreviation main' := (main py_int_of_str).

(** X12: with state update switched off a run never changes a state
    file; outside local mode with the ntfy call switched off a run makes
    no dispatch call. *)
Theorem run_once_switches (cfg : Config) (w : world) :
  (enable_state_update cfg = false ->
   w_state_files (snd (run_once' cfg w)) = w_state_files w)
  /\ (notify_mode cfg <> "local" -> enable_ntfy cfg = false ->
      count_events is_dispatch (snd (run_once' cfg w))
      = count_events is_dispatch w).
Proof.
  destruct (run_once_effect py_int_of_str cfg w)
    as (_ & _ & _ & Hntfy & Hstate).
  split; [|exact Hntfy].
  intros Hoff. destruct Hstate as [?|(_ & Hon & _)]; [assumption|congruence].
Qed.

Lemma run_once_outcome (cfg : Config) (w w1 : world) (r : result Z) :
  run_once' cfg w = (r, w1) ->
  (forall rc, r = Ok rc -> rc = 0)
  /\ (forall e, r = Raise e -> w_state_files w1 = w_state_files w)
  /\ (count_events is_dispatch w <= count_events is_dispatch w1
      <= S (count_events is_dispatch w))%nat
  /\ count_events is_sleep w1 = count_events is_sleep w.
Proof.
  intros Hrun. pose proof (run_once_effect py_int_of_str cfg w) as Heff.
  rewrite Hrun in Heff. cbn [fst snd] in Heff.
  destruct Heff as (Hrc & Hd & Hs & _ & Hstate).
  split; [exact Hrc|]. split; [|split; [exact Hd|exact Hs]].
  intros e ->. destruct Hstate as [?|(? & _)]; [assumption|discriminate].
Qed.

(** X11: the only value [run_once] returns is 0; a run that raises has
    not changed the state file; a run makes at most one dispatch call and
    never sleeps. *)
Theorem run_once_bounds (cfg : Config) (w : world) :
  let r := fst (run_once' cfg w) in
  let w1 := snd (run_once' cfg w) in
  (forall rc, r = Ok rc -> rc = 0)
  /\ (forall e, r = Raise e -> w_state_files w1 = w_state_files w)
  /\ (count_events is_dispatch w <= count_events is_dispatch w1
      <= S (count_events is_dispatch w))%nat
  /\ count_events is_sleep w1 = count_events is_sleep w.
Proof.
  intros r w1. apply (run_once_outcome cfg w w1 r).
  subst r w1. now destruct (run_once' cfg w).
Qed.

Lemma payload_entries cfg state k now :
  let doc := dict_update state (state_payload cfg k now) in
  doc !! "last_notified_at_jst" = Some (JStr (isoformat now))
  /\ doc !! "notify_mode" = Some (JStr (notify_mode cfg))
  /\ (notify_mode cfg = "ntfy" ->
      doc !! "ntfy_server" = Some (JStr (ntfy_server cfg))
      /\ doc !! "ntfy_topic" = Some (JStr (ntfy_topic_raw cfg))).
Proof.
  cbn zeta. unfold dict_update, state_payload.
  destruct (String.eqb_spec (notify_mode cfg) "ntfy") as [Hm|Hm];
    cbn [app fold_left fst snd];
    repeat split; try contradiction; intros;
    repeat (rewrite lookup_insert_ne by discriminate);
    apply lookup_insert_eq.
Qed.

(** X13: a run keeps every entry of the state document other than the
    payload's own keys (three, or five in ntfy mode).  When it changes the
    state file, the run has resolved a fixing date [F] in the window, and
    the document then holds the key of [F] as an integer, the instant of
    the run in ISO format, the notify mode and, in ntfy mode, the server
    and the topic; the key read back by the next run is the key of [F]. *)
Theorem run_once_state_frame (cfg : Config) (w : world) :
  let w1 := snd (run_once' cfg w) in
  let doc := read_state (state_file cfg) w1 in
  (forall k, k ∉ payload_keys cfg ->
     doc !! k = read_state (state_file cfg) w !! k)
  /\ (w_state_files w1 <> w_state_files w ->
      exists F b,
        resolved cfg w F b
        /\ doc !! "last_notified_fixing_yyyymmdd" = Some (JInt (_date_key F))
        /\ doc !! "last_notified_at_jst"
           = Some (JStr (isoformat (now_of cfg w)))
        /\ doc !! "notify_mode" = Some (JStr (notify_mode cfg))
        /\ (notify_mode cfg = "ntfy" ->
            doc !! "ntfy_server" = Some (JStr (ntfy_server cfg))
            /\ doc !! "ntfy_topic" = Some (JStr (ntfy_topic_raw cfg)))
        /\ stored_key py_int_of_str cfg w1 = Ok (_date_key F)).
Proof.
  intros w1 doc. subst doc w1.
  destruct (run_once_state py_int_of_str cfg w)
    as [Hsame|(F & b & Hres & Hnew)]; cbn zeta in *.
  - unfold read_state. rewrite Hsame.
    split; [reflexivity|]. intros H. now destruct H.
  - split.
    + intros k Hk. rewrite (read_state_saved _ _ _ _ Hnew).
      apply dict_update_other. now rewrite payload_keys_any.
    + intros _. exists F, b. split; [exact Hres|].
      unfold stored_key. rewrite (read_state_saved _ _ _ _ Hnew).
      destruct (payload_entries cfg (read_state (state_file cfg) w)
                  (_date_key F) (now_of cfg w)) as (Hat & Hmode & Hntfy).
      rewrite payload_key.
      split; [reflexivity|]. split; [exact Hat|]. split; [exact Hmode|].
      split; [exact Hntfy|]. apply int_or_0_int.
Qed.

(** X14: [main] returns 0, 1 or 2; when it returns 1 or 2 the state file
    is as before; it makes at most two dispatch calls and sleeps at most
    once, and exactly once when it returns 1. *)
Theorem main_bounds (cfg : Config) (w : world) :
  let rc := fst (main' cfg w) in
  let w' := snd (main' cfg w) in
  (rc = 0 \/ rc = 1 \/ rc = 2)
  /\ (rc <> 0 -> w_state_files w' = w_state_files w)
  /\ (count_events is_dispatch w' <= 2 + count_events is_dispatch w)%nat
  /\ (count_events is_sleep w' <= 1 + count_events is_sleep w)%nat
  /\ (rc = 1 -> count_events is_sleep w' = S (count_events is_sleep w)).
Proof.
  intros rc w'. subst rc w'. unfold main. cbn [main_loop].
  destruct (run_once' cfg w) as [[rc1|e1] w1] eqn:Hrun1;
    destruct (run_once_outcome cfg w w1 _ Hrun1) as (Hrc1 & Hst1 & Hd1 & Hs1).
  { cbn [fst snd]. rewrite (Hrc1 rc1 eq_refl).
    split; [auto|]. split; [intros H; now destruct H|].
    split; [lia|]. split; [lia|]. discriminate. }
  specialize (Hst1 e1 eq_refl).
  destruct (print_keeps (error_line e1) w1) as (Hp1 & Hp2 & _ & Hp3).
  destruct (is_input_error e1).
  { cbn [fst snd]. rewrite Hp1, Hp2, Hp3.
    split; [auto|]. split; [auto|]. split; [lia|]. split; [lia|].
    discriminate. }
  cbn [Z.eqb Pos.eqb].
  fold (before_retry e1 w1).
  assert (Hb : w_state_files (before_retry e1 w1) = w_state_files w
          /\ count_events is_dispatch (before_retry e1 w1)
             = count_events is_dispatch w1
          /\ count_events is_sleep (before_retry e1 w1)
             = S (count_events is_sleep w)).
  { unfold before_retry, sleep, print, emit. cbn [snd].
    unfold count_events in *.
    cbn [w_state_files w_events]. rewrite !List.filter_app, !length_app.
    cbn. rewrite Hst1, Hs1. repeat split; lia. }
  destruct Hb as (Hb1 & Hb2 & Hb3).
  destruct (run_once' cfg (before_retry e1 w1)) as [[rc2|e2] w2] eqn:Hrun2;
    destruct (run_once_outcome cfg _ w2 _ Hrun2) as (Hrc2 & Hst2 & Hd2 & Hs2).
  { cbn [fst snd]. rewrite (Hrc2 rc2 eq_refl).
    split; [auto|]. split; [intros H; now destruct H|].
    split; [lia|]. split; [lia|]. discriminate. }
  specialize (Hst2 e2 eq_refl).
  destruct (print_keeps (error_line e2) w2) as (Hq1 & Hq2 & _ & Hq3).
  destruct (is_input_error e2); cbn [fst snd Z.eqb Pos.eqb];
    rewrite Hq1, Hq2, Hq3;
    (split; [auto|]); (split; [congruence|]);
    (split; [lia|]); (split; [lia|]); intros; try discriminate; lia.
Qed.

End RunTheorems.

Section RunEdges.
Variable py_int_of_str : string -> result Z.

Abbreviation run_once' := (run_once py_int_of_str).
Abbreviation main' := (main py_int_of_str).

(** X15: when a fixing day is resolved and the stored last-notified
    entry is truthy but [int] raises on it, [run_once] raises that error
    before any print or dispatch; for a [ValueError] (a string that is not
    a number) [main] then returns 2 with no dispatch call and the state
    file unchanged. *)
Theorem unreadable_stored_key_stops_run
    (cfg : Config) (w : world) (F : date) (b : Z) (v : json) (e : exn) :
  resolved cfg w F b ->
  read_state (state_file cfg) w !! "last_notified_fixing_yyyymmdd" = Some v ->
  py_truthy v = true ->
  py_int py_int_of_str v = Raise e ->
  run_once' cfg w = (Raise e, after_clock cfg w)
  /\ (is_input_error e = true ->
      main' cfg w = (2, snd (print (ErrInput e) (after_clock cfg w)))
      /\ count_events is_dispatch (snd (main' cfg w))
         = count_events is_dispatch w
      /\ w_state_files (snd (main' cfg w)) = w_state_files w).
Proof.
  intros Hres Hv Ht He.
  assert (Hrun : run_once' cfg w = (Raise e, after_clock cfg w)).
  { rewrite (run_once_resolved _ _ _ _ _ Hres).
    unfold dedup_and_dispatch, bind, load_state, lift.
    unfold read_state in *. rewrite after_clock_state, Hv.
    cbn [int_or_0]. rewrite Ht, He. reflexivity. }
  split; [exact Hrun|]. intros Hin.
  rewrite (main_first_input_error _ _ _ _ _ Hrun Hin). cbn [snd].
  split; [reflexivity|].
  destruct (print_keeps (ErrInput e) (after_clock cfg w)) as (-> & -> & _).
  destruct (after_clock_keeps cfg w) as (-> & -> & _). auto.
Qed.


End RunEdges.

Lemma unreadable_stored_key_stops_run_witness :
  fst (main example_int_of_str default_config world_bad_state) = 2.
Proof.
  destruct (unreadable_stored_key_stops_run example_int_of_str
              default_config world_bad_state (Date 2026 1 5) 5
              (JStr "abc") ValueError) as [_ Hmain].
  - split; [|intros _; vm_compute; reflexivity].
    eexists; eexists. repeat split; vm_compute; reflexivity.
  - vm_compute. reflexivity.
  - reflexivity.
  - reflexivity.
  - destruct (Hmain eq_refl) as (-> & _). reflexivity.
Defined.


Section EmptyState.
Variable py_int_of_str : string -> result Z.

(** X17: a missing state file, one that does not hold an object, and
    one whose last-notified entry is absent or falsy all read as key 0,
    which is the key of no valid date: every resolved fixing day is then
    taken as not yet notified. *)
Theorem empty_state_is_fresh (cfg : Config) (w : world) :
  (w_state_files w !! state_file cfg = None
   \/ w_state_files w !! state_file cfg = Some NotADict
   \/ exists obj,
        w_state_files w !! state_file cfg = Some (JsonDict obj)
        /\ (obj !! "last_notified_fixing_yyyymmdd" = None
            \/ exists v,
                 obj !! "last_notified_fixing_yyyymmdd" = Some v
                 /\ py_truthy v = false)) ->
  stored_key py_int_of_str cfg w = Ok 0
  /\ forall F b,
       valid_date F = true -> resolved cfg w F b ->
       fresh_fixing py_int_of_str cfg w.
Proof.
  intros Hstate.
  assert (Hkey : stored_key py_int_of_str cfg w = Ok 0).
  { unfold stored_key, read_state.
    destruct Hstate as [->|[->|(obj & -> & [->|(v & -> & Hv)])]];
      try reflexivity.
    cbn [int_or_0]. now rewrite Hv. }
  split; [exact Hkey|]. intros F b Hv Hres. exists F, b, 0.
  split; [exact Hres|]. split; [exact Hkey|].
  apply valid_date_unfold in Hv. unfold _date_key. lia.
Qed.

End EmptyState.

Lemma empty_state_is_fresh_witness :
  stored_key example_int_of_str default_config example_world = Ok 0.
Proof.
  apply (empty_state_is_fresh example_int_of_str default_config
           example_world).
  left. reflexivity.
Defined.

(** ** Strings *)

Lemma replace_app old new a b :
  Str.replace old new (a ++ b) = Str.replace old new a ++ Str.replace old new b.
Proof. unfold Str.replace. apply flat_map_app. Qed.

Lemma replace_cons old new c s :
  Str.replace old new (c :: s)
  = (if c =? old then new else [c]) ++ Str.replace old new s.
Proof. reflexivity. Qed.

Lemma replace_absent old new s :
  Forall (fun c => c <> old) s -> Str.replace old new s = s.
Proof.
  induction 1 as [|c s Hc _ IH]; [reflexivity|].
  rewrite replace_cons, IH. now destruct (Z.eqb_spec c old).
Qed.

(** X18: [_escape_applescript_string] is lossless (reading the escaped
    text with backslash as the quoting character gives the text back, so
    two texts with the same escaped form are equal) and the escaped text
    holds no double quote that is not backslash-quoted and does not end in
    a quoting backslash. *)
Theorem escape_applescript_string_sound (s : list Z) :
  unescape (_escape_applescript_string s) = s
  /\ breaks_literal (_escape_applescript_string s) = false
  /\ (forall s', _escape_applescript_string s = _escape_applescript_string s'
                 -> s = s').
Proof.
  assert (Hun : forall t, unescape (_escape_applescript_string t) = t).
  { unfold _escape_applescript_string. induction t as [|c t IH];
      [reflexivity|].
    rewrite (replace_cons 92). destruct (Z.eqb_spec c 92) as [->|Hc].
    - rewrite replace_app. cbn. now rewrite IH.
    - rewrite replace_app. cbn [Str.replace flat_map app].
      destruct (Z.eqb_spec c 34) as [->|Hq].
      + cbn. now rewrite IH.
      + cbn [app unescape]. destruct (Z.eqb_spec c 92); [lia|].
        now rewrite IH. }
  split; [apply Hun|]. split.
  - unfold _escape_applescript_string. induction s as [|c s IH];
      [reflexivity|].
    rewrite (replace_cons 92). destruct (Z.eqb_spec c 92) as [->|Hc].
    + rewrite replace_app. cbn. exact IH.
    + rewrite replace_app. cbn [Str.replace flat_map app].
      destruct (Z.eqb_spec c 34) as [->|Hq].
      * cbn. exact IH.
      * cbn [app breaks_literal].
        destruct (Z.eqb_spec c 92); [lia|].
        destruct (Z.eqb_spec c 34); [lia|]. exact IH.
  - intros s' E. rewrite <- (Hun s), <- (Hun s'). now rewrite E.
Qed.

(** ** The holiday CSV reader *)

Section ReaderFacts.
Variables (isspace isdigit : Z -> bool) (decimal : Z -> option Z).

Abbreviation parse := (Csv._try_parse_holiday_token isspace isdigit decimal).
Abbreviation tokens_of := (Csv.line_tokens isspace).
Abbreviation add_tokens := (Csv.add_tokens isspace isdigit decimal).
Abbreviation add_lines := (Csv.add_lines isspace isdigit decimal).
Abbreviation load := (Csv.load_holiday_keys isspace isdigit decimal).

Lemma int_digits_raise s : forall acc e,
  Csv.int_digits decimal acc s = Raise e -> e = ValueError.
Proof.
  induction s as [|c s IH]; intros acc e; cbn; [discriminate|].
  destruct (decimal c); [apply IH|now intros [= <-]].
Qed.

Lemma mk_date_ok y m d x :
  mk_date y m d = Ok x -> x = Date y m d /\ valid_date x = true.
Proof.
  unfold mk_date. destruct (valid_date (Date y m d)) eqn:Hv; [|discriminate].
  now intros [= <-].
Qed.

Lemma mk_date_raise y m d e : mk_date y m d = Raise e -> e = ValueError.
Proof. unfold mk_date. destruct (valid_date _); [discriminate|congruence]. Qed.

Lemma parse_result token :
  (forall d, parse token = Ok (Some d) ->
     valid_date d = true /\ 1900 < year d)
  /\ (forall e, parse token = Raise e -> e = ValueError).
Proof.
  unfold Csv._try_parse_holiday_token.
  destruct (Str.is_empty _); [split; intros; discriminate|].
  destruct (negb _ || negb _); [split; intros; discriminate|].
  destruct (Csv.int_digits decimal 0 (Csv.slice 0 4 _)) as [y|e1] eqn:Hy;
    cbn [rbind];
    [|split; [discriminate|intros e [= <-]; eapply int_digits_raise; eauto]].
  destruct (Csv.int_digits decimal 0 (Csv.slice 4 6 _)) as [m|e1] eqn:Hm;
    cbn [rbind];
    [|split; [discriminate|intros e [= <-]; eapply int_digits_raise; eauto]].
  destruct (Csv.int_digits decimal 0 (Csv.slice 6 8 _)) as [dd|e1] eqn:Hd;
    cbn [rbind];
    [|split; [discriminate|intros e [= <-]; eapply int_digits_raise; eauto]].
  destruct (Z.leb_spec y 1900); cbn [orb]; [split; intros; discriminate|].
  destruct ((m <? 1) || (12 <? m)); [split; intros; discriminate|].
  destruct ((dd <? 1) || (_days_in_month y m <? dd));
    [split; intros; discriminate|].
  destruct (mk_date y m dd) as [x|e1] eqn:Hx; cbn [rbind].
  - apply mk_date_ok in Hx as [-> Hv]. split; [|discriminate].
    intros d [= <-]. split; [exact Hv|exact H].
  - split; [discriminate|]. intros e [= <-]. eapply mk_date_raise; eauto.
Qed.

(** X19: a date returned by [_try_parse_holiday_token] is a valid date
    of the years 1901 to 9999; the only error the parser raises is
    [ValueError]; a token of whitespace only gives [None]. *)
Theorem try_parse_holiday_token_valid (token : list Z) :
  (forall d, parse token = Ok (Some d) ->
     valid_date d = true /\ 1901 <= year d <= 9999
     /\ 19010101 <= _date_key d <= 99991231)
  /\ (forall e, parse token = Raise e -> e = ValueError)
  /\ (Csv.strip isspace token = [] -> parse token = Ok None).
Proof.
  destruct (parse_result token) as [Hok Hraise].
  split; [|split; [exact Hraise|]].
  - intros d Hd. destruct (Hok d Hd) as [Hv Hy]. split; [exact Hv|].
    apply valid_date_unfold in Hv.
    pose proof (days_in_month_bounds (year d) (month d)).
    unfold _date_key. lia.
  - intros E. unfold Csv._try_parse_holiday_token. now rewrite E.
Qed.

Lemma add_tokens_spec ts : forall keys,
  add_tokens keys ts
  = let? k0 := add_tokens ∅ ts in Ok (k0 ∪ keys).
Proof.
  induction ts as [|t ts IH]; intros keys; cbn [Csv.add_tokens].
  - cbn [rbind]. now rewrite union_empty_l_L.
  - destruct (parse t) as [[d|]|e]; cbn [rbind]; [| |reflexivity].
    + rewrite (IH ({[_date_key d]} ∪ keys)), (IH ({[_date_key d]} ∪ ∅)).
      destruct (add_tokens ∅ ts); cbn [rbind]; [|reflexivity].
      now rewrite union_empty_r_L, (assoc_L (∪)).
    + apply IH.
Qed.

Lemma add_tokens_keys ts : forall k,
  add_tokens ∅ ts = Ok k -> forall x, x ∈ k -> holiday_key x.
Proof.
  induction ts as [|t ts IH]; intros k; cbn [Csv.add_tokens].
  - intros [= <-] x Hx. now apply not_elem_of_empty in Hx.
  - destruct (parse t) as [[d|]|e] eqn:Hp; cbn [rbind]; [| |discriminate].
    + rewrite add_tokens_spec.
      destruct (add_tokens ∅ ts) as [k0|] eqn:Hk0; [|discriminate].
      cbn [rbind]. intros [= <-] x Hx.
      apply elem_of_union in Hx as [Hx|Hx]; [now apply (IH k0)|].
      destruct (proj1 (parse_result t) d Hp) as [Hv Hy].
      rewrite union_empty_r_L, elem_of_singleton in Hx.
      exists d. auto.
    + apply IH.
Qed.

Lemma add_tokens_raise ts : forall keys e,
  add_tokens keys ts = Raise e -> e = ValueError.
Proof.
  induction ts as [|t ts IH]; intros keys e; cbn [Csv.add_tokens];
    [discriminate|].
  destruct (parse t) as [[d|]|e1] eqn:Hp; cbn [rbind]; [apply IH|apply IH|].
  intros [= <-]. exact (proj2 (parse_result t) _ Hp).
Qed.

Lemma add_lines_spec lines : forall keys,
  add_lines keys lines
  = let? k0 := add_lines ∅ lines in Ok (k0 ∪ keys).
Proof.
  induction lines as [|l lines IH]; intros keys; cbn [Csv.add_lines].
  - cbn [rbind]. now rewrite union_empty_l_L.
  - rewrite (add_tokens_spec (tokens_of l) keys).
    destruct (add_tokens ∅ (tokens_of l)) as [k1|e]; cbn [rbind];
      [|reflexivity].
    rewrite (IH (k1 ∪ keys)), (IH k1).
    destruct (add_lines ∅ lines); cbn [rbind]; [|reflexivity].
    now rewrite (assoc_L (∪)).
Qed.

Lemma add_lines_app l1 l2 :
  add_lines ∅ (l1 ++ l2)
  = let? k1 := add_lines ∅ l1 in
    let? k2 := add_lines ∅ l2 in Ok (k2 ∪ k1).
Proof.
  induction l1 as [|l l1 IH]; cbn [app Csv.add_lines].
  - cbn [rbind]. destruct (add_lines ∅ l2); cbn [rbind]; [|reflexivity].
    now rewrite union_empty_r_L.
  - destruct (add_tokens ∅ (tokens_of l)) as [k0|e]; cbn [rbind];
      [|reflexivity].
    rewrite (add_lines_spec (l1 ++ l2) k0), (add_lines_spec l1 k0), IH.
    destruct (add_lines ∅ l1); cbn [rbind]; [|reflexivity].
    destruct (add_lines ∅ l2); cbn [rbind]; [|reflexivity].
    now rewrite (assoc_L (∪)).
Qed.

Lemma add_lines_keys lines : forall k,
  add_lines ∅ lines = Ok k -> forall x, x ∈ k -> holiday_key x.
Proof.
  induction lines as [|l lines IH]; intros k; cbn [Csv.add_lines].
  - intros [= <-] x Hx. now apply not_elem_of_empty in Hx.
  - destruct (add_tokens ∅ (tokens_of l)) as [k0|e] eqn:Hk0; [|discriminate].
    cbn [rbind]. rewrite add_lines_spec.
    destruct (add_lines ∅ lines) as [k1|] eqn:Hk1; [|discriminate].
    cbn [rbind]. intros [= <-] x Hx.
    apply elem_of_union in Hx as [Hx|Hx];
      [now apply (IH k1)|now apply (add_tokens_keys _ _ Hk0)].
Qed.

Lemma add_lines_raise lines : forall keys e,
  add_lines keys lines = Raise e -> e = ValueError.
Proof.
  induction lines as [|l lines IH]; intros keys e; cbn [Csv.add_lines];
    [discriminate|].
  destruct (add_tokens keys (tokens_of l)) as [k0|e1] eqn:Hk; cbn [rbind];
    [apply IH|].
  intros [= <-]. eapply add_tokens_raise; eauto.
Qed.

(** X21: the set [load_holiday_keys] returns is not empty and holds only
    keys of valid dates, between 19010101 and 99991231; it raises
    [FileNotFoundError] exactly for a missing file, and otherwise only
    [ValueError], in particular when no token of the file is a date. *)
Theorem load_holiday_keys_result (file : option (list (list Z))) :
  (forall keys, load file = Ok keys ->
     keys <> ∅
     /\ forall k, k ∈ keys ->
          19010101 <= k <= 99991231
          /\ exists d, valid_date d = true /\ k = _date_key d)
  /\ (forall e, load file = Raise e ->
        (e = FileNotFoundError /\ file = None)
        \/ (e = ValueError /\ file <> None))
  /\ (forall lines, add_lines ∅ lines = Ok ∅ ->
        load (Some lines) = Raise ValueError)
  /\ Csv.load_holiday_keys isspace isdigit decimal None
     = Raise FileNotFoundError
  /\ (forall lines e,
        load (Some lines) = Raise e <->
        add_lines ∅ lines = Ok ∅ /\ e = ValueError
        \/ add_lines ∅ lines = Raise e)
  /\ (forall lines keys,
        load (Some lines) = Ok keys <->
        add_lines ∅ lines = Ok keys /\ keys <> ∅).
Proof.
  unfold Csv.load_holiday_keys. split; [|split; [|split; [|split; [|split]]]].
  4: reflexivity.
  4: { intros lines e. destruct (add_lines ∅ lines) as [k0|e1]; cbn [rbind].
       - destruct (decide (k0 = ∅)) as [->|Hne].
         + split; [intros [= <-]; auto|].
           intros [[_ ->]|?]; [reflexivity|discriminate].
         + split; [discriminate|].
           intros [[[= ->] _]|?]; [contradiction|discriminate].
       - split; [intros [= <-]; auto|].
         intros [[? _]|[= ->]]; [discriminate|reflexivity]. }
  4: { intros lines keys.
       destruct (add_lines ∅ lines) as [k0|e1]; cbn [rbind].
       - destruct (decide (k0 = ∅)) as [->|Hne].
         + split; [discriminate|]. intros [[= <-] H]. contradiction.
         + split; [intros [= <-]; auto|]. now intros [[= <-] _].
       - split; [discriminate|]. intros [? _]. discriminate. }
  - intros keys. destruct file as [lines|]; [|discriminate].
    destruct (add_lines ∅ lines) as [k0|] eqn:Hk; [|discriminate].
    cbn [rbind]. destruct (decide (k0 = ∅)); [discriminate|].
    intros [= <-]. split; [assumption|]. intros k Hin.
    destruct (add_lines_keys _ _ Hk k Hin) as (d & Hv & Hy & ->).
    split; [|eauto]. apply valid_date_unfold in Hv.
    pose proof (days_in_month_bounds (year d) (month d)).
    unfold _date_key. lia.
  - intros e. destruct file as [lines|]; [|intros [= <-]; auto].
    right. split; [|discriminate].
    destruct (add_lines ∅ lines) as [k0|e1] eqn:Hk; cbn [rbind] in H.
    + destruct (decide (k0 = ∅)); congruence.
    + injection H as <-. eapply add_lines_raise; eauto.
  - intros lines ->. cbn [rbind]. now destruct (decide (∅ = ∅)).
Qed.

(** X22: the result of [load_holiday_keys] does not depend on the order
    of the lines nor on repeated lines, and the keys of two files put
    together are the union of their key sets. *)
Theorem load_holiday_keys_lines_compose (l1 l2 : list (list Z)) :
  let load := Csv.load_holiday_keys isspace isdigit decimal in
  load (Some (l1 ++ l2)) = load (Some (l2 ++ l1))
  /\ load (Some (l1 ++ l1)) = load (Some l1)
  /\ (forall k1 k2,
        load (Some l1) = Ok k1 -> load (Some l2) = Ok k2 ->
        load (Some (l1 ++ l2)) = Ok (k1 ∪ k2)).
Proof.
  cbv zeta. unfold Csv.load_holiday_keys. rewrite !add_lines_app.
  destruct (add_lines ∅ l1) as [k1|e1] eqn:H1;
    destruct (add_lines ∅ l2) as [k2|e2] eqn:H2; cbn [rbind].
  - split; [now rewrite (comm_L (∪) k1 k2)|].
    split; [now rewrite union_idemp_L|].
    intros k1' k2'.
    destruct (decide (k1 = ∅)); [discriminate|].
    destruct (decide (k2 = ∅)); [discriminate|].
    intros [= <-] [= <-].
    destruct (decide (k2 ∪ k1 = ∅)) as [E|_].
    + apply empty_union_L in E as [? ?]. contradiction.
    + now rewrite (comm_L (∪) k1 k2).
  - split; [reflexivity|]. split; [now rewrite union_idemp_L|].
    intros; discriminate.
  - split; [reflexivity|]. split; [reflexivity|]. intros; discriminate.
  - apply add_lines_raise in H1, H2. subst.
    split; [reflexivity|]. split; [reflexivity|]. intros; discriminate.
Qed.

End ReaderFacts.

Lemma lstrip_by_spaces p ws s :
  forallb p ws = true -> Str.lstrip_by p (ws ++ s) = Str.lstrip_by p s.
Proof.
  induction ws as [|c ws IH]; cbn; [reflexivity|].
  intros H. apply andb_true_iff in H as [-> H]. auto.
Qed.

Lemma lstrip_by_keep p c s :
  p c = false -> Str.lstrip_by p (c :: s) = c :: s.
Proof. cbn. now intros ->. Qed.

Lemma forallb_rev {A} (p : A -> bool) l :
  forallb p (rev l) = forallb p l.
Proof.
  induction l as [|x l IH]; [reflexivity|]. cbn.
  rewrite forallb_app, IH. cbn. now rewrite andb_true_r, andb_comm.
Qed.

(** Stripping a padded string whose ends are not stripped characters. *)
Lemma strip_by_padded p ws1 ws2 c1 mid c2 :
  forallb p ws1 = true -> forallb p ws2 = true ->
  p c1 = false -> p c2 = false ->
  Str.strip_by p (ws1 ++ (c1 :: mid ++ [c2]) ++ ws2) = c1 :: mid ++ [c2].
Proof.
  intros H1 H2 Hc1 Hc2. unfold Str.strip_by, Str.rstrip_by.
  rewrite lstrip_by_spaces by assumption.
  cbn [app]. rewrite lstrip_by_keep by assumption.
  change (c1 :: (mid ++ [c2]) ++ ws2) with ((c1 :: mid ++ [c2]) ++ ws2).
  rewrite rev_app_distr, lstrip_by_spaces by now rewrite forallb_rev.
  change (c1 :: mid ++ [c2]) with ((c1 :: mid) ++ [c2]).
  rewrite rev_app_distr. cbn [rev app].
  rewrite lstrip_by_keep by assumption.
  change (c2 :: rev mid ++ [c1]) with ([c2] ++ (rev mid ++ [c1])).
  rewrite rev_app_distr, rev_app_distr, rev_involutive. reflexivity.
Qed.

Section AsciiDates.
Variables (isspace isdigit : Z -> bool) (decimal : Z -> option Z).

(** The ASCII digits in the Unicode tables. *)
Hypothesis ascii_digits : forall v, 0 <= v <= 9 ->
  isdigit (48 + v) = true /\ decimal (48 + v) = Some v
  /\ isspace (48 + v) = false.

Lemma digit_facts n :
  let c := 48 + n mod 10 in
  isdigit c = true /\ decimal c = Some (n mod 10) /\ isspace c = false
  /\ 48 <= c <= 57.
Proof.
  intros c. subst c. pose proof (Z.mod_pos_bound n 10 ltac:(lia)).
  destruct (ascii_digits (n mod 10) ltac:(lia)) as (? & ? & ?).
  repeat split; auto; lia.
Qed.

Ltac decide_eqb :=
  repeat match goal with
  | |- context [?c =? ?k] =>
      first [ rewrite (Z.eqb_refl c)
            | let H := fresh in
              assert (H : (c =? k) = false) by (apply Z.eqb_neq; lia);
              rewrite H; clear H ]
  end.

(** X20: every valid date after 1900 written as [YYYYMMDD], [YYYY-MM-DD],
    [YYYY/MM/DD] or [YYYY.MM.DD] with ASCII digits, with any whitespace
    around it, is parsed by [_try_parse_holiday_token] to that date. *)
Theorem try_parse_holiday_token_formats
    (d : date) (sep ws1 ws2 : list Z) :
  valid_date d = true -> 1900 < year d ->
  sep ∈ [[]; [45]; [47]; [46]] ->
  forallb isspace ws1 = true -> forallb isspace ws2 = true ->
  Csv._try_parse_holiday_token isspace isdigit decimal
    (ws1 ++ date_token sep d ++ ws2) = Ok (Some d).
Proof.
  intros Hv Hy Hsep Hws1 Hws2. pose proof Hv as Hv'.
  apply valid_date_unfold in Hv'. destruct Hv' as (Hyr & Hm & Hd).
  pose proof (days_in_month_bounds (year d) (month d)) as Hdim.
  destruct (digit_facts (year d / 1000)) as (Hy1 & Hy1' & Hy1s & Hy1r).
  destruct (digit_facts (year d / 100)) as (Hy2 & Hy2' & Hy2s & Hy2r).
  destruct (digit_facts (year d / 10)) as (Hy3 & Hy3' & Hy3s & Hy3r).
  destruct (digit_facts (year d)) as (Hy4 & Hy4' & Hy4s & Hy4r).
  destruct (digit_facts (month d / 10)) as (Hm1 & Hm1' & Hm1s & Hm1r).
  destruct (digit_facts (month d)) as (Hm2 & Hm2' & Hm2s & Hm2r).
  destruct (digit_facts (day d / 10)) as (Hd1 & Hd1' & Hd1s & Hd1r).
  destruct (digit_facts (day d)) as (Hd2 & Hd2' & Hd2s & Hd2r).
  unfold date_token, digits4, digits2.
  set (y1 := 48 + year d / 1000 mod 10) in *.
  set (y2 := 48 + year d / 100 mod 10) in *.
  set (y3 := 48 + year d / 10 mod 10) in *.
  set (y4 := 48 + year d mod 10) in *.
  set (m1 := 48 + month d / 10 mod 10) in *.
  set (m2 := 48 + month d mod 10) in *.
  set (d1 := 48 + day d / 10 mod 10) in *.
  set (d2 := 48 + day d mod 10) in *.
  assert (Hvalue :
    Csv.int_digits decimal 0 [y1; y2; y3; y4] = Ok (year d)
    /\ Csv.int_digits decimal 0 [m1; m2] = Ok (month d)
    /\ Csv.int_digits decimal 0 [d1; d2] = Ok (day d)).
  { cbn [Csv.int_digits].
    rewrite Hy1', Hy2', Hy3', Hy4', Hm1', Hm2', Hd1', Hd2'.
    repeat split; f_equal; Z.div_mod_to_equations; lia. }
  destruct Hvalue as (Hyv & Hmv & Hdv).
  clearbody y1 y2 y3 y4 m1 m2 d1 d2.
  unfold Csv._try_parse_holiday_token, Csv.strip.
  replace ([y1; y2; y3; y4] ++ sep ++ [m1; m2] ++ sep ++ [d1; d2])
    with (y1 :: ([y2; y3; y4] ++ sep ++ [m1; m2] ++ sep ++ [d1]) ++ [d2])
    by (repeat (cbn [app]; rewrite <- ?app_assoc); reflexivity).
  rewrite strip_by_padded by assumption.
  rewrite !elem_of_cons, elem_of_nil in Hsep.
  destruct Hsep as [->|[->|[->|[->|[]]]]].
  all: repeat (cbn [Str.replace flat_map app]; progress decide_eqb);
    cbn [app].
  all: match goal with
       | |- context [Str.strip_by isspace (?c1 :: ?l)] =>
           let mid := eval cbn in (removelast l) in
           replace (Str.strip_by isspace (c1 :: l)) with (c1 :: l)
             by (symmetry;
                 apply (strip_by_padded isspace [] [] c1 mid d2);
                 auto)
       end.
  all: cbn [Str.is_empty fold_left];
    repeat (cbn [Str.replace flat_map app]; progress decide_eqb);
    cbn [app].
  all: replace (Str.strip_by isspace [y1; y2; y3; y4; m1; m2; d1; d2])
         with [y1; y2; y3; y4; m1; m2; d1; d2]
         by (symmetry;
             apply (strip_by_padded isspace [] [] y1
                      [y2; y3; y4; m1; m2; d1] d2); auto).
  all: cbn [length Nat.eqb negb forallb orb Csv.slice take drop Nat.sub].
  all: rewrite Hy1, Hy2, Hy3, Hy4, Hm1, Hm2, Hd1, Hd2; cbn [andb negb].
  all: rewrite Hyv, Hmv, Hdv; cbn [rbind].
  all: destruct (Z.leb_spec (year d) 1900); [lia|];
    destruct (Z.ltb_spec (month d) 1); [lia|];
    destruct (Z.ltb_spec 12 (month d)); [lia|];
    destruct (Z.ltb_spec (day d) 1); [lia|];
    destruct (Z.ltb_spec (_days_in_month (year d) (month d)) (day d)); [lia|].
  all: cbn [orb]; unfold mk_date; rewrite date_eta, Hv; reflexivity.
Qed.

End AsciiDates.

Lemma try_parse_holiday_token_formats_witness :
  Csv._try_parse_holiday_token Csv.ascii_isspace Csv.ascii_isdigit
    Csv.ascii_decimal (Str.of_ascii " 2026/01/12 ")
  = Ok (Some (Date 2026 1 12)).
Proof.
  apply (try_parse_holiday_token_formats Csv.ascii_isspace Csv.ascii_isdigit
           Csv.ascii_decimal) with (d := Date 2026 1 12) (sep := [47])
           (ws1 := [32]) (ws2 := [32]).
  - intros v Hv.
    assert (v = 0 \/ v = 1 \/ v = 2 \/ v = 3 \/ v = 4 \/ v = 5 \/ v = 6
            \/ v = 7 \/ v = 8 \/ v = 9) as Hcases by lia.
    repeat (destruct Hcases as [->|Hcases]; [repeat split|]).
    subst. repeat split.
  - reflexivity.
  - reflexivity.
  - rewrite !elem_of_cons. tauto.
  - reflexivity.
  - reflexivity.
Defined.

(** ** Stripping *)

Lemma lstrip_by_stop p s :
  (forall c, head s = Some c -> p c = false) -> Str.lstrip_by p s = s.
Proof.
  destruct s as [|c s]; [reflexivity|]. cbn. intros H.
  now rewrite (H c eq_refl).
Qed.

Lemma head_rev {A} (s : list A) : head (rev s) = last s.
Proof.
  induction s as [|x s _] using rev_ind; [reflexivity|].
  rewrite rev_app_distr, last_snoc. reflexivity.
Qed.

Lemma rstrip_by_stop p s :
  (forall c, last s = Some c -> p c = false) -> Str.rstrip_by p s = s.
Proof.
  intros H. unfold Str.rstrip_by. rewrite lstrip_by_stop.
  - apply rev_involutive.
  - intros c. rewrite head_rev. apply H.
Qed.

Lemma rstrip_by_spaces p s ws :
  forallb p ws = true -> Str.rstrip_by p (s ++ ws) = Str.rstrip_by p s.
Proof.
  intros H. unfold Str.rstrip_by.
  now rewrite rev_app_distr, lstrip_by_spaces by now rewrite forallb_rev.
Qed.

Lemma forallb_repeat (p : Z -> bool) c n :
  p c = true -> forallb p (repeat c n) = true.
Proof. intros H. induction n; cbn; [reflexivity|]. now rewrite H. Qed.

Lemma strip_by_inner p ws1 s ws2 :
  forallb p ws1 = true -> forallb p ws2 = true ->
  (forall c, head s = Some c -> p c = false) ->
  (forall c, last s = Some c -> p c = false) ->
  Str.strip_by p (ws1 ++ s ++ ws2) = s.
Proof.
  intros H1 H2 Hh Hl. unfold Str.strip_by.
  rewrite lstrip_by_spaces by assumption.
  destruct s as [|c s].
  - cbn [app]. rewrite <- (app_nil_r ws2).
    now rewrite lstrip_by_spaces by assumption.
  - rewrite lstrip_by_stop by (cbn [app head]; intros ? [= <-]; auto).
    rewrite rstrip_by_spaces by assumption. now apply rstrip_by_stop.
Qed.

Lemma head_repeat_app (c : Z) m s x :
  head (repeat c m ++ s) = Some x -> x = c \/ head s = Some x.
Proof. destruct m; cbn; [auto|]. intros [= <-]. auto. Qed.

Lemma last_repeat_app (c : Z) m s x :
  last (repeat c m ++ s) = Some x -> x = c \/ last s = Some x.
Proof.
  destruct s as [|y s _] using rev_ind.
  - rewrite app_nil_r. destruct m; [discriminate|].
    replace (repeat c (S m)) with (repeat c m ++ [c])
      by (now rewrite <- repeat_cons).
    rewrite last_snoc. intros [= <-]. auto.
  - rewrite app_assoc, !last_snoc. auto.
Qed.

(** X24: the URL of the ntfy call is the server, one slash and the topic,
    whatever the number of slashes that end the server or start the topic
    and whatever whitespace surrounds the topic. *)
Theorem ntfy_url_join
    (isspace : Z -> bool) (server topic ws1 ws2 : list Z) (n m : nat) :
  isspace 47 = false ->
  last server <> Some 47 ->
  (forall c, head topic = Some c -> isspace c = false /\ c <> 47) ->
  (forall c, last topic = Some c -> isspace c = false) ->
  forallb isspace ws1 = true -> forallb isspace ws2 = true ->
  ntfy_url isspace (server ++ repeat 47 n)
    (ws1 ++ repeat 47 m ++ topic ++ ws2)
  = server ++ [47] ++ topic.
Proof.
  intros Hslash Hserver Hhead Hlast Hws1 Hws2. unfold ntfy_url.
  rewrite rstrip_by_spaces by (apply forallb_repeat, Z.eqb_refl).
  rewrite rstrip_by_stop.
  2: { intros c Hc. apply Z.eqb_neq. intros <-. contradiction. }
  do 2 f_equal.
  rewrite (app_assoc (repeat 47 m)), strip_by_inner; try assumption.
  - rewrite lstrip_by_spaces by (apply forallb_repeat, Z.eqb_refl).
    apply lstrip_by_stop. intros c Hc. apply Z.eqb_neq.
    destruct (Hhead c Hc) as [_ Hne]. congruence.
  - intros c [->|Hc]%head_repeat_app; [assumption|now apply Hhead].
  - intros c [->|Hc]%last_repeat_app; [assumption|now apply Hlast].
Qed.

Lemma ntfy_url_join_witness :
  ntfy_url Csv.ascii_isspace (Str.of_ascii "https://ntfy.sh//")
    (Str.of_ascii " /my_topic ")
  = Str.of_ascii "https://ntfy.sh/my_topic".
Proof.
  apply (ntfy_url_join Csv.ascii_isspace (Str.of_ascii "https://ntfy.sh")
           (Str.of_ascii "my_topic") [32] [32] 2 1).
  - reflexivity.
  - discriminate.
  - intros c [= <-]. split; [reflexivity|discriminate].
  - intros c [= <-]. reflexivity.
  - reflexivity.
  - reflexivity.
Defined.

(** ** Comments in a holiday file *)

Lemma lstrip_by_split p s :
  exists ws,
    forallb p ws = true /\ s = ws ++ Str.lstrip_by p s
    /\ forall c, head (Str.lstrip_by p s) = Some c -> p c = false.
Proof.
  induction s as [|x s (ws & Hws & Hs & Hh)].
  - exists []. repeat split. discriminate.
  - cbn [Str.lstrip_by]. destruct (p x) eqn:Hx.
    + exists (x :: ws). cbn [forallb app]. rewrite Hx, Hws.
      repeat split; [now f_equal|exact Hh].
    + exists []. repeat split. now intros c [= <-].
Qed.

Lemma lstrip_by_app_stop p s c rest :
  p c = false ->
  Str.lstrip_by p (s ++ c :: rest) = Str.lstrip_by p s ++ c :: rest.
Proof.
  intros Hc. induction s as [|x s IH]; cbn [app Str.lstrip_by].
  - now rewrite Hc.
  - now destruct (p x).
Qed.

Lemma rstrip_by_app_stop p s c rest :
  p c = false ->
  Str.rstrip_by p (s ++ c :: rest) = s ++ c :: Str.rstrip_by p rest.
Proof.
  intros Hc. unfold Str.rstrip_by.
  rewrite rev_app_distr. cbn [rev]. rewrite <- app_assoc. cbn [app].
  rewrite lstrip_by_app_stop by assumption.
  rewrite rev_app_distr. cbn [rev]. rewrite rev_involutive, <- app_assoc.
  reflexivity.
Qed.

Lemma rstrip_by_prefix p s : exists ws, s = Str.rstrip_by p s ++ ws.
Proof.
  unfold Str.rstrip_by.
  destruct (lstrip_by_split p (rev s)) as (ws & _ & Hs & _).
  exists (rev ws). rewrite <- rev_app_distr, <- Hs.
  now rewrite rev_involutive.
Qed.

Lemma startswith_char c s :
  Str.startswith [c] s = true <-> head s = Some c.
Proof.
  destruct s as [|x s]; cbn; [split; discriminate|].
  rewrite andb_true_r, Z.eqb_eq. split; congruence.
Qed.

Lemma find_absent c s : c ∉ s -> Str.find [c] s = -1.
Proof.
  induction s as [|x s IH]; intros Hc; [reflexivity|].
  apply not_elem_of_cons in Hc as [Hne Hc].
  cbn [Str.find Str.startswith].
  destruct (Z.eqb_spec x c); [congruence|]. cbn [andb].
  now rewrite (IH Hc).
Qed.

Lemma find_first c s rest :
  c ∉ s -> Str.find [c] (s ++ c :: rest) = Z.of_nat (length s).
Proof.
  induction s as [|x s IH]; intros Hc.
  - cbn. now rewrite Z.eqb_refl.
  - apply not_elem_of_cons in Hc as [Hne Hc].
    cbn [app Str.find Str.startswith length].
    destruct (Z.eqb_spec x c); [congruence|]. cbn [andb].
    rewrite (IH Hc).
    destruct (Z.ltb_spec (Z.of_nat (length s)) 0); lia.
Qed.

Lemma replace_elem old new s c :
  c ∈ Str.replace old new s -> c ∈ new \/ c ∈ s.
Proof.
  induction s as [|x s IH]; cbn; [auto|].
  unfold Str.replace in *. cbn [flat_map].
  rewrite elem_of_app. intros [H|H].
  - destruct (x =? old); [auto|].
    apply list_elem_of_singleton in H as ->. right. left.
  - destruct (IH H); [auto|]. right. now right.
Qed.

Section CommentFacts.
Variable isspace : Z -> bool.

Lemma rstrip_by_keep_head p c s :
  p c = false -> Str.rstrip_by p (c :: s) = c :: Str.rstrip_by p s.
Proof. intros H. apply (rstrip_by_app_stop p [] c s H). Qed.

Lemma startswith_slash_rstrip p s rest :
  p 47 = false ->
  Str.startswith [47] (s ++ 35 :: rest)
  = Str.startswith [47] (Str.rstrip_by p s).
Proof.
  intros H47. destruct s as [|c s]; [reflexivity|].
  cbn [app Str.startswith]. destruct (Z.eqb_spec c 47) as [->|Hne].
  - rewrite rstrip_by_keep_head by assumption. cbn.
    reflexivity.
  - destruct (rstrip_by_prefix p (c :: s)) as [ws Hp].
    destruct (Str.rstrip_by p (c :: s)) as [|y r]; [reflexivity|].
    injection Hp as <- _. cbn.
    destruct (Z.eqb_spec c 47); [contradiction|reflexivity].
Qed.

Lemma line_tokens_hash (a b : list Z) :
  isspace 35 = false -> 35 ∉ a ->
  Csv.line_tokens isspace (a ++ 35 :: b) = Csv.line_tokens isspace a.
Proof.
  intros Hsp Ha. unfold Csv.line_tokens, Csv.strip.
  rewrite replace_app, replace_cons.
  change (35 =? 13) with false. cbn iota. cbn [app].
  set (a' := Str.replace 13 [] a). set (b' := Str.replace 13 [] b).
  assert (Ha' : 35 ∉ a').
  { intros [H|H]%replace_elem; [|contradiction].
    now apply not_elem_of_nil in H. }
  destruct (lstrip_by_split isspace a') as (ws & Hws & Hsplit & Hhead).
  set (A := Str.lstrip_by isspace a') in *.
  assert (HA : 35 ∉ A).
  { intros H. apply Ha'. rewrite Hsplit. apply elem_of_app. now right. }
  assert (Hl : Str.strip_by isspace (a' ++ 35 :: b')
               = A ++ 35 :: Str.rstrip_by isspace b').
  { unfold Str.strip_by. rewrite lstrip_by_app_stop by assumption.
    fold A. now apply rstrip_by_app_stop. }
  assert (Hr : Str.strip_by isspace a' = Str.rstrip_by isspace A)
    by reflexivity.
  rewrite Hl, Hr. clearbody A. clear Hl Hr Hsplit.
  set (B := Str.rstrip_by isspace b'). clearbody B.
  assert (Hfind : Str.find [35] (A ++ 35 :: B) = Z.of_nat (length A))
    by now apply find_first.
  assert (Hnone : Str.find [35] (Str.rstrip_by isspace A) = -1).
  { apply find_absent. intros H. apply HA.
    destruct (rstrip_by_prefix isspace A) as [ws' Hp].
    rewrite Hp. apply elem_of_app. now left. }
  assert (Hcut : Str.strip_by isspace (take (length A) (A ++ 35 :: B))
                 = Str.rstrip_by isspace A).
  { rewrite take_app_length. unfold Str.strip_by.
    now rewrite lstrip_by_stop. }
  rewrite Hfind, Hnone, Nat2Z.id, Hcut.
  replace (0 <=? Z.of_nat (length A)) with true
    by (symmetry; apply Z.leb_le; lia).
  change (0 <=? -1) with false. cbn iota.
  destruct A as [|c A].
  { reflexivity. }
  specialize (Hhead c eq_refl).
  apply not_elem_of_cons in HA as [Hc HA].
  rewrite (rstrip_by_keep_head isspace c A Hhead).
  cbn [app Str.is_empty Str.startswith].
  destruct (Z.eqb_spec c 35) as [?|_]; [congruence|]. cbn [andb orb].
  destruct (Z.eqb_spec c 47) as [->|_]; [|reflexivity]. cbn [andb].
  pose proof (startswith_slash_rstrip isspace A B Hhead) as Hss.
  cbn [Str.startswith] in Hss. now rewrite Hss.
Qed.

End CommentFacts.

Lemma forallb_replace_nil p old s :
  forallb p s = true -> forallb p (Str.replace old [] s) = true.
Proof.
  unfold Str.replace. induction s as [|c s IH]; [reflexivity|].
  cbn [forallb flat_map]. intros [Hc Hs]%andb_true_iff.
  destruct (c =? old); cbn [app forallb]; [auto|].
  now rewrite Hc, IH.
Qed.

Lemma lstrip_by_all p s : forallb p s = true -> Str.lstrip_by p s = [].
Proof.
  intros H. rewrite <- (app_nil_r s). now rewrite lstrip_by_spaces.
Qed.

Lemma forallb_not_elem p (c : Z) s :
  p c = false -> forallb p s = true -> c ∉ s.
Proof.
  intros Hc Hs Hin. induction Hin as [c s|c x s _ IH]; cbn in Hs;
    apply andb_true_iff in Hs as [? ?]; [congruence|auto].
Qed.

Section Comments.
Variables (isspace isdigit : Z -> bool) (decimal : Z -> option Z).

Abbreviation tokens_of := (Csv.line_tokens isspace).
Abbreviation load := (Csv.load_holiday_keys isspace isdigit decimal).

Lemma line_tokens_blank ws : forallb isspace ws = true -> tokens_of ws = [].
Proof.
  intros H. unfold Csv.line_tokens, Csv.strip, Str.strip_by.
  now rewrite lstrip_by_all by now apply forallb_replace_nil.
Qed.

Lemma line_tokens_slashes ws b :
  isspace 47 = false -> forallb isspace ws = true ->
  tokens_of (ws ++ 47 :: 47 :: b) = [].
Proof.
  intros H47 Hws. unfold Csv.line_tokens, Csv.strip, Str.strip_by.
  rewrite replace_app, !replace_cons. change (47 =? 13) with false.
  cbn iota. cbn [app].
  rewrite lstrip_by_spaces by now apply forallb_replace_nil.
  cbn [Str.lstrip_by]. rewrite H47.
  rewrite !rstrip_by_keep_head by assumption.
  cbn. reflexivity.
Qed.

Lemma load_line_tokens l1 l2 c c' :
  tokens_of c = tokens_of c' ->
  load (Some (l1 ++ c :: l2)) = load (Some (l1 ++ c' :: l2)).
Proof.
  intros H. unfold Csv.load_holiday_keys.
  rewrite !add_lines_app. cbn [Csv.add_lines]. now rewrite H.
Qed.

Lemma load_line_skipped l1 l2 c :
  tokens_of c = [] ->
  load (Some (l1 ++ c :: l2)) = load (Some (l1 ++ l2)).
Proof.
  intros H. unfold Csv.load_holiday_keys.
  rewrite !add_lines_app. cbn [Csv.add_lines]. now rewrite H.
Qed.

(** X23: in a holiday file, what follows the first [#] of a line is
    ignored, and a line that is blank or starts (after whitespace) with [#]
    or [//] contributes nothing. *)
Theorem load_holiday_keys_comments
    (l1 l2 : list (list Z)) (a b ws : list Z) :
  isspace 35 = false -> 35 ∉ a -> forallb isspace ws = true ->
  let load := Csv.load_holiday_keys isspace isdigit decimal in
  load (Some (l1 ++ (a ++ 35 :: b) :: l2)) = load (Some (l1 ++ a :: l2))
  /\ load (Some (l1 ++ (ws ++ 35 :: b) :: l2)) = load (Some (l1 ++ l2))
  /\ load (Some (l1 ++ ws :: l2)) = load (Some (l1 ++ l2))
  /\ (isspace 47 = false ->
      load (Some (l1 ++ (ws ++ 47 :: 47 :: b) :: l2))
      = load (Some (l1 ++ l2))).
Proof.
  intros Hsp Ha Hws load. subst load. split; [|split; [|split]].
  - apply load_line_tokens. now apply line_tokens_hash.
  - apply load_line_skipped. rewrite line_tokens_hash.
    + now apply line_tokens_blank.
    + assumption.
    + now apply (forallb_not_elem isspace).
  - apply load_line_skipped. now apply line_tokens_blank.
  - intros H47. apply load_line_skipped. now apply line_tokens_slashes.
Qed.

End Comments.

Lemma load_holiday_keys_comments_witness :
  Csv.load_holiday_keys Csv.ascii_isspace Csv.ascii_isdigit Csv.ascii_decimal
    (Some [Str.of_ascii "date,name";
           Str.of_ascii "2026-01-12 # Coming of Age Day"])
  = Csv.load_holiday_keys Csv.ascii_isspace Csv.ascii_isdigit Csv.ascii_decimal
      (Some [Str.of_ascii "date,name"; Str.of_ascii "2026-01-12 "]).
Proof.
  apply (load_holiday_keys_comments Csv.ascii_isspace Csv.ascii_isdigit
           Csv.ascii_decimal [Str.of_ascii "date,name"] []
           (Str.of_ascii "2026-01-12 ") (Str.of_ascii " Coming of Age Day")
           []).
  - reflexivity.
  - vm_compute. intros H. repeat (apply elem_of_cons in H as [H|H];
      [discriminate|]). now apply not_elem_of_nil in H.
  - reflexivity.
Defined.
